(* ===== verification/_CoqProject ===== *)
-Q . S2P
Prelude.v
PyStr.v
UrlParser.v
Json.v
JsonLoads.v
JsonRoundtrip.v
Base64.v
Services.v
Traces.v
Logging.v
Fetcher.v
Templates.v
Agent.v
Flow.v
Tests.v
