(* ===== verification/Prelude.v ===== *)
(** * A verification development of [src/langchain_flow.py]

    The program (253 lines of Python) turns the URL of a GitHub repository
    holding a Chrome extension into three drafts of the Chrome Web Store
    forms.  It is a linear pipeline:

    - the URL parser [parse_github_url] (lines 124-130) extracts the owner
      and the repository name with [re.search] and [str.rstrip('.git')];
    - the repository fetcher [get_file_content_safe] (lines 132-138) asks
      the GitHub API for one file and decodes it ([base64.b64decode] then
      UTF-8), turning any failure into [None]; [or] chains of it try the
      privacy-policy and license candidates in order (lines 171-179);
    - the context assembler [analyze_github_repo] (lines 140-207) fetches
      [manifest.json], parses it with [json.loads], fetches the optional
      files, builds an 18-key dict and returns [json.dumps(context,
      indent=2)]; every exception becomes an ["Error analyzing
      repository: ..."] string;
    - the prompt templates (lines 33-118) are module constants;
    - the completion agent [agent_tool] (lines 209-224) sends one system and
      one user message to the Azure chat-completion client and returns the
      first choice's text, or ["Error: ..."];
    - the flow orchestrator [run_agentic_flow] (lines 226-240) runs the three
      agents in a fixed order and prints each answer under a header;
    - the start-up code (lines 13-30) reads and asserts four environment
      variables, and the [__main__] block (lines 242-253) reads the URL,
      runs the analysis and starts the flow only if the result does not
      start with ["Error"].

    ** Files

    - [Prelude] (this file): Python strings as lists of code points
      ([pystr], literals [‹"..."›]), exceptions as values ([exc], [result]),
      the state-and-exception monad [pyM] with [raise], [catch] (a
      [try]/[except] that keeps the effects made before the exception) and
      its laws, the hint databases [pymodel] and [pyrw], and tactics.
    - [PyStr]: [str.rstrip], [str.strip], [str.join], [repr] of strings and
      lists of strings, [str(int)].
    - [UrlParser] (Module [Url]): the pattern [github\.com[/:]([^/]+)/([^/]+)]
      as an anchored greedy matcher [match_at], [re.search] as the leftmost
      scan [re_search], and [parse_github_url].
    - [Json] (Module [Json]): JSON values [jvalue] (dicts as association
      lists in insertion order), [dict.get] on a parsed value, and
      [json.dumps(v, indent=2)] from CPython's [json.encoder] (ASCII output,
      [\uXXXX] escapes and surrogate pairs).
    - [JsonLoads] (Module [JsonLoads]): [json.loads] from CPython's C scanner
      [Modules/_json.c], with its error messages and positions.
    - [JsonRoundtrip] (Module [JsonRoundtrip]): the proof that [json.loads]
      reads back what [json.dumps] writes.
    - [Base64] (Module [Base64]): [binascii.a2b_base64] in its non-strict
      mode, [base64.b64decode], strict UTF-8 decoding, and the encoders the
      test fixture uses ([base64.b64encode], [str.encode()]).
    - [Services] (Module [Services]): the GitHub API and the chat client as
      data (functions from a request to an answer or an exception), and the
      [world]: the requests sent, the lines printed and the lines logged, in
      order, and the [trace] of all of them interleaved as they happen.
      [io] is [pyM world].  [keeps_calls] is the invariant "no request to
      the completion service", closed under the monad.
    - [Traces] (Module [Traces]): [eventually], [always] and [leads_to]
      on finite traces, with their decision procedures and their
      composition along concatenations.
    - [Logging] (Module [Logging]): [logging.basicConfig(level=INFO)]
      (lines 120-122): the root's level filter and the [sys.stderr]
      handler with [BASIC_FORMAT]; [stderr] renders the records of a
      trace, the module's logger's and azure-core's HTTP logging policy's.
    - [Fetcher] (Module [Fetcher]): [get_file_content_safe], the [or] chains
      [first_file], [dependencies_of], [build_context] and
      [analyze_github_repo], written against the interface [PyCodecs] (the
      two library decoders) and, for the theorem on the context's text, its
      law [PyCodecsLaws] (a decoded file is a text of scalar values);
      [cpython_codecs] implements both with [Base64] and [JsonLoads].  Its abstract reading [safe_content], [first_found],
      [tried] and [analysis_spec] states what each path returns, requests and
      logs.
    - [Templates] (Module [Templates]): the field lists, example outputs and
      the three prompts, built as the module builds them.
    - [Agent] (Module [Agent]): [load_dotenv] (override=False), the
      client settings of [ChatCompletionsClient], [load_config] and
      [agent_tool].
    - [Flow] (Module [Flow]): [run_agentic_flow], [main] (the [__main__]
      block on the line the user types) and [program].
    - [Tests] (Module [Tests]): the two analysis tests of
      [src/test_langchain_flow.py] and their fixtures (the mocked
      repository whose manifest is [json.dumps] ([Json.encode_compact])
      then base64-encoded, the GitHub meant to return it).

    ** Theorems

    - URL parser: the matcher is the regular expression's reading
      ([match_at_spec]), the scan finds the leftmost match
      ([re_search_leftmost]); well-formed URLs parse to the owner and the
      stripped name ([parse_github_url_ok]), the error case is exactly "no
      match anywhere"; [rstrip('.git')] strips a character set, so
      [widget.git] gives [widge] and [git] gives the empty name.
    - Fetcher: the [or] chains are first-found-wins and request exactly the
      candidates up to the first non-empty one ([first_file_first_found],
      [first_file_none_found]); [analyze_github_repo] refines
      [analysis_spec] ([analyze_refines]), from which each path follows:
      success with the exact request sequence ([analyze_success]), invalid
      URL, unknown repository, missing manifest, bad JSON, and a manifest
      that is not an object; the result starts with ["Error"] exactly off
      the success path ([analyze_marks_failure]); the analysis never calls
      the completion service ([keeps_analyze]); the text it returns is read
      back by [json.loads] as the context dict itself
      ([analysis_text_loads], composing the fetcher, the decoders, the
      serializer and the parser).
    - Agent: one request per call, never raises, the answer or the error
      text ([agent_tool_spec], [agent_tool_errors]); the start-up asserts
      ([load_config_spec]); [load_dotenv] never overrides the environment,
      so a variable exported empty hides [.env] and fails the start-up
      ([dotenv_empty_hides]).
    - Flow: three calls in order, six lines printed ([run_agentic_flow_spec]);
      a blank URL raises before any request; a failed analysis prints one
      line and makes no completion call; a successful one hands its result
      to the flow; on [sys.stderr] the flow writes, for each agent, an
      ["INFO:__main__:Starting ..."] line, then the records the client's
      HTTP logging policy logs during the call, then an
      ["ERROR:__main__:Agent failed: ..."] line if the call fails
      ([run_agentic_flow_stderr]).
    - Order and liveness: a successful run's trace is the prompt, the
      analysis (no completion call), then each agent as its record, its
      call and the call's HTTP records, its failure record and its two
      lines, each result printed
      before the next call ([main_success_trace]); in every run of the
      program every completion call is eventually followed by a line on
      standard output ([program_calls_answered]).
    - JSON: [json.dumps] output is printable ASCII ([dumps_ascii]), and
      [json.loads (json.dumps v) = v] for every value without floats whose
      strings are scalar values and whose dicts have distinct keys
      ([loads_dumps]); the fuel of [loads] is never reached
      ([loads_fuel_enough]); every dict [json.loads] returns has distinct
      keys at every depth ([loads_keys_distinct], the invariant of the
      object loop).
    - Transport: [b64decode(...).decode()] inverts UTF-8 then base64
      encoding on every text of scalar values
      ([b64decode_text_roundtrip]); a character outside the base64 alphabet,
      such as the line breaks in GitHub's [content], is ignored wherever it
      is ([b64decode_skips]); the loop keeps every stored byte in [0..255]
      and the decoded text is made of Unicode scalar values
      ([b64decode_text_scalar]).
    - Test suite: the fixture patches [github.Github] and not the name
      the module imported, so the analysis tests run against whatever
      GitHub is in effect; for every GitHub whose [owner/repo] has a
      manifest object, the success test passes exactly when the five
      manifest entries and the two counts are the asserted values, and
      the no-manifest test fails ([analysis_tests_check]); when the
      analysis fails, its text starts with ["Error"] and [json.loads] of
      it raises [JSONDecodeError] at its first character
      ([failed_analysis_not_json]).

    ** Bounds and fuel

    [JsonLoads.loads] recurses on fuel [S (2 * length doc)]: an array or
    object costs two units for its opening character (the value and the
    loop) and every other step consumes a character, so the fuel is never
    the reason a parse stops ([loads_fuel_enough], by the length lemma
    [scan_len] and the monotonicity lemma [fuel_mono]).  Every other
    definition is structurally recursive.
    Integers are [Z]: Python's [int] is unbounded; [store] in [Base64] keeps
    the C code's [unsigned char] truncation.

    ** Not modelled

    The network clients themselves (PyGithub, azure-ai-inference, HTTP), and
    the choice of the GitHub instance ([Github()] is a parameter [gh]); the
    text of the records azure-core's [HttpLoggingPolicy] logs (URL,
    redacted headers, status), which depends on the transport and the
    service and is data of the client ([http_records]), though where they
    fall in the stream is modelled; PyGithub and urllib3 log only at
    [DEBUG], below the root's level;
    python-dotenv's parser of the [.env] file and its search for the file
    (the file is given parsed, as a function [dotenv]); the interleaving of
    [sys.stdout] and [sys.stderr] on a terminal (the two streams are kept
    apart, and the trace orders their writes);
    [float.__repr__] (a float is kept as its repr text); Python's recursion
    limit in [json.loads], and its limit of 4300 digits on integer
    literals (an integer of the context comes from [json.loads] itself,
    and no theorem reads longer ones); [python -O], which removes the
    [assert]s.  Of the test module, the six tests that run one function
    at one fixed input (the agent, the flow, the parser) are not restated:
    they are instances of the contracts above; [MagicMock] and pytest's
    runner are not modelled: the mocks are given as the services they
    stand for, and the mocked [isoformat()] text (ending in ["Z"], which
    no [datetime] gives) is replaced by a [datetime], since no test reads
    it. *)

From stdpp Require Export base list decidable strings numbers sets.
From Stdlib Require Export ZArith Lia.
From Stdlib Require String Ascii.

Declare Scope py_scope.
Delimit Scope py_scope with py.
Open Scope Z_scope.

(** ** Python [str]

    A Python string is a sequence of Unicode code points; we keep it as a
    list of [Z].  [lit] turns a Rocq string literal (ASCII) into one. *)

Abbreviation pystr := (list Z).

Definition lit (s : string) : pystr :=
  map (fun a => Z.of_nat (Ascii.nat_of_ascii a)) (String.list_ascii_of_string s).

(** A few code points that Rocq string literals cannot spell. *)
Definition chr_nl : Z := 10.
Definition chr_dquote : Z := 34.
Definition chr_squote : Z := 39.
Definition chr_backslash : Z := 92.
Definition nl : pystr := [chr_nl].

Notation "‹ s ›" := (lit s%string) (format "‹ s ›") : py_scope.
Open Scope py_scope.

(** A literal whose backticks stand for double quotes (JSON texts). *)
Definition dq (s : string) : pystr :=
  map (fun c => if c =? 96 then chr_dquote else c) (lit s).

(** [str.startswith]: *)
Definition startswith (s p : pystr) : bool := bool_decide (p `prefix_of` s).

(** ** Python exceptions

    An exception is a value: its class and its [str()].  Only the classes
    the program raises or catches are listed. *)

Inductive exc_kind :=
  | ValueError | AssertionError | AttributeError | KeyError | IndexError
  | TypeError | JSONDecodeError | UnicodeDecodeError | BinasciiError
  | GithubException | ServiceError | RuntimeError | Exception.

Record exc := Exc { exc_type : exc_kind; exc_str : pystr }.

#[export] Instance exc_kind_eq_dec : EqDecision exc_kind.
Proof. solve_decision. Defined.
#[export] Instance exc_eq_dec : EqDecision exc.
Proof. solve_decision. Defined.

(** A computation that returns a value or raises. *)
Inductive result (A : Type) :=
  | Ok (a : A)
  | Raise (e : exc).
Arguments Ok {A} a.
Arguments Raise {A} e.

#[export] Instance result_ret : MRet result := fun _ a => Ok a.
#[export] Instance result_bind : MBind result :=
  fun _ _ f r => match r with Ok a => f a | Raise e => Raise e end.
#[export] Instance result_fmap : FMap result :=
  fun _ _ f r => match r with Ok a => Ok (f a) | Raise e => Raise e end.

Definition result_to_option {A} (r : result A) : option A :=
  match r with Ok a => Some a | Raise _ => None end.

(** ** Effects: state threaded through exceptions

    [pyM S A] runs in a state [S] (the outside world: requests sent,
    standard output, log) and returns a result.  As in Python, the effects
    performed before an exception are kept. *)

Definition pyM (S A : Type) : Type := S -> result A * S.

#[export] Instance pyM_ret {S} : MRet (pyM S) := fun _ a s => (Ok a, s).
#[export] Instance pyM_bind {S} : MBind (pyM S) :=
  fun _ _ f m s =>
    match m s with
    | (Ok a, s') => f a s'
    | (Raise e, s') => (Raise e, s')
    end.

Definition raise {S A} (e : exc) : pyM S A := fun s => (Raise e, s).

(** [try: m except Exception as e: h e] *)
Definition catch {S A} (m : pyM S A) (h : exc -> pyM S A) : pyM S A :=
  fun s => match m s with
           | (Ok a, s') => (Ok a, s')
           | (Raise e, s') => h e s'
           end.

Definition lift {S A} (r : result A) : pyM S A :=
  fun s => (r, s).

Definition modify {S} (f : S -> S) : pyM S unit := fun s => (Ok tt, f s).

(** ** Automation *)

Create HintDb pymodel discriminated.
Create Rewrite HintDb pyrw.

Section monad_laws.
Context {S A B : Type}.

Lemma bind_ret_l (a : A) (f : A -> pyM S B) s :
  (mret a ≫= f) s = f a s.
Proof. reflexivity. Qed.

Lemma bind_run (m : pyM S A) (f : A -> pyM S B) s :
  (m ≫= f) s = match m s with
               | (Ok a, s') => f a s'
               | (Raise e, s') => (Raise e, s')
               end.
Proof. reflexivity. Qed.

Lemma bind_ok (m : pyM S A) (f : A -> pyM S B) s a s' :
  m s = (Ok a, s') -> (m ≫= f) s = f a s'.
Proof. intros H. rewrite bind_run, H. reflexivity. Qed.

Lemma bind_raise (m : pyM S A) (f : A -> pyM S B) s e s' :
  m s = (Raise e, s') -> (m ≫= f) s = (Raise e, s').
Proof. intros H. rewrite bind_run, H. reflexivity. Qed.

Lemma catch_ok (m : pyM S A) h s a s' :
  m s = (Ok a, s') -> catch m h s = (Ok a, s').
Proof. intros H. unfold catch. rewrite H. reflexivity. Qed.

Lemma catch_raise (m : pyM S A) h s e s' :
  m s = (Raise e, s') -> catch m h s = h e s'.
Proof. intros H. unfold catch. rewrite H. reflexivity. Qed.
End monad_laws.

Lemma startswith_app (p t : pystr) : startswith (p ++ t) p = true.
Proof. unfold startswith. apply bool_decide_eq_true. by exists t. Qed.

#[export] Hint Rewrite @bind_ret_l startswith_app : pyrw.
#[export] Hint Resolve bind_ok bind_raise catch_ok catch_raise : pymodel.

(** ** Integers: a bitwise or of disjoint bit ranges is a sum *)

Lemma lor_disjoint (a x k : Z) :
  0 <= k -> 0 <= x < 2 ^ k -> Z.lor (a * 2 ^ k) x = a * 2 ^ k + x.
Proof.
  intros Hk Hx.
  assert (Hland : Z.land (a * 2 ^ k) x = 0).
  { rewrite <- (Z.mod_small x (2 ^ k)), <- Z.land_ones by lia.
    rewrite (Z.land_comm x), Z.land_assoc, (Z.land_ones (a * 2 ^ k)), Z_mod_mult by lia.
    apply Z.land_0_l. }
  pose proof (Z.add_lor_land (a * 2 ^ k) x). lia.
Qed.

Lemma land_ones_10 (x : Z) : Z.land x 1023 = x mod 1024.
Proof. change 1023 with (Z.ones 10). rewrite Z.land_ones; [reflexivity | lia]. Qed.

(** A mask [2^k - 1] keeps the remainder modulo [2^k]. *)
Lemma land_low (x m k : Z) : 0 <= k -> m = 2 ^ k - 1 -> Z.land x m = x mod (m + 1).
Proof.
  intros Hk ->. replace (2 ^ k - 1) with (Z.ones k) by (rewrite Z.ones_equiv; lia).
  rewrite Z.land_ones by lia. f_equal. rewrite Z.ones_equiv. lia.
Qed.

(** [(y << k) | x] is [y * 2^k + x] when [x] fits in [k] bits. *)
Lemma shl_lor (y x k : Z) : 0 <= k -> 0 <= x < 2 ^ k -> Z.lor (Z.shiftl y k) x = y * 2 ^ k + x.
Proof. intros. rewrite Z.shiftl_mul_pow2 by lia. by apply lor_disjoint. Qed.

(** Evaluate the powers of two with literal exponents. *)
Ltac pow_num :=
  repeat match goal with
  | |- context [2 ^ ?k] => let v := eval vm_compute in (2 ^ k) in change (2 ^ k) with v
  end.

(** Masks by literal constants [2^k - 1] become remainders. *)
Ltac masks :=
  repeat match goal with
  | |- context [Z.land ?x ?m] =>
      let k := eval vm_compute in (Z.log2 (m + 1)) in
      rewrite (land_low x m k) by (lia || reflexivity)
  end.

(** One disjoint [lor], innermost first, becomes an addition. *)
Ltac lor_step :=
  match goal with
  | |- context [Z.lor (Z.shiftl ?y ?k) ?x] =>
      lazymatch x with context [Z.lor _ _] => fail | _ =>
      lazymatch y with context [Z.lor _ _] => fail | _ =>
        rewrite (shl_lor y x k)
          by (rewrite ?Z.shiftl_mul_pow2 by lia; pow_num; Z.div_mod_to_equations; lia)
      end end
  end.

(** Close a goal on shifts, masks and disjoint [lor]s of non-negative
    integers by turning them into arithmetic. *)
Ltac bits :=
  rewrite ?Z.shiftr_div_pow2 by lia; masks; repeat lor_step;
  rewrite ?Z.shiftl_mul_pow2 by lia; pow_num; Z.div_mod_to_equations; lia.

(** Rewrite each integer comparison of the goal that the hypotheses
    decide (divisions and remainders by constants included). *)
Ltac zsimpl :=
  repeat (cbn [andb orb negb fst snd]; match goal with
  | |- context [?a <? ?b] =>
      first [ rewrite (proj2 (Z.ltb_lt a b)) by (Z.div_mod_to_equations; lia)
            | rewrite (proj2 (Z.ltb_ge a b)) by (Z.div_mod_to_equations; lia) ]
  | |- context [?a <=? ?b] =>
      first [ rewrite (proj2 (Z.leb_le a b)) by (Z.div_mod_to_equations; lia)
            | rewrite (proj2 (Z.leb_gt a b)) by (Z.div_mod_to_equations; lia) ]
  | |- context [?a =? ?b] =>
      first [ rewrite (proj2 (Z.eqb_eq a b)) by (Z.div_mod_to_equations; lia)
            | rewrite (proj2 (Z.eqb_neq a b)) by (Z.div_mod_to_equations; lia) ]
  end; cbn [andb orb negb fst snd]).

(** [zsimpl], splitting on an equality it cannot decide. *)
Ltac zsolve :=
  zsimpl;
  try match goal with
  | |- context [?a =? ?b] => destruct (Z.eqb_spec a b); zsolve
  end.

(** Case analysis on the integer comparisons of the goal. *)
Ltac zcase :=
  repeat match goal with
  | |- context [?a <? ?b] => destruct (Z.ltb_spec a b)
  | |- context [?a <=? ?b] => destruct (Z.leb_spec a b)
  | |- context [?a >=? ?b] => destruct (Z.geb_spec a b)
  | |- context [?a =? ?b] => destruct (Z.eqb_spec a b)
  end; cbn [andb orb negb].

(** Unfold the monad's plumbing so that a run computes. *)
Ltac run_monad := cbv [mbind mret pyM_bind pyM_ret result_bind result_ret lift catch raise modify].

(** Close a decidable proposition on concrete data by evaluation. *)
Ltac decide_concrete :=
  match goal with |- ?P => apply (bool_decide_unpack P); vm_compute; reflexivity end.

(** [run_step H] rewrites a run of a bind whose first step is known by [H]. *)
Ltac run_step H :=
  first [ rewrite (bind_ok _ _ _ _ _ H)
        | rewrite (bind_raise _ _ _ _ _ H)
        | rewrite (catch_ok _ _ _ _ _ H)
        | rewrite (catch_raise _ _ _ _ _ H) ].
