(* ===== verification/PyStr.v ===== *)
(** * Python [str] methods used by the program

    [str.rstrip(chars)] (the [.git] stripping of [parse_github_url]),
    [str.strip()] (the empty-URL assertion of the entry point),
    [str.join] and [repr] of a list of strings (the prompt templates),
    and the decimal [str()] of an [int] (the JSON integers).  Each follows
    CPython's [Objects/unicodeobject.c] / [Objects/longobject.c]. *)

From S2P Require Import Prelude.
From Stdlib Require Import DecimalString.

(** ** [rstrip] with an explicit character set *)

Fixpoint drop_while (p : Z -> bool) (s : pystr) : pystr :=
  match s with
  | [] => []
  | c :: s' => if p c then drop_while p s' else s
  end.

(** [s.rstrip(chars)]: drop trailing characters that belong to [chars]
    (a set of characters, not a suffix). *)
Definition rstrip (s chars : pystr) : pystr :=
  reverse (drop_while (fun c => bool_decide (c ∈ chars)) (reverse s)).

(** [str.isspace] on one code point ([_PyUnicode_IsWhitespace]). *)
Definition is_space (c : Z) : bool :=
  ((9 <=? c) && (c <=? 13)) || ((28 <=? c) && (c <=? 32)) || (c =? 133) || (c =? 160)
  || (c =? 5760) || ((8192 <=? c) && (c <=? 8202)) || (c =? 8232) || (c =? 8233)
  || (c =? 8239) || (c =? 8287) || (c =? 12288).

(** [s.strip()] with no argument strips whitespace on both sides. *)
Definition strip (s : pystr) : pystr :=
  reverse (drop_while is_space (reverse (drop_while is_space s))).

(** [sep.join(items)] *)
Fixpoint join (sep : pystr) (items : list pystr) : pystr :=
  match items with
  | [] => []
  | [x] => x
  | x :: xs => x ++ sep ++ join sep xs
  end.

(** ** [repr] of a [str] and of a [list] of [str]

    [unicode_repr]: single quotes unless the text holds a single quote and
    no double quote; the chosen quote and the backslash are escaped,
    [\t \n \r] are spelled out, other control characters become [\xhh].
    Non-ASCII code points are kept as they are (CPython escapes the ones
    that are not printable; the program only takes the [repr] of ASCII
    field names, see [Templates.v]). *)

Definition hex_digit (n : Z) : Z := if n <? 10 then 48 + n else 87 + n.

Definition repr_char (quote c : Z) : pystr :=
  if (c =? quote) || (c =? chr_backslash) then [chr_backslash; c]
  else if c =? 9 then [chr_backslash; 116]
  else if c =? 10 then [chr_backslash; 110]
  else if c =? 13 then [chr_backslash; 114]
  else if (c <? 32) || (c =? 127) then
    [chr_backslash; 120; hex_digit (c / 16); hex_digit (c mod 16)]
  else [c].

Definition repr_quote (s : pystr) : Z :=
  if bool_decide (chr_squote ∈ s) && negb (bool_decide (chr_dquote ∈ s))
  then chr_dquote else chr_squote.

Definition repr_str (s : pystr) : pystr :=
  let q := repr_quote s in q :: (s ≫= repr_char q) ++ [q].

(** [repr(list_of_str)] = ["[" + ", ".join(map(repr, l)) + "]"]. *)
Definition repr_str_list (l : list pystr) : pystr :=
  ‹"["› ++ join ‹", "› (map repr_str l) ++ ‹"]"›.

(** ** [str(n)] for an [int]: decimal digits, a leading [-] if negative *)

Fixpoint uint_digits (d : Decimal.uint) : pystr :=
  match d with
  | Decimal.Nil => []
  | Decimal.D0 d => 48 :: uint_digits d
  | Decimal.D1 d => 49 :: uint_digits d
  | Decimal.D2 d => 50 :: uint_digits d
  | Decimal.D3 d => 51 :: uint_digits d
  | Decimal.D4 d => 52 :: uint_digits d
  | Decimal.D5 d => 53 :: uint_digits d
  | Decimal.D6 d => 54 :: uint_digits d
  | Decimal.D7 d => 55 :: uint_digits d
  | Decimal.D8 d => 56 :: uint_digits d
  | Decimal.D9 d => 57 :: uint_digits d
  end.

Definition str_int (z : Z) : pystr :=
  match Z.to_int z with
  | Decimal.Pos d => uint_digits d
  | Decimal.Neg d => 45 :: uint_digits d
  end.

(** A Unicode scalar value: a code point that is not a surrogate.  A
    [str] decoded from UTF-8 holds only these. *)
Definition is_scalar (c : Z) : Prop := 0 <= c <= 1114111 /\ ~ (55296 <= c <= 57343).

#[export] Instance is_scalar_dec c : Decision (is_scalar c).
Proof. unfold is_scalar. solve_decision. Defined.

(** ** Lemmas *)

Lemma drop_while_app_l (p : Z -> bool) (s t : pystr) :
  Forall (fun c => p c = true) s -> drop_while p (s ++ t) = drop_while p t.
Proof. induction 1 as [|c s Hc _ IH]; simpl; [done|]. by rewrite Hc. Qed.

Lemma drop_while_stop (p : Z -> bool) (c : Z) (s : pystr) :
  p c = false -> drop_while p (c :: s) = c :: s.
Proof. intros H. simpl. by rewrite H. Qed.

Lemma Forall_mem_decide (chars t : pystr) :
  Forall (fun x => x ∈ chars) t -> Forall (fun x => bool_decide (x ∈ chars) = true) t.
Proof. induction 1; constructor; [by apply bool_decide_eq_true | done]. Qed.

(** [rstrip] removes exactly a trailing block of characters of the set,
    up to the last character outside the set. *)
Lemma rstrip_spec (s t chars : pystr) (c : Z) :
  c ∉ chars -> Forall (fun x => x ∈ chars) t ->
  rstrip (s ++ c :: t) chars = s ++ [c].
Proof.
  intros Hc Ht. unfold rstrip.
  replace (s ++ c :: t) with ((s ++ [c]) ++ t) by (by rewrite <- app_assoc).
  rewrite reverse_app, drop_while_app_l.
  - rewrite reverse_snoc, drop_while_stop by (by apply bool_decide_eq_false).
    rewrite <- reverse_snoc. apply reverse_involutive.
  - apply Forall_reverse, Forall_mem_decide, Ht.
Qed.

Lemma rstrip_all (t chars : pystr) :
  Forall (fun x => x ∈ chars) t -> rstrip t chars = [].
Proof.
  intros Ht. unfold rstrip.
  rewrite <- (app_nil_r (reverse t)), drop_while_app_l; [done|].
  apply Forall_reverse, Forall_mem_decide, Ht.
Qed.

Lemma rstrip_suffix (s chars : pystr) : rstrip s chars `prefix_of` s.
Proof.
  unfold rstrip. remember (reverse s) as r eqn:Hr.
  assert (Hs : s = reverse r) by (subst; by rewrite reverse_involutive).
  subst s. clear Hr. induction r as [|c r IH]; simpl; [done|].
  rewrite reverse_cons. case_match.
  - by apply prefix_app_r.
  - by rewrite reverse_cons.
Qed.

Lemma rstrip_app_all (s t chars : pystr) :
  Forall (fun x => x ∈ chars) t -> rstrip (s ++ t) chars = rstrip s chars.
Proof.
  intros Ht. unfold rstrip. rewrite reverse_app, drop_while_app_l; [done|].
  apply Forall_reverse, Forall_mem_decide, Ht.
Qed.

#[export] Hint Resolve rstrip_suffix : pymodel.
