(* ===== verification/UrlParser.v ===== *)
(** * URL parser: [parse_github_url] (src/langchain_flow.py, lines 124-130)

    [re.search(r"github\.com[/:]([^/]+)/([^/]+)", url)] is modelled by an
    anchored matcher [match_at] (the pattern tried at one position, with
    the greedy, backtracking semantics of [re] worked out: both groups are
    maximal runs of non-[/] characters, and the first one must be followed
    by [/]) and by [re_search], which tries the positions from left to
    right.  The result is [(group(1), group(2).rstrip('.git'))], or
    [ValueError]. *)

From S2P Require Import Prelude PyStr.

Module Url.

Definition chr_slash : Z := 47.
Definition chr_colon : Z := 58.

Definition host_pattern : pystr := Eval vm_compute in ‹"github.com"›.

(** [c =? 47], [c =? 58]: the class [[/:]]. *)
Definition is_sep (c : Z) : bool := (c =? chr_slash) || (c =? chr_colon).

(** A literal prefix [p] of [s]; returns the rest. *)
Fixpoint match_lit (p s : pystr) : option pystr :=
  match p, s with
  | [], _ => Some s
  | c :: p', d :: s' => if c =? d then match_lit p' s' else None
  | _ :: _, [] => None
  end.

(** [[^/]+] with greedy repetition: the maximal run of non-[/] characters
    at the start of [s], and what follows it. *)
Fixpoint span_not_slash (s : pystr) : pystr * pystr :=
  match s with
  | [] => ([], [])
  | c :: s' =>
      if c =? chr_slash then ([], s)
      else let '(r, t) := span_not_slash s' in (c :: r, t)
  end.

(** The pattern anchored at the start of [s]: [Some (group1, group2)]. *)
Definition match_at (s : pystr) : option (pystr * pystr) :=
  match match_lit host_pattern s with
  | Some (sep :: rest) =>
      if is_sep sep then
        match span_not_slash rest with
        | (owner, _ :: rest2) =>
            match owner, span_not_slash rest2 with
            | _ :: _, (repo, _) =>
                match repo with [] => None | _ :: _ => Some (owner, repo) end
            | [], _ => None
            end
        | (_, []) => None
        end
      else None
  | _ => None
  end.

(** [re.search]: the leftmost position where the pattern matches. *)
Fixpoint re_search (s : pystr) : option (pystr * pystr) :=
  match match_at s with
  | Some m => Some m
  | None => match s with [] => None | _ :: s' => re_search s' end
  end.

Definition invalid_url_error : exc :=
  Exc ValueError ‹"Invalid GitHub repository URL"›.

Definition git_chars : pystr := Eval vm_compute in ‹".git"›.

(** [parse_github_url(url)] *)
Definition parse_github_url (url : pystr) : result (pystr * pystr) :=
  match re_search url with
  | None => Raise invalid_url_error
  | Some (owner, repo) => Ok (owner, rstrip repo git_chars)
  end.

(** ** The declarative reading of the pattern

    [stops t]: the text after a greedy [[^/]+] is empty or starts with [/]. *)
Definition stops (t : pystr) : Prop :=
  match t with [] => True | c :: _ => c = chr_slash end.

Definition matches (s owner repo : pystr) : Prop :=
  exists sep t, is_sep sep = true /\
    s = host_pattern ++ sep :: owner ++ chr_slash :: repo ++ t /\
    owner <> [] /\ repo <> [] /\ (chr_slash ∉ owner) /\ (chr_slash ∉ repo) /\ stops t.

(** ** Lemmas on the building blocks *)

Lemma match_lit_app (p s : pystr) : match_lit p (p ++ s) = Some s.
Proof. induction p as [|c p IH]; simpl; [done|]. by rewrite Z.eqb_refl. Qed.

Lemma match_lit_sound (p s r : pystr) : match_lit p s = Some r -> s = p ++ r.
Proof.
  revert s. induction p as [|c p IH]; intros [|d s] H; simpl in *; try congruence.
  destruct (Z.eqb_spec c d); [subst; f_equal; by apply IH | done].
Qed.

Lemma span_app (r t : pystr) :
  chr_slash ∉ r -> stops t -> span_not_slash (r ++ t) = (r, t).
Proof.
  induction r as [|c r IH]; intros Hr Ht; simpl.
  - destruct t as [|c t]; simpl in *; [done|]. subst. by rewrite Z.eqb_refl.
  - apply not_elem_of_cons in Hr as [Hc Hr].
    destruct (Z.eqb_spec c chr_slash); [congruence|]. by rewrite IH.
Qed.

Lemma span_sound (s r t : pystr) :
  span_not_slash s = (r, t) -> s = r ++ t /\ (chr_slash ∉ r) /\ stops t.
Proof.
  revert r t. induction s as [|c s IH]; intros r t H; simpl in H.
  - inv H. split_and!; [done | apply not_elem_of_nil | done].
  - destruct (Z.eqb_spec c chr_slash).
    + inv H. split_and!; [done | apply not_elem_of_nil | done].
    + destruct (span_not_slash s) as [r' t'] eqn:E. inv H.
      destruct (IH _ _ eq_refl) as (-> & Hr & Ht).
      split_and!; [done | | done]. apply not_elem_of_cons. done.
Qed.

(** A match can only start at a [g]. *)
Lemma match_at_head (c : Z) (s : pystr) : c <> 103 -> match_at (c :: s) = None.
Proof.
  intros Hc. unfold match_at, host_pattern. cbn [match_lit].
  destruct (Z.eqb_spec 103 c); [congruence | done].
Qed.

Lemma re_search_skip (pre s : pystr) :
  103 ∉ pre -> re_search (pre ++ s) = re_search s.
Proof.
  induction pre as [|c pre IH]; intros Hpre; [done|].
  apply not_elem_of_cons in Hpre as [Hc Hpre]. simpl.
  rewrite match_at_head by done. by apply IH.
Qed.

Lemma re_search_here (s : pystr) (m : pystr * pystr) :
  match_at s = Some m -> re_search s = Some m.
Proof. intros H. destruct s; [by simpl in H|]. simpl. by rewrite H. Qed.

#[export] Hint Resolve match_lit_app span_app re_search_here : pymodel.

(** ** Properties *)

Lemma match_at_sound (s owner repo : pystr) :
  match_at s = Some (owner, repo) -> matches s owner repo.
Proof.
  unfold match_at. destruct (match_lit host_pattern s) as [[|sep rest]|] eqn:Hl; try done.
  apply match_lit_sound in Hl. destruct (is_sep sep) eqn:Hsep; [|done].
  destruct (span_not_slash rest) as [o [|sl rest2]] eqn:E1; [done|].
  destruct o as [|oc o']; [done|].
  destruct (span_not_slash rest2) as [r t] eqn:E2.
  destruct r as [|rc r']; [done|]. intros [= <- <-].
  apply span_sound in E1 as (-> & Ho & Hsl). apply span_sound in E2 as (-> & Hr & Ht).
  simpl in Hsl. subst sl. exists sep, t. split_and!; done.
Qed.

Lemma match_at_complete (s owner repo : pystr) :
  matches s owner repo -> match_at s = Some (owner, repo).
Proof.
  intros (sep & t & Hsep & -> & Ho & Hr & Hso & Hsr & Ht). unfold match_at.
  rewrite match_lit_app, Hsep, span_app by done.
  rewrite span_app by done.
  destruct owner; [done|]. destruct repo; done.
Qed.

Lemma re_search_first (s : pystr) (m : pystr * pystr) :
  re_search s = Some m ->
  exists k, match_at (drop k s) = Some m /\ forall j, (j < k)%nat -> match_at (drop j s) = None.
Proof.
  induction s as [|c s IH]; simpl; intros H.
  - exists 0%nat. destruct (match_at []); [|done]. split; [done|lia].
  - destruct (match_at (c :: s)) eqn:E.
    + exists 0%nat. split; [simpl; congruence | lia].
    + destruct (IH H) as (k & Hk & Hmin). exists (S k). split; [done|].
      intros [|j] Hj; simpl; [done|]. apply Hmin. lia.
Qed.

Lemma re_search_at (s : pystr) (m : pystr * pystr) (k : nat) :
  match_at (drop k s) = Some m -> (forall j, (j < k)%nat -> match_at (drop j s) = None) ->
  re_search s = Some m.
Proof.
  revert k. induction s as [|c s IH]; intros k Hk Hmin; simpl.
  - rewrite drop_nil in Hk. by simpl in Hk.
  - destruct k as [|k]; simpl in Hk; [by rewrite Hk|].
    rewrite (Hmin 0%nat ltac:(lia) : match_at (c :: s) = None).
    apply (IH k); [done|].
    intros j Hj. apply (Hmin (S j)). lia.
Qed.

(** The parser on a URL whose first [g] starts a match. *)
Lemma parse_github_url_at (pre s owner repo : pystr) :
  103 ∉ pre -> matches s owner repo ->
  parse_github_url (pre ++ s) = Ok (owner, rstrip repo git_chars).
Proof.
  intros Hpre Hm. unfold parse_github_url.
  rewrite re_search_skip by done.
  by rewrite (re_search_here _ (owner, repo)) by by apply match_at_complete.
Qed.

Lemma matches_intro (owner repo rest : pystr) (sep : Z) :
  is_sep sep = true -> owner <> [] -> repo <> [] ->
  chr_slash ∉ owner -> chr_slash ∉ repo -> stops rest ->
  matches (host_pattern ++ sep :: owner ++ chr_slash :: repo ++ rest) owner repo.
Proof. intros. exists sep, rest. split_and!; done. Qed.

#[export] Hint Resolve matches_intro : pymodel.

(** C29: the anchored matcher is exactly the regular expression's reading:
    it returns [(owner, repo)] iff the text starts with [github.com], a
    separator [/] or [:], a non-empty [/]-free owner, [/], and a non-empty
    [/]-free repo that is maximal (what follows is empty or a [/]). *)
Theorem match_at_spec (s owner repo : pystr) :
  match_at s = Some (owner, repo) <-> matches s owner repo.
Proof. split; [apply match_at_sound | apply match_at_complete]. Qed.

(** C30: [re_search] returns the match at the leftmost position where the
    pattern matches, and fails iff it matches nowhere. *)
Theorem re_search_leftmost (s : pystr) (m : pystr * pystr) :
  re_search s = Some m <->
  exists k, match_at (drop k s) = Some m /\ forall j, (j < k)%nat -> match_at (drop j s) = None.
Proof. split; [apply re_search_first | intros (k & Hk & Hmin); exact (re_search_at s m k Hk Hmin)]. Qed.

(** C6: on a URL of the form [pre + "github.com" + sep + owner + "/" + repo
    + rest] (with a prefix that holds no [g], a separator [/] or [:],
    [/]-free non-empty names, and a rest that is empty or starts with [/]),
    the parser returns the owner and the repository name with its trailing
    [.git] characters stripped. *)
Theorem parse_github_url_ok (pre owner repo rest : pystr) (sep : Z) :
  103 ∉ pre -> is_sep sep = true -> owner <> [] -> repo <> [] ->
  chr_slash ∉ owner -> chr_slash ∉ repo -> stops rest ->
  parse_github_url (pre ++ host_pattern ++ sep :: owner ++ chr_slash :: repo ++ rest)
  = Ok (owner, rstrip repo git_chars).
Proof. intros. apply parse_github_url_at; [done|]. by apply matches_intro. Qed.

Lemma re_search_none (s : pystr) :
  re_search s = None <-> forall k, match_at (drop k s) = None.
Proof.
  split.
  - induction s as [|c s IH]; intros H k; simpl in H.
    + by rewrite drop_nil.
    + destruct (match_at (c :: s)) eqn:E; [done|].
      destruct k as [|k]; [done|]. by apply IH.
  - intros H. destruct (re_search s) as [m|] eqn:E; [|done].
    apply re_search_first in E as (k & Hk & _). by rewrite H in Hk.
Qed.

Lemma re_search_matches (s owner repo : pystr) :
  re_search s = Some (owner, repo) -> exists k, matches (drop k s) owner repo.
Proof.
  intros H. apply re_search_first in H as (k & Hk & _).
  exists k. by apply match_at_sound.
Qed.

(** C21: the parser raises [ValueError("Invalid GitHub repository URL")]
    exactly when the pattern matches at no position of the URL. *)
Theorem parse_github_url_error (url : pystr) (e : exc) :
  parse_github_url url = Raise e <->
  e = invalid_url_error /\ forall k, match_at (drop k url) = None.
Proof.
  unfold parse_github_url. destruct (re_search url) as [[o r]|] eqn:E.
  - split; [done|]. intros [_ H]. apply re_search_none in H. congruence.
  - split; [intros [= <-] | intros [-> _]]; [|done].
    split; [done|]. by apply re_search_none.
Qed.

(** C35: a parsed reference has a non-empty owner without [/] and a
    repository name without [/]; the name may be empty (the spec's
    invariant that both fields are non-empty does not hold for the name,
    see [parse_github_url_empty_name]). *)
Theorem parse_github_url_shape (url owner name : pystr) :
  parse_github_url url = Ok (owner, name) ->
  owner <> [] /\ (chr_slash ∉ owner) /\ (chr_slash ∉ name).
Proof.
  unfold parse_github_url. destruct (re_search url) as [[o r]|] eqn:E; [|done].
  intros [= <- <-]. apply re_search_matches in E as (k & _ & t & _ & _ & Ho & _ & Hso & Hsr & _).
  split_and!; [done | done |].
  intros Hin. apply Hsr. destruct (rstrip_suffix r git_chars) as [u ->].
  apply elem_of_app. by left.
Qed.

Lemma repo_no_slash (b suffix : pystr) (c : Z) :
  chr_slash ∉ b -> c <> chr_slash -> (suffix = [] \/ suffix = git_chars) ->
  chr_slash ∉ b ++ c :: suffix.
Proof.
  intros Hb Hc Hsuf. rewrite elem_of_app, elem_of_cons.
  intros [?|[?|?]]; [done | congruence |].
  destruct Hsuf as [-> | ->]; [set_solver | revert H; decide_concrete].
Qed.

Lemma git_suffix_chars (suffix : pystr) :
  (suffix = [] \/ suffix = git_chars) -> Forall (fun x => x ∈ git_chars) suffix.
Proof. intros [-> | ->]; [by apply Forall_nil | decide_concrete]. Qed.

(** C34: a repository name [b ++ [c]] whose last character [c] is none of
    [. g i t] is returned unchanged, with or without a [.git] suffix. *)
Theorem parse_github_url_strips_git (pre owner b suffix rest : pystr) (sep c : Z) :
  103 ∉ pre -> is_sep sep = true -> owner <> [] ->
  chr_slash ∉ owner -> chr_slash ∉ b -> c <> chr_slash -> c ∉ git_chars ->
  (suffix = [] \/ suffix = git_chars) -> stops rest ->
  parse_github_url
    (pre ++ host_pattern ++ sep :: owner ++ chr_slash :: (b ++ c :: suffix) ++ rest)
  = Ok (owner, b ++ [c]).
Proof.
  intros Hpre Hsep Ho Hso Hb Hc Hcg Hsuf Hrest.
  rewrite (parse_github_url_at _ _ owner (b ++ c :: suffix));
    [| done | apply matches_intro; [done | done | by destruct b | done | by apply repo_no_slash | done]].
  rewrite rstrip_spec; [done | done | by apply git_suffix_chars].
Qed.

(** C23: [rstrip('.git')] strips a set of characters, not the suffix: when
    the name before [.git] ends with one of [. g i t] (as [widget.git]),
    the returned name is a strict prefix of that name, not the name with
    its [.git] suffix removed that the spec promises. *)
Theorem parse_github_url_overstrips (pre owner b suffix rest : pystr) (sep c : Z) :
  103 ∉ pre -> is_sep sep = true -> owner <> [] ->
  chr_slash ∉ owner -> chr_slash ∉ b -> c ∈ git_chars ->
  (suffix = [] \/ suffix = git_chars) -> stops rest ->
  exists name,
    parse_github_url
      (pre ++ host_pattern ++ sep :: owner ++ chr_slash :: (b ++ c :: suffix) ++ rest)
    = Ok (owner, name) /\ name `prefix_of` b /\ name <> b ++ [c].
Proof.
  intros Hpre Hsep Ho Hso Hb Hcg Hsuf Hrest.
  assert (Hc : c <> chr_slash) by (intros ->; revert Hcg; decide_concrete).
  exists (rstrip b git_chars).
  rewrite (parse_github_url_at _ _ owner (b ++ c :: suffix));
    [| done | apply matches_intro; [done | done | by destruct b | done | by apply repo_no_slash | done]].
  rewrite rstrip_app_all by (constructor; [done | by apply git_suffix_chars]).
  split_and!; [done | apply rstrip_suffix |].
  intros Heq. pose proof (prefix_length _ _ (rstrip_suffix b git_chars)) as Hl.
  rewrite Heq, length_app in Hl. simpl in Hl. lia.
Qed.

(** C33: a name made only of the characters [. g i t] (such as [git] or
    [.git]) parses to the empty repository name; no error is raised. *)
Theorem parse_github_url_empty_name (pre owner repo rest : pystr) (sep : Z) :
  103 ∉ pre -> is_sep sep = true -> owner <> [] -> chr_slash ∉ owner ->
  repo <> [] -> Forall (fun x => x ∈ git_chars) repo -> stops rest ->
  parse_github_url (pre ++ host_pattern ++ sep :: owner ++ chr_slash :: repo ++ rest)
  = Ok (owner, []).
Proof.
  intros Hpre Hsep Ho Hso Hr Hg Hrest.
  rewrite (parse_github_url_at _ _ owner repo); [by rewrite rstrip_all | done |].
  apply matches_intro; try done.
  intros Hin. eapply Forall_forall in Hg; [|exact Hin]. revert Hg. decide_concrete.
Qed.

(** ** Witnesses and the scenarios of the spec *)

Lemma parse_github_url_ok_witness :
  parse_github_url (‹"https://"› ++ host_pattern ++ chr_slash :: ‹"owner"› ++ chr_slash :: ‹"repo"› ++ [])
  = Ok (‹"owner"›, rstrip ‹"repo"› git_chars).
Proof.
  apply parse_github_url_ok;
    [decide_concrete | reflexivity | discriminate | discriminate
    | decide_concrete | decide_concrete | exact I].
Defined.

Lemma parse_github_url_shape_witness :
  parse_github_url ‹"https://github.com/owner/repo"› = Ok (‹"owner"›, ‹"repo"›) /\
  (‹"owner"› <> [] /\ (chr_slash ∉ ‹"owner"›) /\ (chr_slash ∉ ‹"repo"›)).
Proof.
  assert (H : parse_github_url ‹"https://github.com/owner/repo"› = Ok (‹"owner"›, ‹"repo"›))
    by (vm_compute; reflexivity).
  split; [exact H | exact (parse_github_url_shape _ _ _ H)].
Defined.

Lemma parse_github_url_strips_git_witness :
  parse_github_url
    (‹"https://"› ++ host_pattern ++ chr_slash :: ‹"owner"› ++ chr_slash
       :: (‹"rep"› ++ 111 :: git_chars) ++ [])
  = Ok (‹"owner"›, ‹"rep"› ++ [111]).
Proof.
  apply parse_github_url_strips_git;
    [decide_concrete | reflexivity | discriminate | decide_concrete | decide_concrete
    | discriminate | decide_concrete | right; reflexivity | exact I].
Defined.

Lemma parse_github_url_overstrips_witness :
  exists name,
    parse_github_url
      (‹"https://"› ++ host_pattern ++ chr_slash :: ‹"owner"› ++ chr_slash
         :: (‹"widge"› ++ 116 :: git_chars) ++ [])
    = Ok (‹"owner"›, name) /\ name `prefix_of` ‹"widge"› /\ name <> ‹"widge"› ++ [116].
Proof.
  apply parse_github_url_overstrips;
    [decide_concrete | reflexivity | discriminate | decide_concrete | decide_concrete
    | decide_concrete | right; reflexivity | exact I].
Defined.

Lemma parse_github_url_empty_name_witness :
  parse_github_url (‹"https://"› ++ host_pattern ++ chr_slash :: ‹"owner"› ++ chr_slash :: ‹"git"› ++ [])
  = Ok (‹"owner"›, []).
Proof.
  apply parse_github_url_empty_name;
    [decide_concrete | reflexivity | discriminate | decide_concrete | discriminate
    | decide_concrete | exact I].
Defined.

(** End-to-end scenarios 1 and 2 of the spec, an SSH URL, and the two
    behaviours the spec does not describe: [widget.git] loses its final
    [t], and the host is searched anywhere in the text, not anchored. *)
Example scenario_valid_url :
  parse_github_url ‹"https://github.com/owner/repo"› = Ok (‹"owner"›, ‹"repo"›).
Proof. vm_compute. reflexivity. Qed.

Example scenario_invalid_url :
  parse_github_url ‹"https://invalid-url.com"› = Raise invalid_url_error.
Proof. vm_compute. reflexivity. Qed.

Example ssh_url :
  parse_github_url ‹"git@github.com:owner/repo.git"› = Ok (‹"owner"›, ‹"repo"›).
Proof. vm_compute. reflexivity. Qed.

Example widget_url :
  parse_github_url ‹"https://github.com/owner/widget.git"› = Ok (‹"owner"›, ‹"widge"›).
Proof. vm_compute. reflexivity. Qed.

Example unanchored_host :
  parse_github_url ‹"https://example.org/github.com/a/b"› = Ok (‹"a"›, ‹"b"›).
Proof. vm_compute. reflexivity. Qed.

End Url.
