(* ===== verification/Json.v ===== *)
(** * JSON values and [json.dumps(obj, indent=2)]

    The Python objects that [json.loads] produces and that
    [analyze_github_repo] builds (src/langchain_flow.py, lines 152-203):
    [None], [bool], [int], [float], [str], [list] and [dict] (ordered, as
    Python dicts are).  [dict.get] and the serializer of the standard
    library's [json/encoder.py] ([_make_iterencode] with [indent=2],
    [ensure_ascii=True], separators [","] and [": "]), and its default
    form [encode_compact] (separators [", "] and [": "]) that the test
    fixture uses.

    A [float] is kept as its [repr] text: the conversion between decimal
    text and binary doubles is not modelled. *)

From S2P Require Import Prelude PyStr.

Module Json.

#[warnings="-register-all"]
Inductive jvalue :=
  | JNull
  | JBool (b : bool)
  | JInt (z : Z)
  | JFloat (repr : pystr)
  | JStr (s : pystr)
  | JList (items : list jvalue)
  | JDict (items : list (pystr * jvalue)).

(** ** [dict.get] and attribute errors *)

Fixpoint assoc_get (kvs : list (pystr * jvalue)) (k : pystr) : option jvalue :=
  match kvs with
  | [] => None
  | (k', v) :: kvs' => if decide (k = k') then Some v else assoc_get kvs' k
  end.

(** [type(v).__name__], for the message of an [AttributeError]. *)
Definition type_name (v : jvalue) : pystr :=
  match v with
  | JNull => ‹"NoneType"› | JBool _ => ‹"bool"› | JInt _ => ‹"int"›
  | JFloat _ => ‹"float"› | JStr _ => ‹"str"› | JList _ => ‹"list"›
  | JDict _ => ‹"dict"›
  end.

Definition no_attribute (v : jvalue) (attr : pystr) : exc :=
  Exc AttributeError
    ([chr_squote] ++ type_name v ++ [chr_squote] ++ ‹" object has no attribute "›
     ++ [chr_squote] ++ attr ++ [chr_squote]).

(** [v.get(k, default)]: only a [dict] has a [get] method. *)
Definition py_get (v : jvalue) (k : pystr) (default : jvalue) : result jvalue :=
  match v with
  | JDict kvs => Ok (match assoc_get kvs k with Some x => x | None => default end)
  | _ => Raise (no_attribute v ‹"get"›)
  end.

(** ** The string encoder [py_encode_basestring_ascii] *)

Definition hex4 (n : Z) : pystr :=
  [hex_digit (n / 4096 mod 16); hex_digit (n / 256 mod 16);
   hex_digit (n / 16 mod 16); hex_digit (n mod 16)].

(** ["\\u{0:04x}".format(n)] *)
Definition u_escape (n : Z) : pystr := [chr_backslash; 117] ++ hex4 n.

(** The UTF-16 surrogate pair of a code point above [0xFFFF]. *)
Definition high_surrogate (c : Z) : Z :=
  Z.lor 55296 (Z.land (Z.shiftr (c - 65536) 10) 1023).
Definition low_surrogate (c : Z) : Z :=
  Z.lor 56320 (Z.land (c - 65536) 1023).

(** [replace(match)] of [json/encoder.py], on one character. *)
Definition escape_char (c : Z) : pystr :=
  if c =? chr_backslash then [chr_backslash; chr_backslash]
  else if c =? chr_dquote then [chr_backslash; chr_dquote]
  else if c =? 8 then [chr_backslash; 98]
  else if c =? 12 then [chr_backslash; 102]
  else if c =? 10 then [chr_backslash; 110]
  else if c =? 13 then [chr_backslash; 114]
  else if c =? 9 then [chr_backslash; 116]
  else if (32 <=? c) && (c <=? 126) then [c]
  else if c <? 65536 then u_escape c
  else u_escape (high_surrogate c) ++ u_escape (low_surrogate c).

Definition encode_str (s : pystr) : pystr :=
  [chr_dquote] ++ (s ≫= escape_char) ++ [chr_dquote].

(** [_floatstr]: NaN and the infinities are spelled as JavaScript does. *)
Definition float_str (r : pystr) : pystr :=
  if decide (r = ‹"nan"›) then ‹"NaN"›
  else if decide (r = ‹"inf"›) then ‹"Infinity"›
  else if decide (r = ‹"-inf"›) then ‹"-Infinity"›
  else r.

(** ** [_iterencode] with [indent=2]

    [newline_indent lvl] is ['\n' + '  ' * lvl]; a non-empty list or dict
    opens with it at the next level, separates its items with [","] and
    it, and closes with the indentation of its own level. *)

Definition newline_indent (lvl : nat) : pystr := nl ++ replicate (2 * lvl) 32.

Definition item_separator (lvl : nat) : pystr := ‹","› ++ newline_indent lvl.

Fixpoint encode (lvl : nat) (v : jvalue) : pystr :=
  match v with
  | JNull => ‹"null"›
  | JBool true => ‹"true"›
  | JBool false => ‹"false"›
  | JInt z => str_int z
  | JFloat r => float_str r
  | JStr s => encode_str s
  | JList [] => ‹"[]"›
  | JList items =>
      ‹"["› ++ newline_indent (S lvl)
      ++ join (item_separator (S lvl)) (map (encode (S lvl)) items)
      ++ newline_indent lvl ++ ‹"]"›
  | JDict [] => ‹"{}"›
  | JDict items =>
      ‹"{"› ++ newline_indent (S lvl)
      ++ join (item_separator (S lvl))
           (map (fun '(k, x) => encode_str k ++ ‹": "› ++ encode (S lvl) x) items)
      ++ newline_indent lvl ++ ‹"}"›
  end.

(** [json.dumps(obj, indent=2)] *)
Definition dumps (v : jvalue) : pystr := encode 0 v.

(** [json.dumps(obj)] with the defaults: no indentation, the separators
    [", "] and [": "] ([_make_iterencode] with [indent=None]). *)
Fixpoint encode_compact (v : jvalue) : pystr :=
  match v with
  | JNull => ‹"null"›
  | JBool true => ‹"true"›
  | JBool false => ‹"false"›
  | JInt z => str_int z
  | JFloat r => float_str r
  | JStr s => encode_str s
  | JList items => ‹"["› ++ join ‹", "› (map encode_compact items) ++ ‹"]"›
  | JDict items =>
      ‹"{"› ++ join ‹", "› (map (fun '(k, x) => encode_str k ++ ‹": "› ++ encode_compact x) items)
      ++ ‹"}"›
  end.

(** ** Induction over nested values *)

Section jvalue_ind_deep.
Variable P : jvalue -> Prop.
Hypothesis H_null : P JNull.
Hypothesis H_bool : forall b, P (JBool b).
Hypothesis H_int : forall z, P (JInt z).
Hypothesis H_float : forall r, P (JFloat r).
Hypothesis H_str : forall s, P (JStr s).
Hypothesis H_list : forall l, Forall P l -> P (JList l).
Hypothesis H_dict : forall kvs, Forall (fun kv => P kv.2) kvs -> P (JDict kvs).

Fixpoint jvalue_ind_deep (v : jvalue) : P v :=
  match v with
  | JNull => H_null
  | JBool b => H_bool b
  | JInt z => H_int z
  | JFloat r => H_float r
  | JStr s => H_str s
  | JList l =>
      H_list l ((fix go (l : list jvalue) : Forall P l :=
                   match l with
                   | [] => Forall_nil_2 _
                   | x :: l' => Forall_cons_2 _ _ _ (jvalue_ind_deep x) (go l')
                   end) l)
  | JDict kvs =>
      H_dict kvs ((fix go (l : list (pystr * jvalue)) : Forall (fun kv => P kv.2) l :=
                     match l with
                     | [] => Forall_nil_2 _
                     | kv :: l' => Forall_cons_2 _ _ _ (jvalue_ind_deep kv.2) (go l')
                     end) kvs)
  end.
End jvalue_ind_deep.

(** ** Output bounds: [ensure_ascii] *)

(** The characters [json.dumps] may emit with [ensure_ascii=True] and an
    indent: printable ASCII and the newline. *)
Definition out_char (c : Z) : Prop := c = chr_nl \/ 32 <= c <= 126.

#[export] Instance out_char_dec c : Decision (out_char c).
Proof. unfold out_char. apply _. Defined.

(** The values whose float [repr]s are printable ASCII (as every [repr] of
    a Python float is). *)
Fixpoint floats_ascii (v : jvalue) : Prop :=
  match v with
  | JFloat r => Forall out_char r
  | JList l => fold_right (fun x acc => floats_ascii x /\ acc) True l
  | JDict kvs => fold_right (fun kv acc => floats_ascii kv.2 /\ acc) True kvs
  | _ => True
  end.

Lemma join_Forall (P : Z -> Prop) (sep : pystr) (items : list pystr) :
  Forall P sep -> Forall (Forall P) items -> Forall P (join sep items).
Proof.
  intros Hsep. induction 1 as [|x l Hx Hl IH]; simpl; [by constructor|].
  destruct l; [done|]. rewrite !Forall_app. auto.
Qed.

Lemma out_char_range c : 32 <= c <= 126 -> out_char c.
Proof. by right. Qed.

Ltac solve_out :=
  repeat first [ lazymatch goal with |- Forall _ (lit _) => decide_concrete end
               | lazymatch goal with |- out_char (Z.of_nat _) => decide_concrete end
               | lazymatch goal with |- out_char chr_nl => by left end
               | apply Forall_nil_2 | rewrite Forall_app; split | apply Forall_cons_2 ];
  try (apply out_char_range; cbv [chr_backslash chr_dquote chr_squote]; lia).

Lemma hex_digit_out n : out_char (hex_digit (n mod 16)).
Proof.
  pose proof (Z.mod_pos_bound n 16 ltac:(lia)).
  apply out_char_range. unfold hex_digit. destruct (Z.ltb_spec (n mod 16) 10); lia.
Qed.

Lemma u_escape_out n : Forall out_char (u_escape n).
Proof. unfold u_escape, hex4. solve_out; apply hex_digit_out. Qed.

Lemma escape_char_out c : Forall out_char (escape_char c).
Proof.
  unfold escape_char.
  repeat match goal with
         | |- context [if ?b then _ else _] => destruct b eqn:?
         end;
    solve_out; apply hex_digit_out.
Qed.

Lemma encode_str_out s : Forall out_char (encode_str s).
Proof.
  unfold encode_str. solve_out.
  induction s as [|c s IH]; simpl; solve_out; [apply escape_char_out | done].
Qed.

Lemma uint_digits_out d : Forall out_char (uint_digits d).
Proof. induction d; simpl; solve_out; done. Qed.

Lemma str_int_out z : Forall out_char (str_int z).
Proof. unfold str_int. destruct (Z.to_int z); solve_out; apply uint_digits_out. Qed.

Lemma newline_indent_out lvl : Forall out_char (newline_indent lvl).
Proof.
  unfold newline_indent. solve_out.
  apply Forall_replicate. apply out_char_range. lia.
Qed.

Lemma item_separator_out lvl : Forall out_char (item_separator lvl).
Proof. unfold item_separator. rewrite Forall_app. split; [decide_concrete | apply newline_indent_out]. Qed.

Lemma float_str_out r : Forall out_char r -> Forall out_char (float_str r).
Proof. intros Hr. unfold float_str. repeat case_decide; solve_out; done. Qed.

Lemma fold_and_Forall {A} (P : A -> Prop) (l : list A) :
  fold_right (fun x acc => P x /\ acc) True l -> Forall P l.
Proof. induction l; simpl; [by constructor | intros [? ?]; constructor; auto]. Qed.

#[export] Hint Resolve encode_str_out str_int_out newline_indent_out uint_digits_out
  float_str_out item_separator_out : pymodel.

(** C36: [json.dumps(v, indent=2)] writes only printable ASCII characters
    and newlines ([ensure_ascii]): every other character of a string,
    control characters and code points above [0xFFFF] included, is
    escaped. *)
Theorem dumps_ascii (v : jvalue) :
  floats_ascii v -> Forall out_char (dumps v).
Proof.
  unfold dumps. generalize 0%nat. revert v.
  refine (jvalue_ind_deep (fun v => forall lvl, floats_ascii v -> Forall out_char (encode lvl v))
            _ _ _ _ _ _ _); cbn [encode floats_ascii].
  - intros; solve_out.
  - intros [] lvl _; solve_out.
  - auto with pymodel.
  - auto with pymodel.
  - auto with pymodel.
  - intros l IH lvl Hl. apply fold_and_Forall in Hl.
    destruct l as [|x l]; [solve_out|].
    rewrite !Forall_app. split_and!; [decide_concrete | auto with pymodel | |
      auto with pymodel | decide_concrete].
    apply join_Forall; [apply item_separator_out|].
    apply Forall_fmap. eapply Forall_impl; [apply Forall_and; split; [exact IH | exact Hl]|].
    intros y [Hy1 Hy2]. by apply Hy1.
  - intros kvs IH lvl Hl. apply fold_and_Forall in Hl.
    destruct kvs as [|kv kvs]; [solve_out|].
    rewrite !Forall_app. split_and!; [decide_concrete | auto with pymodel | |
      auto with pymodel | decide_concrete].
    apply join_Forall; [apply item_separator_out|].
    apply Forall_fmap. eapply Forall_impl; [apply Forall_and; split; [exact IH | exact Hl]|].
    intros [k y] [Hy1 Hy2]. unfold compose. cbv beta iota in *. rewrite !Forall_app.
    split_and!; [auto with pymodel | decide_concrete | auto].
Qed.

Definition sample_value : jvalue :=
  JDict [(‹"name"›, JStr ‹"Test Extension"›); (‹"version"›, JFloat ‹"1.5"›);
         (‹"permissions"›, JList [JStr ‹"tabs"›]); (‹"icons"›, JDict []);
         (‹"readme"›, JStr [233; 128512; chr_nl])].

Lemma dumps_ascii_witness :
  floats_ascii sample_value /\ Forall out_char (dumps sample_value).
Proof.
  assert (H : floats_ascii sample_value) by (simpl; split_and!; try exact I; decide_concrete).
  split; [exact H | exact (dumps_ascii sample_value H)].
Defined.

(** The text [json.dumps(sample_value, indent=2)] prints, character for
    character: two-space indentation, [","] at line ends, [": "] after
    keys, [\u00e9] and the surrogate pair [\ud83d\ude00] for U+1F600. *)
Example dumps_sample :
  dumps sample_value =
  [123] ++ newline_indent 1 ++ encode_str ‹"name"› ++ ‹": "› ++ encode_str ‹"Test Extension"›
  ++ ‹","› ++ newline_indent 1 ++ encode_str ‹"version"› ++ ‹": 1.5,"›
  ++ newline_indent 1 ++ encode_str ‹"permissions"› ++ ‹": ["› ++ newline_indent 2
  ++ encode_str ‹"tabs"› ++ newline_indent 1 ++ ‹"],"›
  ++ newline_indent 1 ++ encode_str ‹"icons"› ++ ‹": {},"›
  ++ newline_indent 1 ++ encode_str ‹"readme"› ++ ‹": "›
  ++ [chr_dquote] ++ ‹"\u00e9\ud83d\ude00\n"› ++ [chr_dquote]
  ++ newline_indent 0 ++ [125].
Proof. vm_compute. reflexivity. Qed.

End Json.
