(* ===== verification/JsonLoads.v ===== *)
(** * [json.loads]: CPython's C scanner ([Modules/_json.c], 3.12)

    [analyze_github_repo] parses [manifest.json] and [package.json] with
    [json.loads] (src/langchain_flow.py, lines 152 and 162).  The model
    follows the C scanner: [scan_once_unicode] (the value at a position),
    [scanstring_unicode] (strict strings: control characters refused,
    [\uXXXX] escapes with surrogate pairs joined), [_match_number_unicode]
    (ASCII digits; a number with a fraction or an exponent is a float, kept
    as its text), [_parse_object_unicode] (later duplicate keys overwrite
    the value in place, as [PyDict_SetItem] does) and
    [_parse_array_unicode]; then [JSONDecoder.decode] (surrounding
    whitespace, ["Extra data"]) and [json.loads]'s BOM check.

    Errors carry the position the C code reports, as the suffix of the
    input that starts there; [decode_error] renders
    ["msg: line L column C (char P)"] as [JSONDecodeError.__str__] does.

    The recursion is bounded by fuel; [loads] gives two units per input
    character and one more, which [loads_fuel_enough] shows is enough.
    Python's recursion limit on deep nesting is not modelled.

    The invariant of the object loop, that the dict built so far has
    distinct keys, gives [loads_keys_distinct]: no dict [json.loads]
    returns has a key twice. *)

From S2P Require Import Prelude PyStr Json.
Import Json.

Module JsonLoads.

(** A parse: a value and the rest of the input, or an error message and
    the input from the error's position on. *)
Inductive parse (A : Type) :=
  | Parsed (a : A) (rest : list Z)
  | Failed (msg : pystr) (at_ : list Z).
Arguments Parsed {A} a rest.
Arguments Failed {A} msg at_.

Definition is_ws (c : Z) : bool := (c =? 32) || (c =? 9) || (c =? 10) || (c =? 13).
Definition is_digit (c : Z) : bool := (48 <=? c) && (c <=? 57).

Fixpoint skip_ws (r : list Z) : list Z :=
  match r with
  | c :: r' => if is_ws c then skip_ws r' else r
  | [] => []
  end.

Fixpoint span_digits (r : list Z) : list Z * list Z :=
  match r with
  | c :: r' => if is_digit c then let '(ds, t) := span_digits r' in (c :: ds, t) else ([], r)
  | [] => ([], [])
  end.

Definition digits_value (ds : list Z) : Z := fold_left (fun acc d => acc * 10 + (d - 48)) ds 0.

(** ** Strings *)

Definition hex_value (c : Z) : option Z :=
  if is_digit c then Some (c - 48)
  else if (97 <=? c) && (c <=? 102) then Some (c - 87)
  else if (65 <=? c) && (c <=? 70) then Some (c - 55)
  else None.

Definition hex4_value (a b c d : Z) : option Z :=
  match hex_value a, hex_value b, hex_value c, hex_value d with
  | Some x, Some y, Some z, Some t => Some (((x * 16 + y) * 16 + z) * 16 + t)
  | _, _, _, _ => None
  end.

Definition is_high (c : Z) : bool := (55296 <=? c) && (c <=? 56319).
Definition is_low (c : Z) : bool := (56320 <=? c) && (c <=? 57343).

(** [Py_UNICODE_JOIN_SURROGATES] *)
Definition join_surrogates (hi lo : Z) : Z :=
  Z.lor (Z.shiftl (Z.land hi 1023) 10) (Z.land lo 1023) + 65536.

(** The simple escapes: backslash followed by a double quote, a
    backslash, a slash, or one of the letters b f n r t. *)
Definition simple_escape (c : Z) : option Z :=
  if c =? 34 then Some 34 else if c =? 92 then Some 92 else if c =? 47 then Some 47
  else if c =? 98 then Some 8 else if c =? 102 then Some 12 else if c =? 110 then Some 10
  else if c =? 114 then Some 13 else if c =? 116 then Some 9 else None.

Definition unterminated : pystr := ‹"Unterminated string starting at"›.
Definition bad_u_escape : pystr := ‹"Invalid \uXXXX escape"›.

(** The string being read gains the character [c] in front. *)
Definition cons_char (c : Z) (p : parse pystr) : parse pystr :=
  match p with Parsed s rest => Parsed (c :: s) rest | Failed m q => Failed m q end.

(** [scanstring_unicode] after the opening quote; [start] is the input
    from the quote on, where an unterminated string is reported.  After a
    [\uXXXX] high surrogate, a second escape is read only when at least
    seven characters follow ([end + 6 < len]); if it is not a low
    surrogate the reading resumes right after the first escape. *)
Fixpoint scan_string (start r : list Z) : parse pystr :=
  match r with
  | [] => Failed unterminated start
  | c :: rest =>
      if c =? 34 then Parsed [] rest
      else if c =? 92 then
        match rest with
        | [] => Failed unterminated start
        | e :: r2 =>
            if e =? 117 then
              match r2 with
              | a :: b :: c1 :: d :: r3 =>
                  match r3, hex4_value a b c1 d with
                  | [], _ | _, None => Failed bad_u_escape rest
                  | _ :: _, Some hi =>
                      match r3 with
                      | x :: y :: a' :: b' :: c' :: d' :: ((_ :: _) as r4) =>
                          if is_high hi && (x =? 92) && (y =? 117) then
                            match hex4_value a' b' c' d' with
                            | None => Failed bad_u_escape (y :: a' :: b' :: c' :: d' :: r4)
                            | Some lo =>
                                if is_low lo then cons_char (join_surrogates hi lo) (scan_string start r4)
                                else cons_char hi (scan_string start r3)
                            end
                          else cons_char hi (scan_string start r3)
                      | _ => cons_char hi (scan_string start r3)
                      end
                  end
              | _ => Failed bad_u_escape rest
              end
            else
              match simple_escape e with
              | None => Failed ‹"Invalid \escape"› r
              | Some c' => cons_char c' (scan_string start r2)
              end
        end
      else if c <=? 31 then Failed ‹"Invalid control character at"› r
      else cons_char c (scan_string start rest)
  end.

(** ** Numbers: [_match_number_unicode] *)

Definition expecting_value : pystr := ‹"Expecting value"›.

(** A leading [-]. *)
Definition number_sign (r : list Z) : list Z * list Z :=
  match r with c :: r' => if c =? 45 then ([45], r') else ([], r) | [] => ([], []) end.

(** The integer digits: [1-9] then digits, or a single [0]; [None] when
    there is no digit ([raise_stop_iteration(start)]). *)
Definition int_part (r : list Z) : option (list Z * list Z) :=
  match r with
  | d :: r2 =>
      if (49 <=? d) && (d <=? 57) then let '(ds, r3) := span_digits r2 in Some (d :: ds, r3)
      else if d =? 48 then Some ([48], r2)
      else None
  | [] => None
  end.

(** [.] followed by at least one digit. *)
Definition fraction (r : list Z) : list Z * list Z :=
  match r with
  | p :: d :: r' =>
      if (p =? 46) && is_digit d then let '(fs, r'') := span_digits r' in (p :: d :: fs, r'')
      else ([], r)
  | _ => ([], r)
  end.

(** The sign of an exponent, read only when a character follows it. *)
Definition exponent_sign (r : list Z) : list Z * list Z :=
  match r with
  | c :: (_ :: _) as r2 => if (c =? 45) || (c =? 43) then ([c], r2) else ([], r)
  | _ => ([], r)
  end.

(** The exponent part, read only when a character follows the [e]; [None]
    when no digit follows, and the scan backtracks to the [e]. *)
Definition scan_exponent (r : list Z) : option (list Z * list Z) :=
  match r with
  | e :: (_ :: _) as r1 =>
      if (e =? 101) || (e =? 69) then
        let '(sign, r2) := exponent_sign r1 in
        let '(ds, r3) := span_digits r2 in
        match ds with [] => None | _ :: _ => Some (e :: sign ++ ds, r3) end
      else None
  | _ => None
  end.

Definition scan_number (r : list Z) : parse jvalue :=
  let '(sign, r1) := number_sign r in
  match int_part r1 with
  | None => Failed expecting_value r
  | Some (ds, r3) =>
      let '(frac, r4) := fraction r3 in
      let '(exp, r5) := match scan_exponent r4 with Some p => p | None => ([], r4) end in
      match frac, exp with
      | [], [] =>
          Parsed (JInt (if bool_decide (sign = []) then digits_value ds else - digits_value ds)) r5
      | _, _ => Parsed (JFloat (sign ++ ds ++ frac ++ exp)) r5
      end
  end.

(** ** Dicts: [PyDict_SetItem] *)

Fixpoint dict_set (kvs : list (pystr * jvalue)) (k : pystr) (v : jvalue)
    : list (pystr * jvalue) :=
  match kvs with
  | [] => [(k, v)]
  | (k', v') :: kvs' => if decide (k = k') then (k', v) :: kvs' else (k', v') :: dict_set kvs' k v
  end.

(** ** Values, objects and arrays *)

Definition expecting_comma : pystr := ‹"Expecting ',' delimiter"›.
Definition expecting_colon : pystr := ‹"Expecting ':' delimiter"›.
Definition expecting_name : pystr := ‹"Expecting property name enclosed in double quotes"›.

(** [idx <= end_idx && str[idx] == c] *)
Definition head_is (c : Z) (r : list Z) : bool :=
  match r with d :: _ => d =? c | [] => false end.

Definition string_value (p : parse pystr) : parse jvalue :=
  match p with Parsed s rest => Parsed (JStr s) rest | Failed m q => Failed m q end.

(** The named constants of [scan_once_unicode] and the values
    [parse_constant] gives them ([float('nan')], [float('inf')], ...). *)
Definition constants : list (pystr * jvalue) :=
  [(‹"null"›, JNull); (‹"true"›, JBool true); (‹"false"›, JBool false);
   (‹"NaN"›, JFloat ‹"nan"›); (‹"Infinity"›, JFloat ‹"inf"›); (‹"-Infinity"›, JFloat ‹"-inf"›)].

(** The cases of [scan_once_unicode] that do not nest: a named constant
    (the six start with different characters, so the first one that
    prefixes the input is the one the C [switch] picks), otherwise
    [_match_number_unicode]. *)
Definition scan_atom (r : list Z) : parse jvalue :=
  match list_find (fun kv => kv.1 `prefix_of` r) constants with
  | Some (_, (w, v)) => Parsed v (drop (length w) r)
  | None => scan_number r
  end.

(** [scan_once_unicode]: the value at the start of [r]. *)
Fixpoint scan_value (fuel : nat) (r : list Z) : parse jvalue :=
  match fuel with
  | O => Failed expecting_value r
  | S f =>
      match r with
      | [] => Failed expecting_value r
      | c :: r' =>
          if c =? 34 then string_value (scan_string r r')
          else if c =? 123 then
            let r1 := skip_ws r' in
            if head_is 125 r1 then Parsed (JDict []) (tail r1) else parse_object f r1 []
          else if c =? 91 then
            let r1 := skip_ws r' in
            if head_is 93 r1 then Parsed (JList []) (tail r1) else parse_array f r1 []
          else scan_atom r
      end
  end

(** The loop of [_parse_object_unicode], at a key (after [{] or [,] and
    whitespace); [acc] is the dict read so far. *)
with parse_object (fuel : nat) (r : list Z) (acc : list (pystr * jvalue)) : parse jvalue :=
  match fuel with
  | O => Failed expecting_value r
  | S f =>
      if negb (head_is 34 r) then Failed expecting_name r else
      match scan_string r (tail r) with
      | Failed m p => Failed m p
      | Parsed key r2 =>
          let r3 := skip_ws r2 in
          if negb (head_is 58 r3) then Failed expecting_colon r3 else
          match scan_value f (skip_ws (tail r3)) with
          | Failed m p => Failed m p
          | Parsed v r4 =>
              let acc' := dict_set acc key v in
              let r5 := skip_ws r4 in
              if head_is 125 r5 then Parsed (JDict acc') (tail r5)
              else if head_is 44 r5 then parse_object f (skip_ws (tail r5)) acc'
              else Failed expecting_comma r5
          end
      end
  end

(** The loop of [_parse_array_unicode], at an element. *)
with parse_array (fuel : nat) (r : list Z) (acc : list jvalue) : parse jvalue :=
  match fuel with
  | O => Failed expecting_value r
  | S f =>
      match scan_value f r with
      | Failed m p => Failed m p
      | Parsed v r1 =>
          let r2 := skip_ws r1 in
          if head_is 93 r2 then Parsed (JList (acc ++ [v])) (tail r2)
          else if head_is 44 r2 then parse_array f (skip_ws (tail r2)) (acc ++ [v])
          else Failed expecting_comma r2
      end
  end.

(** ** [json.loads] *)

(** [JSONDecodeError(msg, doc, pos)] and its [str()]. *)
Definition decode_error (doc : pystr) (msg : pystr) (at_ : list Z) : exc :=
  let pos := (length doc - length at_)%nat in
  let before := take pos doc in
  let lineno := (length (filter (fun c => c = chr_nl) before) + 1)%nat in
  let colno := match list_find (fun c => c = chr_nl) (reverse before) with
               | None => S pos
               | Some (i, _) => S i
               end in
  Exc JSONDecodeError
    (msg ++ ‹": line "› ++ str_int (Z.of_nat lineno) ++ ‹" column "› ++ str_int (Z.of_nat colno)
     ++ ‹" (char "› ++ str_int (Z.of_nat pos) ++ ‹")"›).

(** [json.loads] with the recursion bounded by [fuel]. *)
Definition loads_fuel (fuel : nat) (doc : pystr) : result jvalue :=
  if head_is 65279 doc
  then Raise (decode_error doc ‹"Unexpected UTF-8 BOM (decode using utf-8-sig)"› doc)
  else
    match scan_value fuel (skip_ws doc) with
    | Failed m p => Raise (decode_error doc m p)
    | Parsed v rest =>
        match skip_ws rest with
        | [] => Ok v
        | rest' => Raise (decode_error doc ‹"Extra data"› rest')
        end
    end.

(** A value, object or array costs at most two units of fuel per
    character ([[] and [{] two, one for the value and one for the loop). *)
Definition loads (doc : pystr) : result jvalue := loads_fuel (S (2 * length doc)) doc.

(** ** Every scan consumes input, and the fuel of [loads] is enough *)

Lemma skip_ws_len r : (length (skip_ws r) <= length r)%nat.
Proof. induction r as [|c r IH]; simpl; [lia|]. destruct (is_ws c); simpl; lia. Qed.

Lemma head_is_tail c r : head_is c r = true -> length (tail r) = (length r - 1)%nat /\ r <> [].
Proof. destruct r; simpl; [done|]. intros _. split; [lia | done]. Qed.

Lemma span_digits_len r : (length (span_digits r).2 <= length r)%nat.
Proof.
  induction r as [|c r IH]; simpl; [lia|].
  destruct (is_digit c); simpl; [destruct (span_digits r); simpl in *; lia | lia].
Qed.

Ltac spans :=
  repeat match goal with
  | |- context [span_digits ?x] =>
      let E := fresh "E" in pose proof (span_digits_len x); destruct (span_digits x) eqn:E
  end.

Lemma number_sign_len r : (length (number_sign r).2 <= length r)%nat.
Proof. destruct r as [|c r]; simpl; [lia|]. destruct (c =? 45); simpl; lia. Qed.

Lemma int_part_len r ds t : int_part r = Some (ds, t) -> (length t < length r)%nat.
Proof.
  destruct r as [|d r]; simpl; [done|]. spans.
  destruct ((49 <=? d) && (d <=? 57)); [intros [= _ <-]; simpl in *; lia|].
  destruct (d =? 48); [intros [= _ <-]; lia | done].
Qed.

Lemma fraction_len r : (length (fraction r).2 <= length r)%nat.
Proof.
  destruct r as [|p [|d r]]; simpl; try lia. spans.
  destruct ((p =? 46) && is_digit d); simpl in *; lia.
Qed.

Lemma exponent_sign_len r : (length (exponent_sign r).2 <= length r)%nat.
Proof. destruct r as [|c [|x r]]; simpl; try lia. destruct ((c =? 45) || (c =? 43)); simpl; lia. Qed.

Lemma scan_exponent_len r e t : scan_exponent r = Some (e, t) -> (length t <= length r)%nat.
Proof.
  unfold scan_exponent. destruct r as [|c [|x r]]; cbv beta iota; try discriminate.
  destruct ((c =? 101) || (c =? 69)); [|discriminate].
  pose proof (exponent_sign_len (x :: r)) as Hs.
  destruct (exponent_sign (x :: r)) as [sign r2].
  pose proof (span_digits_len r2) as Hd.
  destruct (span_digits r2) as [[|d ds] r3]; cbv beta iota; [discriminate|].
  intros [= _ <-]. simpl in *. lia.
Qed.

Lemma scan_number_len r v rest : scan_number r = Parsed v rest -> (length rest < length r)%nat.
Proof.
  unfold scan_number. pose proof (number_sign_len r) as H1.
  destruct (number_sign r) as [sign r1]. simpl in H1.
  destruct (int_part r1) as [[ds r3]|] eqn:Hi; [|discriminate].
  apply int_part_len in Hi. pose proof (fraction_len r3) as H3.
  destruct (fraction r3) as [frac r4]. simpl in H3.
  assert (H4 : (length (match scan_exponent r4 with Some p => p | None => ([], r4) end).2
                <= length r4)%nat).
  { destruct (scan_exponent r4) as [[e t]|] eqn:He; [by apply scan_exponent_len in He | done]. }
  destruct (match scan_exponent r4 with Some p => p | None => ([], r4) end) as [ex r5].
  simpl in H4. intros H. destruct frac, ex; simplify_eq; lia.
Qed.

Lemma constants_nonempty : Forall (fun kv => kv.1 <> []) constants.
Proof. repeat constructor; discriminate. Qed.

Lemma scan_atom_len r v rest : scan_atom r = Parsed v rest -> (length rest < length r)%nat.
Proof.
  unfold scan_atom. destruct (list_find _ constants) as [[i [w v']]|] eqn:Hf.
  - intros [= <- <-]. apply list_find_Some in Hf as (Hi & Hpre & _).
    pose proof (proj1 (Forall_lookup _ _) constants_nonempty i _ Hi) as Hne. simpl in Hpre, Hne.
    apply prefix_length in Hpre. rewrite length_drop. destruct w; [done|]. simpl in *. lia.
  - apply scan_number_len.
Qed.

Lemma cons_char_parsed c p s rest : cons_char c p = Parsed s rest -> exists s', p = Parsed s' rest.
Proof. destruct p; simpl; intros; simplify_eq; eauto. Qed.

Lemma scan_string_len st r s rest : scan_string st r = Parsed s rest -> (length rest < length r)%nat.
Proof.
  remember (length r) as n eqn:Hn. revert r Hn s rest.
  induction n as [n IH] using lt_wf_ind. intros r -> s rest H.
  assert (Hrec : forall r', (length r' < length r)%nat -> forall c s',
            cons_char c (scan_string st r') = Parsed s' rest -> (length rest < length r)%nat).
  { intros r' Hr' c s' Hc. apply cons_char_parsed in Hc as [s'' Hc].
    specialize (IH (length r') Hr' r' eq_refl _ _ Hc). lia. }
  destruct r as [|c r0]; cbn [scan_string] in H; [discriminate|].
  destruct (c =? 34); [injection H as _ <-; simpl; lia|].
  destruct (c =? 92).
  2: { destruct (c <=? 31); [discriminate|]. eapply Hrec; [|exact H]. simpl; lia. }
  destruct r0 as [|e r2]; [discriminate|].
  destruct (e =? 117).
  2: { destruct (simple_escape e); [|discriminate]. eapply Hrec; [|exact H]. simpl; lia. }
  destruct r2 as [|a [|b [|c1 [|d [|z r3]]]]]; try discriminate;
    destruct (hex4_value a b c1 d) as [hi|]; try discriminate.
  destruct r3 as [|y [|a' [|b' [|c' [|d' [|x r4]]]]]];
    try (eapply Hrec; [|exact H]; simpl; lia).
  destruct (is_high hi && (z =? 92) && (y =? 117)); [|eapply Hrec; [|exact H]; simpl; lia].
  destruct (hex4_value a' b' c' d') as [lo|]; [|discriminate].
  destruct (is_low lo); eapply Hrec; try exact H; simpl; lia.
Qed.


#[local] Hint Resolve skip_ws_len : pymodel.

(** Each scan that succeeds leaves a strictly shorter rest. *)
Lemma scan_len f :
  (forall r v rest, scan_value f r = Parsed v rest -> (length rest < length r)%nat) /\
  (forall r acc v rest, parse_object f r acc = Parsed v rest -> (length rest < length r)%nat) /\
  (forall r acc v rest, parse_array f r acc = Parsed v rest -> (length rest < length r)%nat).
Proof.
  induction f as [|f (IHv & IHo & IHa)]; [split_and!; done|].
  split_and!.
  - intros [|c r'] v rest H; simpl in H; [discriminate|].
    pose proof (skip_ws_len r') as Hw.
    destruct (c =? 34).
    { destruct (scan_string _ r') eqn:E; simplify_eq/=. apply scan_string_len in E. simpl. lia. }
    destruct (c =? 123).
    { destruct (head_is 125 (skip_ws r')) eqn:Hh.
      - simplify_eq. apply head_is_tail in Hh. simpl. lia.
      - apply IHo in H. simpl. lia. }
    destruct (c =? 91).
    { destruct (head_is 93 (skip_ws r')) eqn:Hh.
      - simplify_eq. apply head_is_tail in Hh. simpl. lia.
      - apply IHa in H. simpl. lia. }
    by apply scan_atom_len in H.
  - intros r acc v rest H. simpl in H.
    destruct (head_is 34 r) eqn:Hq; simpl in H; [|discriminate].
    destruct (scan_string r (tail r)) as [key r2|] eqn:Hs; [|discriminate].
    apply scan_string_len in Hs. apply head_is_tail in Hq as [Hq _].
    pose proof (skip_ws_len r2) as Hw2.
    destruct (head_is 58 (skip_ws r2)) eqn:Hc; simpl in H; [|discriminate].
    apply head_is_tail in Hc as [Hc _].
    destruct (scan_value f _) as [v' r4|] eqn:Hv; [|discriminate].
    apply IHv in Hv. pose proof (skip_ws_len (tail (skip_ws r2))) as Hw3.
    pose proof (skip_ws_len r4) as Hw4.
    destruct (head_is 125 (skip_ws r4)) eqn:Hb.
    { simplify_eq. apply head_is_tail in Hb as [Hb _]. lia. }
    destruct (head_is 44 (skip_ws r4)) eqn:Hm; [|discriminate].
    apply IHo in H. apply head_is_tail in Hm as [Hm _].
    pose proof (skip_ws_len (tail (skip_ws r4))). lia.
  - intros r acc v rest H. simpl in H.
    destruct (scan_value f r) as [v' r1|] eqn:Hv; [|discriminate].
    apply IHv in Hv. pose proof (skip_ws_len r1).
    destruct (head_is 93 (skip_ws r1)) eqn:Hb.
    { simplify_eq. apply head_is_tail in Hb as [Hb _]. lia. }
    destruct (head_is 44 (skip_ws r1)) eqn:Hm; [|discriminate].
    apply IHa in H. apply head_is_tail in Hm as [Hm _].
    pose proof (skip_ws_len (tail (skip_ws r1))). lia.
Qed.

(** With fuel [f] above the needs of [r] (twice its length, plus one for
    a value and plus two for the loops), more fuel changes nothing. *)
Lemma fuel_mono f :
  (forall r g, (2 * length r < f)%nat -> (f <= g)%nat -> scan_value g r = scan_value f r) /\
  (forall r acc g, (2 * length r + 1 < f)%nat -> (f <= g)%nat ->
     parse_object g r acc = parse_object f r acc) /\
  (forall r acc g, (2 * length r + 1 < f)%nat -> (f <= g)%nat ->
     parse_array g r acc = parse_array f r acc).
Proof.
  induction f as [|f (IHv & IHo & IHa)]; [split_and!; intros; lia|].
  split_and!.
  - intros [|c r'] [|g] Hf Hg; try lia; [done|]. cbn [scan_value].
    pose proof (skip_ws_len r'). simpl in Hf.
    destruct (c =? 34); [done|].
    destruct (c =? 123); [destruct (head_is 125 (skip_ws r')); [done | apply IHo; lia]|].
    destruct (c =? 91); [destruct (head_is 93 (skip_ws r')); [done | apply IHa; lia] | done].
  - intros r acc [|g] Hf Hg; [lia|]. cbn [parse_object].
    destruct (head_is 34 r) eqn:Hq; [|done]. cbn [negb].
    destruct (scan_string r (tail r)) as [key r2|] eqn:Hs; [|done].
    apply scan_string_len in Hs. apply head_is_tail in Hq as [Hq _].
    pose proof (skip_ws_len r2).
    destruct (head_is 58 (skip_ws r2)) eqn:Hc; [|done]. cbn [negb].
    apply head_is_tail in Hc as [Hc _]. pose proof (skip_ws_len (tail (skip_ws r2))).
    rewrite (IHv _ g) by lia.
    destruct (scan_value f _) as [v r4|] eqn:Hv; [|done].
    apply (proj1 (scan_len f)) in Hv. pose proof (skip_ws_len r4).
    destruct (head_is 125 (skip_ws r4)); [done|].
    destruct (head_is 44 (skip_ws r4)) eqn:Hm; [|done].
    apply head_is_tail in Hm as [Hm _]. pose proof (skip_ws_len (tail (skip_ws r4))).
    apply IHo; lia.
  - intros r acc [|g] Hf Hg; [lia|]. cbn [parse_array].
    rewrite (IHv r g) by lia.
    destruct (scan_value f r) as [v r1|] eqn:Hv; [|done].
    apply (proj1 (scan_len f)) in Hv. pose proof (skip_ws_len r1).
    destruct (head_is 93 (skip_ws r1)); [done|].
    destruct (head_is 44 (skip_ws r1)) eqn:Hm; [|done].
    apply head_is_tail in Hm as [Hm _]. pose proof (skip_ws_len (tail (skip_ws r1))).
    apply IHa; lia.
Qed.

(** C10: the fuel of [loads] is enough: [json.loads] with any larger bound
    on its recursion gives the same result, value or error, so the bound
    is never the reason a parse stops. *)
Theorem loads_fuel_enough (doc : pystr) (f : nat) :
  (2 * length doc < f)%nat -> loads_fuel f doc = loads doc.
Proof.
  intros Hf. unfold loads, loads_fuel. pose proof (skip_ws_len doc).
  rewrite (proj1 (fuel_mono (S (2 * length doc))) (skip_ws doc) f) by lia.
  reflexivity.
Qed.

Lemma loads_fuel_enough_witness : loads_fuel 100 ‹"[[1, 2], {}]"› = loads ‹"[[1, 2], {}]"›.
Proof. apply loads_fuel_enough. vm_compute. lia. Defined.

(** ** Dicts have distinct keys

    [_parse_object_unicode] stores each pair with [PyDict_SetItem], which
    overwrites the value of a key already present: no dict [json.loads]
    returns has a key twice, at any depth. *)

Fixpoint keys_distinct (v : jvalue) : bool :=
  match v with
  | JList items => forallb keys_distinct items
  | JDict kvs => bool_decide (NoDup (map fst kvs)) && forallb (fun kv => keys_distinct kv.2) kvs
  | _ => true
  end.

Definition entries_distinct (kvs : list (pystr * jvalue)) : Prop :=
  NoDup (map fst kvs) /\ Forall (fun kv => keys_distinct kv.2 = true) kvs.

Lemma keys_distinct_dict kvs : entries_distinct kvs -> keys_distinct (JDict kvs) = true.
Proof.
  intros [Hnd Hall]. cbn [keys_distinct]. apply andb_true_iff. split; [by apply bool_decide_eq_true_2|].
  apply forallb_forall. intros kv Hin. rewrite Forall_forall in Hall. apply Hall. by apply list_elem_of_In.
Qed.

Lemma keys_distinct_list items : Forall (fun x => keys_distinct x = true) items -> keys_distinct (JList items) = true.
Proof.
  intros Hall. cbn [keys_distinct]. apply forallb_forall. intros x Hin.
  rewrite Forall_forall in Hall. apply Hall. by apply list_elem_of_In.
Qed.

Lemma dict_set_keys kvs k v x : x ∈ map fst (dict_set kvs k v) -> x = k \/ x ∈ map fst kvs.
Proof.
  induction kvs as [|[k' v'] kvs IH]; simpl; [set_solver|].
  destruct (decide (k = k')); simpl; rewrite !elem_of_cons; [tauto|].
  intros [-> | Hx]; [tauto|]. destruct (IH Hx); tauto.
Qed.

Lemma dict_set_distinct kvs k v :
  entries_distinct kvs -> keys_distinct v = true -> entries_distinct (dict_set kvs k v).
Proof.
  induction kvs as [|[k' v'] kvs IH]; intros [Hnd Hall] Hv; simpl.
  - split; [constructor; [set_solver | constructor] | by constructor].
  - apply NoDup_cons in Hnd as [Hk' Hnd]. apply Forall_cons in Hall as [Hv' Hall].
    destruct (decide (k = k')) as [->|Hne].
    + split; [by constructor | by constructor].
    + destruct (IH (conj Hnd Hall) Hv) as [Hnd' Hall']. split; [|by constructor].
      simpl. constructor; [|done]. intros Hin. apply dict_set_keys in Hin as [-> | Hin]; [done|].
      by apply Hk'.
Qed.

(** Constants and numbers do not nest. *)
Lemma scan_atom_distinct r v rest : scan_atom r = Parsed v rest -> keys_distinct v = true.
Proof.
  unfold scan_atom. destruct (list_find _ constants) as [[n [w x]]|] eqn:E.
  - intros [= <- _]. apply list_find_Some in E as (Hl & _).
    assert (Hc : Forall (fun kv => keys_distinct kv.2 = true) constants) by repeat constructor.
    exact (Forall_lookup_1 _ _ _ _ Hc Hl).
  - unfold scan_number. repeat case_match; intros; simplify_eq/=; reflexivity.
Qed.

Section distinct.
(** The law the dict update obeys, the only property of it the parser's
    invariant needs. *)
Hypothesis dict_set_keeps : forall kvs k v,
  entries_distinct kvs -> keys_distinct v = true -> entries_distinct (dict_set kvs k v).

Lemma scan_distinct f :
  (forall r v rest, scan_value f r = Parsed v rest -> keys_distinct v = true) /\
  (forall r acc v rest, entries_distinct acc -> parse_object f r acc = Parsed v rest ->
     keys_distinct v = true) /\
  (forall r acc v rest, Forall (fun x => keys_distinct x = true) acc ->
     parse_array f r acc = Parsed v rest -> keys_distinct v = true).
Proof.
  induction f as [|f (IHv & IHo & IHa)]; [split_and!; done|].
  split_and!.
  - intros [|c r'] v rest H; simpl in H; [discriminate|].
    destruct (c =? 34).
    { destruct (scan_string _ r'); simplify_eq/=. reflexivity. }
    destruct (c =? 123).
    { destruct (head_is 125 (skip_ws r')); [simplify_eq; reflexivity|].
      eapply IHo; [|exact H]. split; constructor. }
    destruct (c =? 91).
    { destruct (head_is 93 (skip_ws r')); [simplify_eq; reflexivity|].
      eapply IHa; [|exact H]. constructor. }
    by apply scan_atom_distinct in H.
  - intros r acc v rest Hacc H. simpl in H.
    destruct (head_is 34 r); simpl in H; [|discriminate].
    destruct (scan_string r (tail r)) as [key r2|]; [|discriminate].
    destruct (head_is 58 (skip_ws r2)); simpl in H; [|discriminate].
    destruct (scan_value f _) as [v' r4|] eqn:Hv; [|discriminate].
    apply IHv in Hv. pose proof (dict_set_keeps acc key v' Hacc Hv) as Hacc'.
    destruct (head_is 125 (skip_ws r4)); [simplify_eq; by apply keys_distinct_dict|].
    destruct (head_is 44 (skip_ws r4)); [|discriminate].
    by eapply IHo.
  - intros r acc v rest Hacc H. simpl in H.
    destruct (scan_value f r) as [v' r1|] eqn:Hv; [|discriminate].
    apply IHv in Hv. assert (Hacc' : Forall (fun x => keys_distinct x = true) (acc ++ [v']))
      by (apply Forall_app; split; [done | by constructor]).
    destruct (head_is 93 (skip_ws r1)); [simplify_eq; by apply keys_distinct_list|].
    destruct (head_is 44 (skip_ws r1)); [|discriminate].
    by eapply IHa.
Qed.
End distinct.

(** C14: the invariant of the parser's dicts: every dict in a value
    [json.loads] returns, at any depth, has distinct keys, since a key
    read twice overwrites its first value. *)
Theorem loads_keys_distinct (doc : pystr) (v : jvalue) :
  loads doc = Ok v -> keys_distinct v = true.
Proof.
  unfold loads, loads_fuel. destruct (head_is 65279 doc); [discriminate|].
  destruct (scan_value _ (skip_ws doc)) as [v' rest|] eqn:Hv; [|discriminate].
  destruct (skip_ws rest); [|discriminate]. intros [= <-].
  exact (proj1 (scan_distinct dict_set_distinct _) _ _ _ Hv).
Qed.

Lemma loads_keys_distinct_witness :
  loads (dq "{`a`: 1, `b`: {`a`: 2}, `a`: 3}") = Ok (JDict [(‹"a"›, JInt 3); (‹"b"›, JDict [(‹"a"›, JInt 2)])]) /\
  keys_distinct (JDict [(‹"a"›, JInt 3); (‹"b"›, JDict [(‹"a"›, JInt 2)])]) = true.
Proof.
  split; [vm_compute; reflexivity | apply (loads_keys_distinct (dq "{`a`: 1, `b`: {`a`: 2}, `a`: 3}"))].
  vm_compute. reflexivity.
Defined.

End JsonLoads.
