(* ===== verification/JsonRoundtrip.v ===== *)
(** * [json.loads] reads back what [json.dumps] writes

    The context [analyze_github_repo] returns is [json.dumps(context,
    indent=2)] (src/langchain_flow.py, line 203); the spec's scenario 3
    says its values come back unchanged through the serialization.  This
    file proves it for the two models of the standard library: for every
    value without floats, whose strings are made of scalar values and
    whose dicts have distinct keys, [JsonLoads.loads (Json.dumps v) = Ok v].

    The proof follows the output of the encoder: [str(int)] is read back
    by [_match_number_unicode] (Stdlib's decimal conversion has no leading
    zero), every escape of [py_encode_basestring_ascii] by
    [scanstring_unicode] (surrogate pairs joined back), the indentation is
    whitespace, and the items of a list or dict are read in order, each
    key new to the dict being built. *)

From S2P Require Import Prelude PyStr Json JsonLoads.
From Stdlib Require Import DecimalPos.
Import Json JsonLoads.

Module JsonRoundtrip.

(** ** [str(int)] *)

Lemma uint_digits_acc d (acc : positive) :
  fold_left (fun acc d => acc * 10 + (d - 48)) (uint_digits d) (Zpos acc)
  = Zpos (Pos.of_uint_acc d acc).
Proof. revert acc. induction d; intros acc; simpl; [reflexivity | rewrite <- IHd; f_equal; lia ..]. Qed.

Lemma uint_digits_are_digits d : Forall (fun c => is_digit c = true) (uint_digits d).
Proof. induction d; simpl; repeat constructor; done. Qed.

Lemma nzhead_len d : (Decimal.nb_digits (Decimal.nzhead d) <= Decimal.nb_digits d)%nat.
Proof. induction d; simpl; lia. Qed.

(** The decimal digits of a positive number: a non-zero digit first, and
    their value is the number. *)
Lemma pos_digits p :
  exists c cs, uint_digits (Pos.to_uint p) = c :: cs /\ 49 <= c <= 57 /\
               digits_value (c :: cs) = Zpos p.
Proof.
  pose proof (DecimalPos.Unsigned.of_to p) as Hv.
  pose proof (DecimalPos.Unsigned.to_of (Pos.to_uint p)) as Hn. rewrite Hv in Hn. simpl in Hn.
  pose proof (DecimalPos.Unsigned.to_uint_nonzero p) as Hz.
  destruct (Pos.to_uint p) as [|l|l|l|l|l|l|l|l|l|l] eqn:E.
  1: by apply DecimalPos.Unsigned.to_uint_nonnil in E.
  1: { exfalso. unfold Decimal.unorm in Hn. simpl in Hn. pose proof (nzhead_len l) as Hl.
       destruct (Decimal.nzhead l) eqn:Ez; try discriminate.
       - injection Hn as ->. by apply Hz.
       - rewrite <- Hn in Hl. simpl in Hl. lia. }
  all: simpl in Hv; injection Hv as Hv; do 2 eexists; split; [reflexivity|];
      split; [lia|]; unfold digits_value; simpl; rewrite <- Hv; apply uint_digits_acc.
Qed.

(** ** Strings *)

Lemma hex_value_digit d : 0 <= d < 16 -> hex_value (hex_digit d) = Some d.
Proof. intros Hd. unfold hex_digit. zcase; unfold hex_value, is_digit; zsimpl; f_equal; lia. Qed.

Lemma hex4_value_hex4 n :
  0 <= n < 65536 ->
  hex4_value (hex_digit (n / 4096 mod 16)) (hex_digit (n / 256 mod 16))
             (hex_digit (n / 16 mod 16)) (hex_digit (n mod 16)) = Some n.
Proof.
  intros Hn. unfold hex4_value.
  rewrite !hex_value_digit by (apply Z.mod_pos_bound; lia).
  f_equal. Z.div_mod_to_equations. lia.
Qed.

(** The two halves of a surrogate pair, as arithmetic. *)
Lemma surrogates_value c :
  65536 <= c <= 1114111 ->
  high_surrogate c = 55296 + (c - 65536) / 1024 /\ low_surrogate c = 56320 + (c - 65536) mod 1024.
Proof.
  intros Hc. unfold high_surrogate, low_surrogate.
  rewrite Z.shiftr_div_pow2 by lia. masks. pow_num.
  change 55296 with (54 * 2 ^ 10). change 56320 with (55 * 2 ^ 10).
  rewrite !lor_disjoint by (pow_num; Z.div_mod_to_equations; lia). pow_num.
  split; Z.div_mod_to_equations; lia.
Qed.

(** A [\uXXXX] escape of a code point that is not a high surrogate. *)
Lemma scan_string_u_escape st n r :
  0 <= n < 65536 -> is_high n = false -> r <> [] ->
  scan_string st (u_escape n ++ r) = cons_char n (scan_string st r).
Proof.
  intros Hn Hh Hr. unfold u_escape, hex4. cbn [app scan_string]. cbv [chr_backslash]. cbn.
  destruct r as [|x r]; [done|]. rewrite hex4_value_hex4 by done.
  destruct r as [|y [|a [|b [|c [|d [|z r]]]]]]; rewrite ?Hh; reflexivity.
Qed.

(** A surrogate pair of escapes, followed by at least one character. *)
Lemma scan_string_pair st c r :
  65536 <= c <= 1114111 -> r <> [] ->
  scan_string st (u_escape (high_surrogate c) ++ u_escape (low_surrogate c) ++ r)
  = cons_char c (scan_string st r).
Proof.
  intros Hc Hr. destruct (surrogates_value c Hc) as [Hhi Hlo].
  unfold u_escape at 1, hex4 at 1. cbn [app scan_string]. cbv [chr_backslash]. cbn.
  rewrite hex4_value_hex4 by (rewrite Hhi; Z.div_mod_to_equations; lia).
  unfold u_escape, hex4. cbn [app]. destruct r as [|x r]; [done|].
  assert (Hh : is_high (high_surrogate c) = true) by (unfold is_high; rewrite Hhi; zsimpl; done).
  cbn. rewrite Hh. cbn. rewrite hex4_value_hex4 by (rewrite Hlo; Z.div_mod_to_equations; lia).
  assert (Hl : is_low (low_surrogate c) = true) by (unfold is_low; rewrite Hlo; zsimpl; done).
  rewrite Hl. do 2 f_equal. unfold join_surrogates. rewrite Hhi, Hlo. bits.
Qed.

Lemma scan_string_escape st c r :
  is_scalar c -> r <> [] -> scan_string st (escape_char c ++ r) = cons_char c (scan_string st r).
Proof.
  intros [Hc Hs] Hr. unfold escape_char. cbv [chr_backslash chr_dquote].
  destruct (Z.eqb_spec c 92) as [->|]; [reflexivity|].
  destruct (Z.eqb_spec c 34) as [->|]; [reflexivity|].
  destruct (Z.eqb_spec c 8) as [->|]; [reflexivity|].
  destruct (Z.eqb_spec c 12) as [->|]; [reflexivity|].
  destruct (Z.eqb_spec c 10) as [->|]; [reflexivity|].
  destruct (Z.eqb_spec c 13) as [->|]; [reflexivity|].
  destruct (Z.eqb_spec c 9) as [->|]; [reflexivity|].
  destruct (Z.leb_spec 32 c), (Z.leb_spec c 126); cbn [andb].
  1: { cbn [app scan_string]. zsimpl. reflexivity. }
  all: destruct (Z.ltb_spec c 65536);
    [ apply scan_string_u_escape; [lia | | done];
      unfold is_high; destruct (Z.leb_spec 55296 c); [|done]; apply Z.leb_gt; lia
    | rewrite <- app_assoc; apply scan_string_pair; [lia | done] ].
Qed.

(** The escaped text of a string of scalar values, up to its closing
    quote, is read back as the string. *)
Lemma scan_string_encoded st s r :
  Forall is_scalar s -> scan_string st ((s ≫= escape_char) ++ 34 :: r) = Parsed s r.
Proof.
  induction 1 as [|c s Hc _ IH]; [reflexivity|].
  change ((c :: s) ≫= escape_char) with (escape_char c ++ s ≫= escape_char).
  rewrite <- app_assoc, scan_string_escape, IH; [done | done |].
  by intros [_ ?]%app_eq_nil.
Qed.

(** ** Whitespace and the first character of an encoding *)

Lemma skip_ws_app ws r : Forall (fun c => is_ws c = true) ws -> skip_ws (ws ++ r) = skip_ws r.
Proof. induction 1 as [|c ws Hc _ IH]; [done|]. simpl. by rewrite Hc. Qed.

Lemma newline_indent_ws n : Forall (fun c => is_ws c = true) (newline_indent n).
Proof. unfold newline_indent. constructor; [done|]. by apply Forall_replicate. Qed.

Lemma length_newline_indent n : length (newline_indent n) = (1 + 2 * n)%nat.
Proof. unfold newline_indent. simpl. by rewrite length_replicate. Qed.

Lemma length_item_separator n : length (item_separator n) = (2 + 2 * n)%nat.
Proof. unfold item_separator. rewrite length_app, length_newline_indent. reflexivity. Qed.

(** The characters an encoded value can start with. *)
Definition value_head (c : Z) : Prop :=
  c = 34 \/ c = 91 \/ c = 123 \/ c = 110 \/ c = 116 \/ c = 102 \/ c = 45 \/ 48 <= c <= 57.

(** A text that starts like an encoded value. *)
Definition valued (r : list Z) : Prop := exists c t, r = c :: t /\ value_head c.

Lemma valued_skip_ws r : valued r -> skip_ws r = r.
Proof.
  intros (c & t & -> & Hc). unfold value_head in Hc. simpl.
  replace (is_ws c) with false; [done|]. symmetry. unfold is_ws. zsimpl. done.
Qed.

Lemma valued_head_is c0 r : c0 = 93 \/ c0 = 125 \/ c0 = 44 \/ c0 = 65279 -> valued r -> head_is c0 r = false.
Proof. intros H0 (c & t & -> & Hc). unfold value_head in Hc. simpl. apply Z.eqb_neq. lia. Qed.

(** ** Numbers *)

Lemma str_int_shape z :
  exists ds, str_int z = (if z <? 0 then [45] else []) ++ ds /\
    Forall (fun c => is_digit c = true) ds /\ digits_value ds = Z.abs z /\
    ((z = 0 /\ ds = [48]) \/ exists c cs, ds = c :: cs /\ 49 <= c <= 57).
Proof.
  destruct z as [|p|p]; unfold str_int; cbn [Z.to_int].
  - exists [48]. split_and!; [reflexivity | repeat constructor | reflexivity | by left].
  - destruct (pos_digits p) as (c & cs & Hd & Hc & Hv). exists (c :: cs).
    pose proof (uint_digits_are_digits (Pos.to_uint p)) as Hdig. rewrite Hd in *.
    split_and!; [reflexivity | done | done | right; eauto].
  - destruct (pos_digits p) as (c & cs & Hd & Hc & Hv). exists (c :: cs).
    pose proof (uint_digits_are_digits (Pos.to_uint p)) as Hdig. rewrite Hd in *.
    split_and!; [reflexivity | done | done | right; eauto].
Qed.

Lemma valued_str_int z r : valued (str_int z ++ r).
Proof.
  destruct (str_int_shape z) as (ds & -> & _ & _ & Hh).
  destruct (z <? 0); destruct Hh as [[_ ->] | (c & cs & -> & Hc)];
    do 2 eexists; (split; [reflexivity | unfold value_head; lia]).
Qed.

(** What may follow a number: nothing that would extend it. *)
Definition number_end (rest : list Z) : Prop :=
  match rest with [] => True | c :: _ => is_digit c = false /\ c <> 46 /\ c <> 101 /\ c <> 69 end.

Lemma span_digits_app ds rest :
  Forall (fun c => is_digit c = true) ds -> number_end rest -> span_digits (ds ++ rest) = (ds, rest).
Proof.
  induction 1 as [|c ds Hc _ IH]; intros He; cbn [app span_digits].
  - destruct rest as [|c rest]; [done|]. cbn [span_digits]. destruct He as [-> _]. done.
  - rewrite Hc, IH by done. done.
Qed.

Lemma fraction_end rest : number_end rest -> fraction rest = ([], rest).
Proof.
  destruct rest as [|p [|d r]]; simpl; intros H; try done.
  destruct H as (_ & H46 & _). by rewrite (proj2 (Z.eqb_neq p 46) H46).
Qed.

Lemma scan_exponent_end rest : number_end rest -> scan_exponent rest = None.
Proof.
  destruct rest as [|e [|x r]]; simpl; intros H; try done.
  destruct H as (_ & _ & H1 & H2). by rewrite (proj2 (Z.eqb_neq e 101) H1), (proj2 (Z.eqb_neq e 69) H2).
Qed.

Lemma scan_number_str_int z rest : number_end rest -> scan_number (str_int z ++ rest) = Parsed (JInt z) rest.
Proof.
  intros He. destruct (str_int_shape z) as (ds & -> & Hdig & Hval & Hhead).
  unfold scan_number. rewrite <- app_assoc.
  assert (Hs : number_sign ((if z <? 0 then [45] else []) ++ ds ++ rest)
               = (if z <? 0 then [45] else [], ds ++ rest)).
  { destruct (z <? 0); [reflexivity|].
    destruct Hhead as [[_ ->] | (c & cs & -> & Hc)]; [reflexivity|].
    simpl. by rewrite (proj2 (Z.eqb_neq c 45)) by lia. }
  rewrite Hs.
  assert (Hi : int_part (ds ++ rest) = Some (ds, rest)).
  { destruct Hhead as [[_ ->] | (c & cs & -> & Hc)]; [reflexivity|].
    simpl. rewrite (proj2 (Z.leb_le 49 c)), (proj2 (Z.leb_le c 57)) by lia. simpl.
    apply Forall_cons in Hdig as [_ Hdig]. by rewrite span_digits_app. }
  rewrite Hi, fraction_end, scan_exponent_end by done. do 2 f_equal.
  destruct (Z.ltb_spec z 0).
  - rewrite bool_decide_false by done. lia.
  - rewrite bool_decide_true by done. lia.
Qed.

Lemma no_constant r :
  match r with
  | c :: t => 48 <= c <= 57 \/ (c = 45 /\ match t with d :: _ => 48 <= d <= 57 | [] => False end)
  | [] => False
  end ->
  list_find (fun kv => kv.1 `prefix_of` r) constants = None.
Proof.
  intros Hr. apply list_find_None. unfold constants.
  repeat apply Forall_cons_2; try apply Forall_nil_2;
    intros [t Ht]; vm_compute in Ht; subst r; simpl in Hr; lia.
Qed.

Lemma scan_atom_str_int z rest : number_end rest -> scan_atom (str_int z ++ rest) = Parsed (JInt z) rest.
Proof.
  intros He. unfold scan_atom. rewrite no_constant; [by apply scan_number_str_int|].
  destruct (str_int_shape z) as (ds & -> & _ & _ & Hh).
  destruct (z <? 0); destruct Hh as [[? ->] | (c & cs & -> & Hc)]; simpl; lia.
Qed.

(** ** Values *)

(** The values the round trip covers: no float (its text is a [repr],
    not modelled), strings of scalar values, dicts with distinct keys. *)
Fixpoint wf (v : jvalue) : bool :=
  match v with
  | JFloat _ => false
  | JStr s => bool_decide (Forall is_scalar s)
  | JList items => forallb wf items
  | JDict kvs =>
      bool_decide (NoDup (map fst kvs)) &&
      forallb (fun '(k, x) => bool_decide (Forall is_scalar k) && wf x) kvs
  | _ => true
  end.

Lemma lit_lbracket : ‹"["› = [91].
Proof. reflexivity. Qed.
Lemma lit_rbracket : ‹"]"› = [93].
Proof. reflexivity. Qed.
Lemma lit_lbrace : ‹"{"› = [123].
Proof. reflexivity. Qed.
Lemma lit_rbrace : ‹"}"› = [125].
Proof. reflexivity. Qed.
Lemma lit_colon : ‹": "› = [58; 32].
Proof. reflexivity. Qed.

#[local] Instance value_head_dec c : Decision (value_head c).
Proof. unfold value_head. solve_decision. Defined.

Lemma valued_cons c t : bool_decide (value_head c) = true -> valued (c :: t).
Proof. intros H. exists c, t. split; [done | exact (bool_decide_eq_true_1 _ H)]. Qed.

Lemma valued_encode lvl v r : wf v = true -> valued (encode lvl v ++ r).
Proof.
  destruct v as [| [] | z | x | s | [|x xs] | [|[k x] kvs]]; intros Hw; try discriminate;
    try (apply valued_cons; reflexivity).
  cbn [encode]. apply valued_str_int.
Qed.

Lemma valued_join l sep y ys r : wf y = true -> valued (join sep (map (encode l) (y :: ys)) ++ r).
Proof.
  intros Hy. destruct ys; cbn [map join]; [|rewrite <- app_assoc]; by apply valued_encode.
Qed.

Definition dict_item (lvl : nat) (kv : pystr * jvalue) : pystr :=
  let '(k, x) := kv in encode_str k ++ ‹": "› ++ encode lvl x.

Lemma encode_dict lvl kv kvs :
  encode lvl (JDict (kv :: kvs)) =
  ‹"{"› ++ newline_indent (S lvl) ++ join (item_separator (S lvl)) (map (dict_item (S lvl)) (kv :: kvs))
  ++ newline_indent lvl ++ ‹"}"›.
Proof. reflexivity. Qed.

Lemma valued_join_dict l sep kv kvs r : valued (join sep (map (dict_item l) (kv :: kvs)) ++ r).
Proof.
  destruct kv as [k x]. destruct kvs; apply valued_cons; reflexivity.
Qed.

(** What may follow a value in the output: a separator, an indentation,
    or nothing. *)
Definition value_end (rest : list Z) : Prop :=
  match rest with [] => True | c :: _ => c = 44 \/ c = 10 end.

Lemma value_end_number rest : value_end rest -> number_end rest.
Proof. destruct rest as [|c r]; [done|]. intros [-> | ->]; split_and!; done. Qed.

Lemma value_end_sep n r : value_end (item_separator n ++ r).
Proof. left. reflexivity. Qed.

Lemma value_end_indent n r : value_end (newline_indent n ++ r).
Proof. right. reflexivity. Qed.

(** The separator between items, as the loops read it. *)
Lemma separator_read n r :
  skip_ws (item_separator n ++ r) = item_separator n ++ r /\
  head_is 93 (item_separator n ++ r) = false /\ head_is 125 (item_separator n ++ r) = false /\
  head_is 44 (item_separator n ++ r) = true /\ tail (item_separator n ++ r) = newline_indent n ++ r.
Proof. split_and!; reflexivity. Qed.

(** An encoding is read back whole, at any level of indentation, by
    [scan_once] with enough fuel, when a separator or nothing follows. *)
Definition reads_back (v : jvalue) : Prop :=
  forall lvl f rest, value_end rest -> (2 * length (encode lvl v) < f)%nat ->
    scan_value f (encode lvl v ++ rest) = Parsed v rest.

Lemma join_cons2 {B} (g : B -> pystr) sep x y ys :
  join sep (map g (x :: y :: ys)) = g x ++ sep ++ join sep (map g (y :: ys)).
Proof. reflexivity. Qed.

Lemma parse_array_loop lvl items acc f rest :
  Forall (fun x => wf x = true /\ reads_back x) items -> items <> [] ->
  (2 * length (join (item_separator (S lvl)) (map (encode (S lvl)) items)) + 1 < f)%nat ->
  parse_array f (join (item_separator (S lvl)) (map (encode (S lvl)) items)
                 ++ newline_indent lvl ++ 93 :: rest) acc
  = Parsed (JList (acc ++ items)) rest.
Proof.
  revert acc f. induction items as [|x xs IH]; intros acc f Hall Hne Hf; [done|].
  apply Forall_cons in Hall as [[Hwx Hx] Hall]. destruct f as [|f]; [lia|].
  destruct xs as [|y ys].
  - cbn [map join] in *. cbn [parse_array].
    rewrite Hx by (apply value_end_indent || lia). cbn zeta.
    rewrite skip_ws_app by apply newline_indent_ws. reflexivity.
  - rewrite join_cons2 in *. rewrite !length_app, length_item_separator in Hf.
    cbn [parse_array]. rewrite <- !app_assoc.
    rewrite Hx by (apply value_end_sep || lia). cbn zeta.
    destruct (separator_read (S lvl) (join (item_separator (S lvl)) (map (encode (S lvl)) (y :: ys))
                ++ newline_indent lvl ++ 93 :: rest)) as (-> & -> & _ & -> & ->).
    rewrite skip_ws_app, valued_skip_ws by (apply newline_indent_ws || (apply valued_join;
      by apply Forall_cons in Hall as [[? _] _])).
    rewrite IH; [by rewrite <- app_assoc | done | done | cbn [map join] in *; lia].
Qed.

Lemma dict_set_fresh acc k v : k ∉ map fst acc -> dict_set acc k v = acc ++ [(k, v)].
Proof.
  induction acc as [|[k' v'] acc IH]; intros Hk; [done|]. simpl in Hk.
  apply not_elem_of_cons in Hk as [Hk1 Hk2]. simpl. rewrite decide_False by done. by rewrite IH.
Qed.

(** One entry [key: value] of a dict, and what the loop does after it. *)
Lemma parse_object_item lvl f k x acc tl :
  Forall is_scalar k -> wf x = true -> reads_back x -> k ∉ map fst acc -> value_end tl ->
  (2 * length (encode (S lvl) x) < f)%nat ->
  parse_object (S f) (dict_item (S lvl) (k, x) ++ tl) acc =
  (let r5 := skip_ws tl in
   if head_is 125 r5 then Parsed (JDict (acc ++ [(k, x)])) (tail r5)
   else if head_is 44 r5 then parse_object f (skip_ws (tail r5)) (acc ++ [(k, x)])
   else Failed expecting_comma r5).
Proof.
  intros Hk Hw Hx Hfresh Htl Hf. cbn [dict_item]. unfold encode_str. cbv [chr_dquote].
  rewrite lit_colon, <- !app_assoc. cbn [app parse_object head_is negb tail Z.eqb Pos.eqb].
  rewrite scan_string_encoded by done.
  cbn [skip_ws is_ws Z.eqb Pos.eqb orb head_is negb tail].
  rewrite valued_skip_ws by by apply valued_encode.
  rewrite Hx by done. by rewrite dict_set_fresh.
Qed.

Lemma parse_object_loop lvl kvs acc f rest :
  Forall (fun kv => Forall is_scalar kv.1 /\ wf kv.2 = true /\ reads_back kv.2) kvs -> kvs <> [] ->
  NoDup (map fst (acc ++ kvs)) ->
  (2 * length (join (item_separator (S lvl)) (map (dict_item (S lvl)) kvs)) + 1 < f)%nat ->
  parse_object f (join (item_separator (S lvl)) (map (dict_item (S lvl)) kvs)
                  ++ newline_indent lvl ++ 125 :: rest) acc
  = Parsed (JDict (acc ++ kvs)) rest.
Proof.
  revert acc f. induction kvs as [|[k x] kvs IH]; intros acc f Hall Hne Hnd Hf; [done|].
  apply Forall_cons in Hall as [(Hk & Hwx & Hx) Hall]. destruct f as [|f]; [lia|].
  assert (Hfresh : k ∉ map fst acc).
  { rewrite map_app in Hnd. apply NoDup_app in Hnd as (_ & Hd & _). intros Hin.
    apply (Hd k Hin). simpl. left. }
  assert (Hlen : (length (encode (S lvl) x) <= length (dict_item (S lvl) (k, x)))%nat).
  { cbn [dict_item]. rewrite !length_app. lia. }
  destruct kvs as [|kv' kvs].
  - cbn [map join] in *. rewrite parse_object_item by (apply value_end_indent || done || lia).
    cbn zeta. rewrite skip_ws_app by apply newline_indent_ws. reflexivity.
  - rewrite join_cons2 in *. rewrite !length_app, length_item_separator in Hf.
    rewrite <- !app_assoc, parse_object_item by (apply value_end_sep || done || lia). cbn zeta.
    destruct (separator_read (S lvl) (join (item_separator (S lvl)) (map (dict_item (S lvl)) (kv' :: kvs))
                ++ newline_indent lvl ++ 125 :: rest)) as (-> & _ & -> & -> & ->).
    rewrite skip_ws_app, valued_skip_ws by (apply newline_indent_ws || apply valued_join_dict).
    rewrite IH; [by rewrite <- app_assoc | done | done | by rewrite <- app_assoc | lia].
Qed.

Lemma scan_value_int f z rest : scan_value (S f) (str_int z ++ rest) = scan_atom (str_int z ++ rest).
Proof.
  destruct (str_int_shape z) as (ds & -> & _ & _ & Hh).
  destruct (z <? 0); destruct Hh as [[_ ->] | (c & cs & -> & Hc)]; cbn [app scan_value]; zsimpl;
    reflexivity.
Qed.

Lemma wf_items_reads l :
  Forall (fun x => wf x = true -> reads_back x) l -> forallb wf l = true ->
  Forall (fun x => wf x = true /\ reads_back x) l.
Proof. induction 1; simpl; [constructor|]. intros [? ?]%andb_true_iff. constructor; auto. Qed.

Lemma wf_entries_reads (kvs : list (pystr * jvalue)) :
  Forall (fun kv => wf kv.2 = true -> reads_back kv.2) kvs ->
  forallb (fun '(k, x) => bool_decide (Forall is_scalar k) && wf x) kvs = true ->
  Forall (fun kv => Forall is_scalar kv.1 /\ wf kv.2 = true /\ reads_back kv.2) kvs.
Proof.
  induction 1 as [|[k x] kvs]; simpl; [constructor|].
  intros [[Hk%bool_decide_eq_true_1 Hx]%andb_true_iff Hr]%andb_true_iff. constructor; auto.
Qed.

(** The round trip of one value, by induction on its depth. *)
Lemma scan_encoded v : wf v = true -> reads_back v.
Proof.
  induction v as [| b | z | r | s | l IH | kvs IH] using jvalue_ind_deep;
    intros Hw lvl f rest He Hf; destruct f as [|f]; try lia; cbn [wf] in Hw; try discriminate.
  - vm_compute. reflexivity.
  - destruct b; vm_compute; reflexivity.
  - cbn [encode]. rewrite scan_value_int. by apply scan_atom_str_int, value_end_number.
  - cbn [encode]. unfold encode_str. cbv [chr_dquote]. rewrite <- !app_assoc.
    cbn [app scan_value Z.eqb Pos.eqb].
    rewrite scan_string_encoded by by apply bool_decide_eq_true_1 in Hw. reflexivity.
  - destruct l as [|x xs]; [vm_compute; reflexivity|].
    pose proof (wf_items_reads _ IH Hw) as Hall.
    assert (Hx : wf x = true) by (by apply Forall_cons in Hall as [[? _] _]).
    cbn [encode] in *. rewrite lit_lbracket, lit_rbracket in *.
    rewrite !length_app in Hf. cbn [length] in Hf. rewrite <- !app_assoc.
    cbn [app scan_value Z.eqb Pos.eqb].
    rewrite skip_ws_app by apply newline_indent_ws.
    rewrite valued_skip_ws, valued_head_is by (lia || by apply valued_join).
    apply (parse_array_loop lvl (x :: xs) [] f rest); [done | done | lia].
  - destruct kvs as [|kv kvs]; [vm_compute; reflexivity|].
    apply andb_true_iff in Hw as [Hnd%bool_decide_eq_true_1 Hw].
    pose proof (wf_entries_reads _ IH Hw) as Hall.
    rewrite encode_dict in *. rewrite lit_lbrace, lit_rbrace in *.
    rewrite !length_app in Hf. cbn [length] in Hf. rewrite <- !app_assoc.
    cbn [app scan_value Z.eqb Pos.eqb].
    rewrite skip_ws_app by apply newline_indent_ws.
    rewrite valued_skip_ws, valued_head_is by (lia || apply valued_join_dict).
    apply (parse_object_loop lvl (kv :: kvs) [] f rest); [done | done | done | lia].
Qed.

(** The scanner reads the whole output of [json.dumps] back, with the
    fuel [json.loads] gives it, and the output does not start with a BOM. *)
Lemma dumps_read v : wf v = true ->
  head_is 65279 (dumps v) = false /\
  scan_value (S (2 * length (dumps v))) (skip_ws (dumps v)) = Parsed v [].
Proof.
  intros Hw. unfold dumps.
  pose proof (valued_encode 0 v [] Hw) as Hv. rewrite app_nil_r in Hv.
  rewrite valued_head_is, valued_skip_ws by (lia || done). split; [done|].
  rewrite <- (app_nil_r (encode 0 v)) at 2.
  apply (scan_encoded v Hw 0%nat); [done | lia].
Qed.

(** C8: [json.loads] inverts [json.dumps(obj, indent=2)]: a value
    without floats, whose strings are sequences of Unicode scalar values
    and whose dicts have distinct keys, is read back equal from its
    indented text. *)
Theorem loads_dumps v : wf v = true -> JsonLoads.loads (dumps v) = Ok v.
Proof.
  intros Hw. destruct (dumps_read v Hw) as [Hb Hs].
  unfold loads, loads_fuel. by rewrite Hb, Hs.
Qed.

(** The manifest of the test fixture, with a nested list, a negative
    number and a string outside ASCII. *)
Definition demo_value : jvalue :=
  JDict [(‹"name"›, JStr ‹"test-repo"›); (‹"version"›, JStr ‹"1.0.0"›);
         (‹"keywords"›, JList [JStr (‹"caf"› ++ [233]); JInt (-12); JNull; JBool true; JList []]);
         (‹"private"›, JBool false); (‹"config"›, JDict [])].

Lemma loads_dumps_witness : wf demo_value = true /\ JsonLoads.loads (dumps demo_value) = Ok demo_value.
Proof. split; [vm_compute; reflexivity | apply loads_dumps; vm_compute; reflexivity]. Defined.

End JsonRoundtrip.
