(* ===== verification/Base64.v ===== *)
(** * Transport decoding: [base64.b64decode(s).decode()]

    [get_file_content_safe] (src/langchain_flow.py, line 136) decodes the
    [content] field of a GitHub [ContentFile] with [base64.b64decode] and
    then [bytes.decode()] (UTF-8, strict).  This file models both from
    CPython (3.11 and later):

    - [b64decode]: [_bytes_from_decode_data] (a [str] must be ASCII) and
      [binascii.a2b_base64(s, strict_mode=False)], a loop over the input
      with the state [quad_pos], [leftchar], [pads]: characters outside the
      alphabet are skipped (GitHub's line breaks among them), a complete pad
      sequence stops the decoding, and an incomplete last quad is an error;
      each output byte is stored into an [unsigned char];
    - [utf8_decode]: the strict UTF-8 decoder (the well-formed sequences of
      Unicode's table 3-7), raising [UnicodeDecodeError]; the exception's
      text is shortened to its reason, since the program discards it;
    - the encodings the content went through: [b64encode]
      ([binascii.b2a_base64] without newline) and [utf8_encode]
      ([str.encode()]), used by the test fixture.

    Theorems: decoding inverts the two encodings on any text of scalar
    values ([b64decode_text_roundtrip]), and a character outside the
    alphabet anywhere in the input is ignored ([b64decode_skips]); the
    loop's invariant keeps every stored byte in [0..255] and the strict
    decoder yields only Unicode scalar values ([b64decode_text_scalar]). *)

From S2P Require Import Prelude PyStr.

Module Base64.

(** [table_a2b_base64]: the value of an alphabet character, 64 for others. *)
Definition b64_value (c : Z) : Z :=
  if (65 <=? c) && (c <=? 90) then c - 65
  else if (97 <=? c) && (c <=? 122) then c - 71
  else if (48 <=? c) && (c <=? 57) then c + 4
  else if c =? 43 then 62
  else if c =? 47 then 63
  else 64.

Definition b64_char (v : Z) : Z :=
  if v <? 26 then 65 + v
  else if v <? 52 then 71 + v
  else if v <? 62 then v - 4
  else if v =? 62 then 43 else 47.

Definition pad_char : Z := 61.

(** The loop's state. *)
Record a2b_state := A2B { quad_pos : Z; leftchar : Z; pads : Z; out_rev : list Z }.

Definition a2b_init : a2b_state := A2B 0 0 0 [].

(** [*bin_data++ = byte] into an [unsigned char]. *)
Definition store (b : Z) (st : list Z) : list Z := Z.land b 255 :: st.

(** One data character of value [v < 64]. *)
Definition a2b_data (s : a2b_state) (v : Z) : a2b_state :=
  let o := out_rev s in
  if quad_pos s =? 0 then A2B 1 v 0 o
  else if quad_pos s =? 1 then
    A2B 2 (Z.land v 15) 0 (store (Z.lor (Z.shiftl (leftchar s) 2) (Z.shiftr v 4)) o)
  else if quad_pos s =? 2 then
    A2B 3 (Z.land v 3) 0 (store (Z.lor (Z.shiftl (leftchar s) 4) (Z.shiftr v 2)) o)
  else A2B 0 0 0 (store (Z.lor (Z.shiftl (leftchar s) 6) v) o).

(** The outcome of the loop: it stops early on a complete pad sequence. *)
Inductive a2b_end := Finished (s : a2b_state) | Stopped (s : a2b_state).

Fixpoint a2b_loop (s : a2b_state) (input : list Z) : a2b_end :=
  match input with
  | [] => Finished s
  | c :: rest =>
      if c =? pad_char then
        (* [quad_pos >= 2 && quad_pos + ++pads >= 4] *)
        if quad_pos s >=? 2 then
          if quad_pos s + (pads s + 1) >=? 4 then Stopped s
          else a2b_loop (A2B (quad_pos s) (leftchar s) (pads s + 1) (out_rev s)) rest
        else a2b_loop s rest
      else
        let v := b64_value c in
        if v >=? 64 then a2b_loop s rest else a2b_loop (a2b_data s v) rest
  end.

Definition binascii_error (msg : pystr) : exc := Exc BinasciiError msg.

(** [binascii.a2b_base64(data, strict_mode=False)] *)
Definition a2b_base64 (input : list Z) : result (list Z) :=
  match a2b_loop a2b_init input with
  | Stopped s => Ok (reverse (out_rev s))
  | Finished s =>
      if quad_pos s =? 0 then Ok (reverse (out_rev s))
      else if quad_pos s =? 1 then
        Raise (binascii_error
          (‹"Invalid base64-encoded string: number of data characters ("›
           ++ str_int (Z.of_nat (length (out_rev s)) / 3 * 4 + 1)
           ++ ‹") cannot be 1 more than a multiple of 4"›))
      else Raise (binascii_error ‹"Incorrect padding"›)
  end.

(** [base64.b64decode(s)] for a [str] [s]. *)
Definition b64decode (s : pystr) : result (list Z) :=
  if forallb (fun c => (0 <=? c) && (c <=? 127)) s then a2b_base64 s
  else Raise (Exc ValueError ‹"string argument should contain only ASCII characters"›).

(** ** The encoder [binascii.b2a_base64(data, newline=False)] *)

Fixpoint b64encode (bytes : list Z) : list Z :=
  match bytes with
  | [] => []
  | [a] => [b64_char (Z.shiftr a 2); b64_char (Z.shiftl (Z.land a 3) 4); pad_char; pad_char]
  | [a; b] =>
      [b64_char (Z.shiftr a 2); b64_char (Z.lor (Z.shiftl (Z.land a 3) 4) (Z.shiftr b 4));
       b64_char (Z.shiftl (Z.land b 15) 2); pad_char]
  | a :: b :: c :: rest =>
      [b64_char (Z.shiftr a 2); b64_char (Z.lor (Z.shiftl (Z.land a 3) 4) (Z.shiftr b 4));
       b64_char (Z.lor (Z.shiftl (Z.land b 15) 2) (Z.shiftr c 6)); b64_char (Z.land c 63)]
      ++ b64encode rest
  end.

(** ** Strict UTF-8 decoding: [bytes.decode()] *)

Definition is_cont (b : Z) : bool := (128 <=? b) && (b <=? 191).
Definition in_range (lo hi b : Z) : bool := (lo <=? b) && (b <=? hi).

Definition utf8_error (reason : pystr) : exc :=
  Exc UnicodeDecodeError (‹"'utf-8' codec can't decode: "› ++ reason).

(** The allowed range of the second byte of a sequence led by [b0]. *)
Definition second_range (b0 : Z) : Z * Z :=
  if b0 =? 224 then (160, 191)
  else if b0 =? 237 then (128, 159)
  else if b0 =? 240 then (144, 191)
  else if b0 =? 244 then (128, 143)
  else (128, 191).

Fixpoint utf8_decode (bytes : list Z) : result pystr :=
  match bytes with
  | [] => Ok []
  | b0 :: rest =>
      if b0 <? 128 then c ← utf8_decode rest; mret (b0 :: c)
      else if in_range 194 223 b0 then
        match rest with
        | b1 :: rest' =>
            if is_cont b1 then
              c ← utf8_decode rest'; mret ((Z.land b0 31) * 64 + Z.land b1 63 :: c)
            else Raise (utf8_error ‹"invalid continuation byte"›)
        | [] => Raise (utf8_error ‹"unexpected end of data"›)
        end
      else if in_range 224 239 b0 then
        match rest with
        | b1 :: b2 :: rest' =>
            if in_range (second_range b0).1 (second_range b0).2 b1 && is_cont b2 then
              c ← utf8_decode rest';
              mret ((Z.land b0 15) * 4096 + (Z.land b1 63) * 64 + Z.land b2 63 :: c)
            else Raise (utf8_error ‹"invalid continuation byte"›)
        | _ => Raise (utf8_error ‹"unexpected end of data"›)
        end
      else if in_range 240 244 b0 then
        match rest with
        | b1 :: b2 :: b3 :: rest' =>
            if in_range (second_range b0).1 (second_range b0).2 b1 && is_cont b2 && is_cont b3
            then
              c ← utf8_decode rest';
              mret ((Z.land b0 7) * 262144 + (Z.land b1 63) * 4096 + (Z.land b2 63) * 64
                    + Z.land b3 63 :: c)
            else Raise (utf8_error ‹"invalid continuation byte"›)
        | _ => Raise (utf8_error ‹"unexpected end of data"›)
        end
      else Raise (utf8_error ‹"invalid start byte"›)
  end.

(** [base64.b64decode(s).decode()] *)
Definition b64decode_text (s : pystr) : result pystr :=
  bytes ← b64decode s; utf8_decode bytes.

(** ** The encodings the data went through: [str.encode()] (UTF-8) *)

Definition utf8_encode_char (c : Z) : list Z :=
  if c <? 128 then [c]
  else if c <? 2048 then [192 + Z.shiftr c 6; 128 + Z.land c 63]
  else if c <? 65536 then
    [224 + Z.shiftr c 12; 128 + Z.land (Z.shiftr c 6) 63; 128 + Z.land c 63]
  else
    [240 + Z.shiftr c 18; 128 + Z.land (Z.shiftr c 12) 63; 128 + Z.land (Z.shiftr c 6) 63;
     128 + Z.land c 63].

(** [s.encode()] for a string of scalar values (one with a lone
    surrogate raises [UnicodeEncodeError] in Python; it is not used). *)
Definition utf8_encode (s : pystr) : list Z := s ≫= utf8_encode_char.


(** ** Properties *)

Definition is_byte (b : Z) : Prop := 0 <= b < 256.

(** The loop over a concatenation: the second part is read only if the
    first did not stop on a pad sequence. *)
Lemma a2b_loop_app s u v :
  a2b_loop s (u ++ v) =
  match a2b_loop s u with Finished s' => a2b_loop s' v | Stopped s' => Stopped s' end.
Proof.
  revert s. induction u as [|c u IH]; intros s; [done|]. simpl.
  destruct (c =? pad_char); [destruct (quad_pos s >=? 2); [destruct (_ >=? 4)|] |];
    try done; destruct (b64_value c >=? 64); apply IH.
Qed.

Lemma a2b_loop_skip s c t :
  c <> pad_char -> b64_value c = 64 -> a2b_loop s (c :: t) = a2b_loop s t.
Proof. intros Hc Hv. simpl. rewrite Hv. by destruct (Z.eqb_spec c pad_char). Qed.

Lemma b64_char_value v :
  0 <= v < 64 -> b64_value (b64_char v) = v /\ b64_char v <> pad_char /\ 0 <= b64_char v <= 127.
Proof. intros Hv. unfold b64_char. zcase; unfold b64_value, pad_char; zcase; lia. Qed.

Lemma a2b_loop_data s v t :
  0 <= v < 64 -> a2b_loop s (b64_char v :: t) = a2b_loop (a2b_data s v) t.
Proof.
  intros Hv. destruct (b64_char_value v Hv) as (Hval & Hpad & _). simpl.
  destruct (Z.eqb_spec (b64_char v) pad_char); [done|]. rewrite Hval.
  destruct (Z.geb_spec v 64); [lia | done].
Qed.

Lemma store_byte b o : is_byte b -> store b o = b :: o.
Proof. intros Hb. unfold store. f_equal. unfold is_byte in Hb. bits. Qed.

(** One group of three bytes: four characters, back to [quad_pos = 0]. *)
Lemma a2b_loop_group a b c lc p o t :
  is_byte a -> is_byte b -> is_byte c ->
  a2b_loop (A2B 0 lc p o)
    ([b64_char (Z.shiftr a 2); b64_char (Z.lor (Z.shiftl (Z.land a 3) 4) (Z.shiftr b 4));
      b64_char (Z.lor (Z.shiftl (Z.land b 15) 2) (Z.shiftr c 6)); b64_char (Z.land c 63)] ++ t)
  = a2b_loop (A2B 0 0 0 (c :: b :: a :: o)) t.
Proof.
  unfold is_byte. intros Ha Hb Hc. simpl app.
  rewrite !a2b_loop_data by bits. unfold a2b_data; simpl.
  rewrite !store_byte by (unfold is_byte; bits).
  repeat f_equal; bits.
Qed.


(** The characters of an encoding decode back to its bytes; the loop ends
    at a quad boundary or stops on the padding. *)
Lemma a2b_loop_encode bytes lc p o :
  Forall is_byte bytes ->
  exists s', (a2b_loop (A2B 0 lc p o) (b64encode bytes) = Finished s' /\ quad_pos s' = 0 \/
              a2b_loop (A2B 0 lc p o) (b64encode bytes) = Stopped s') /\
             out_rev s' = reverse bytes ++ o.
Proof.
  remember (length bytes) as n eqn:Hn. revert bytes Hn lc p o.
  induction n as [n IH] using lt_wf_ind. intros bytes -> lc p o Hall.
  destruct bytes as [|a [|b [|c rest]]].
  - exists (A2B 0 lc p o). split; [by left | done].
  - apply Forall_cons in Hall as [Ha _]. unfold is_byte in Ha. cbn [b64encode].
    rewrite !a2b_loop_data by bits. eexists. split; [right; reflexivity|].
    cbn. rewrite store_byte by (unfold is_byte; bits). f_equal. bits.
  - apply Forall_cons in Hall as [Ha Hall]. apply Forall_cons in Hall as [Hb _].
    unfold is_byte in *. cbn [b64encode].
    rewrite !a2b_loop_data by bits. eexists. split; [right; reflexivity|].
    cbn. rewrite !store_byte by (unfold is_byte; bits). repeat f_equal; bits.
  - apply Forall_cons in Hall as [Ha Hall]. apply Forall_cons in Hall as [Hb Hall].
    apply Forall_cons in Hall as [Hc Hall].
    cbn [b64encode]. rewrite a2b_loop_group by done.
    destruct (IH (length rest) ltac:(simpl; lia) rest eq_refl 0 0 (c :: b :: a :: o) Hall)
      as (s' & Hrun & Hout).
    exists s'. split; [done|]. rewrite Hout, !reverse_cons, <- !app_assoc. done.
Qed.

Lemma b64encode_ascii bytes :
  Forall is_byte bytes -> forallb (fun c => (0 <=? c) && (c <=? 127)) (b64encode bytes) = true.
Proof.
  assert (Hc : forall v, 0 <= v < 64 -> (0 <=? b64_char v) && (b64_char v <=? 127) = true).
  { intros v Hv. destruct (b64_char_value v Hv) as (_ & _ & Hr). apply andb_true_iff. lia. }
  remember (length bytes) as n eqn:Hn. revert bytes Hn.
  induction n as [n IH] using lt_wf_ind. intros bytes -> Hall.
  destruct bytes as [|a [|b [|c rest]]]; [done|..];
    repeat match goal with H : Forall _ (_ :: _) |- _ => apply Forall_cons in H as [? H] end;
    unfold is_byte in *; cbn [b64encode forallb]; rewrite ?forallb_app; cbn [forallb];
    rewrite ?Hc by bits; try done.
  rewrite (IH (length rest)); [done | simpl; lia | done | done].
Qed.

(** Decoding inverts the encoding of a byte string. *)
Lemma b64decode_encode bytes : Forall is_byte bytes -> b64decode (b64encode bytes) = Ok bytes.
Proof.
  intros Hall. unfold b64decode. rewrite b64encode_ascii by done. unfold a2b_base64, a2b_init.
  destruct (a2b_loop_encode bytes 0 0 [] Hall) as (s' & [[-> Hq] | ->] & Hout);
    rewrite ?Hq; simpl; by rewrite Hout, app_nil_r, reverse_involutive.
Qed.


Lemma utf8_encode_char_bytes c : is_scalar c -> Forall is_byte (utf8_encode_char c).
Proof.
  intros [Hc Hs]. unfold utf8_encode_char.
  destruct (Z.ltb_spec c 128); [repeat constructor; unfold is_byte; lia|].
  destruct (Z.ltb_spec c 2048); [repeat constructor; unfold is_byte; bits|].
  destruct (Z.ltb_spec c 65536); repeat constructor; unfold is_byte; bits.
Qed.

Lemma utf8_encode_bytes s : Forall is_scalar s -> Forall is_byte (utf8_encode s).
Proof.
  induction 1 as [|c s Hc _ IH]; [constructor|].
  change (utf8_encode (c :: s)) with (utf8_encode_char c ++ utf8_encode s).
  apply Forall_app. split; [by apply utf8_encode_char_bytes | done].
Qed.

(** The decoder reads back the bytes of one encoded scalar value. *)
Lemma utf8_decode_char c rest :
  is_scalar c -> utf8_decode (utf8_encode_char c ++ rest) = (t ← utf8_decode rest; mret (c :: t)).
Proof.
  intros [Hc Hs]. unfold utf8_encode_char.
  destruct (Z.ltb_spec c 128).
  { cbn [app utf8_decode]. by rewrite (proj2 (Z.ltb_lt c 128)) by lia. }
  destruct (Z.ltb_spec c 2048); [|destruct (Z.ltb_spec c 65536)];
    cbn [app utf8_decode]; unfold in_range, is_cont, second_range;
    rewrite ?Z.shiftr_div_pow2 by lia; masks; pow_num; zsolve;
    destruct (utf8_decode rest) as [t|err]; cbv [mbind mret result_bind result_ret]; try done;
    do 2 f_equal; Z.div_mod_to_equations; lia.
Qed.

Lemma utf8_decode_encode s : Forall is_scalar s -> utf8_decode (utf8_encode s) = Ok s.
Proof.
  induction 1 as [|c s Hc _ IH]; [done|].
  change (utf8_encode (c :: s)) with (utf8_encode_char c ++ utf8_encode s).
  rewrite utf8_decode_char, IH by done. done.
Qed.


(** ** Bounds of the decoders *)

(** The invariant of the [a2b_base64] loop: every byte stored so far is
    an [unsigned char]. *)
Definition a2b_inv (s : a2b_state) : Prop := Forall is_byte (out_rev s).

Definition end_state (e : a2b_end) : a2b_state := match e with Finished s | Stopped s => s end.

Lemma store_is_byte b o : Forall is_byte o -> Forall is_byte (store b o).
Proof.
  intros Ho. constructor; [|done]. unfold is_byte.
  rewrite (land_low b 255 8) by (lia || reflexivity). apply Z.mod_pos_bound. lia.
Qed.

Lemma a2b_data_inv s v : a2b_inv s -> a2b_inv (a2b_data s v).
Proof.
  unfold a2b_inv, a2b_data. intros Hs.
  destruct (quad_pos s =? 0); [done|]. destruct (quad_pos s =? 1); [by apply store_is_byte|].
  destruct (quad_pos s =? 2); by apply store_is_byte.
Qed.

Lemma a2b_loop_inv s input : a2b_inv s -> a2b_inv (end_state (a2b_loop s input)).
Proof.
  revert s. induction input as [|c t IH]; intros s Hs; [done|]. simpl.
  destruct (c =? pad_char); [destruct (quad_pos s >=? 2); [destruct (_ >=? 4)|]|];
    try (by apply IH); try exact Hs.
  destruct (b64_value c >=? 64); apply IH; [done | by apply a2b_data_inv].
Qed.

(** The bytes [b64decode] returns are bytes. *)
Lemma b64decode_bytes s bytes : b64decode s = Ok bytes -> Forall is_byte bytes.
Proof.
  unfold b64decode. destruct (forallb _ s); [|discriminate].
  unfold a2b_base64. pose proof (a2b_loop_inv a2b_init s (Forall_nil_2 _)) as Hinv.
  destruct (a2b_loop a2b_init s) as [st|st]; cbn [end_state] in Hinv; unfold a2b_inv in Hinv.
  - destruct (quad_pos st =? 0); [|destruct (quad_pos st =? 1)]; try discriminate.
    intros [= <-]. by apply Forall_reverse.
  - intros [= <-]. by apply Forall_reverse.
Qed.

(** What the range test of the second byte allows. *)
Lemma second_range_spec b0 b1 :
  in_range (second_range b0).1 (second_range b0).2 b1 = true ->
  128 <= b1 <= 191 /\ (b0 = 224 -> 160 <= b1) /\ (b0 = 237 -> b1 <= 159) /\
  (b0 = 240 -> 144 <= b1) /\ (b0 = 244 -> b1 <= 143).
Proof.
  unfold second_range, in_range.
  destruct (Z.eqb_spec b0 224);
    [|destruct (Z.eqb_spec b0 237); [|destruct (Z.eqb_spec b0 240); [|destruct (Z.eqb_spec b0 244)]]];
    cbn [fst snd]; zcase; intros Hr; try discriminate; lia.
Qed.

Lemma utf8_bind_ok (r : list Z) c s :
  (t ← utf8_decode r; mret (c :: t)) = Ok s -> exists t, utf8_decode r = Ok t /\ s = c :: t.
Proof.
  destruct (utf8_decode r) as [t|e]; cbv [mbind mret result_bind result_ret];
    [intros [= <-]; eauto | discriminate].
Qed.

(** The range tests of the decoder as hypotheses of arithmetic. *)
Ltac range_facts :=
  repeat match goal with
  | H : in_range (second_range _).1 (second_range _).2 _ = true |- _ =>
      apply second_range_spec in H as (? & ? & ? & ? & ?)
  | H : (_ && _) = true |- _ => apply andb_true_iff in H as [? ?]
  | H : in_range _ _ _ = true |- _ => unfold in_range in H
  | H : is_cont _ = true |- _ => unfold is_cont in H
  | H : (_ <=? _) = true |- _ => apply Z.leb_le in H
  | H : (_ <? _) = true |- _ => apply Z.ltb_lt in H
  | H : Forall is_byte (_ :: _) |- _ => apply Forall_cons in H as [? H]
  end; unfold is_byte in *.

(** The strict decoder yields only scalar values: the ranges of the
    second byte exclude the surrogates ([ED A0..BF]) and the code points
    above [U+10FFFF] ([F4 90..BF]). *)
Lemma utf8_decode_scalar bytes s : Forall is_byte bytes -> utf8_decode bytes = Ok s -> Forall is_scalar s.
Proof.
  remember (length bytes) as n eqn:Hn. revert bytes s Hn.
  induction n as [n IH] using lt_wf_ind. intros bytes s -> Hall Hd.
  destruct bytes as [|b0 rest]; [injection Hd as <-; constructor|].
  cbn [utf8_decode] in Hd.
  destruct (b0 <? 128) eqn:E0; [|destruct (in_range 194 223 b0) eqn:E1;
    [|destruct (in_range 224 239 b0) eqn:E2; [|destruct (in_range 240 244 b0) eqn:E3]]];
    [| destruct rest as [|b1 rest]; [discriminate|]; destruct (is_cont b1) eqn:E4
     | destruct rest as [|b1 [|b2 rest]]; try discriminate;
       destruct (_ && is_cont b2) eqn:E4
     | destruct rest as [|b1 [|b2 [|b3 rest]]]; try discriminate;
       destruct (_ && is_cont b2 && is_cont b3) eqn:E4
     | discriminate];
    try discriminate; apply utf8_bind_ok in Hd as (t & Ht & ->); range_facts;
    (constructor; [unfold is_scalar; masks; Z.div_mod_to_equations; lia|]);
    (eapply (IH (length rest)); [simpl; lia | reflexivity | done | exact Ht]).
Qed.

(** C9: the transport decoding of [get_file_content_safe] inverts the
    encoding of the file: a text of scalar values encoded in UTF-8
    ([str.encode()]) and then in base64 ([base64.b64encode], as GitHub
    and the test fixture do) decodes to the same text. *)
Theorem b64decode_text_roundtrip (s : pystr) :
  Forall is_scalar s -> b64decode_text (b64encode (utf8_encode s)) = Ok s.
Proof.
  intros Hs. unfold b64decode_text.
  rewrite b64decode_encode by (by apply utf8_encode_bytes).
  cbv [mbind result_bind]. by apply utf8_decode_encode.
Qed.

Lemma b64decode_text_roundtrip_witness :
  b64decode_text (b64encode (utf8_encode (‹"caf"› ++ [233; 32; 128512])))
  = Ok (‹"caf"› ++ [233; 32; 128512]).
Proof. apply b64decode_text_roundtrip. decide_concrete. Defined.

(** C22: [b64decode] skips a character outside the alphabet wherever it
    is, such as the line breaks GitHub puts in the [content] of a file:
    removing it does not change the result, bytes or error. *)
Theorem b64decode_skips (s t : pystr) (c : Z) :
  0 <= c <= 127 -> c <> pad_char -> b64_value c = 64 ->
  b64decode (s ++ c :: t) = b64decode (s ++ t).
Proof.
  intros Hc Hp Hv. unfold b64decode. rewrite !forallb_app. cbn [forallb].
  replace ((0 <=? c) && (c <=? 127)) with true by (symmetry; apply andb_true_iff; lia).
  cbn [andb]. destruct (forallb _ s), (forallb _ t); try done.
  unfold a2b_base64. rewrite !a2b_loop_app.
  destruct (a2b_loop a2b_init s); [by rewrite a2b_loop_skip | done].
Qed.

Lemma b64decode_skips_witness :
  b64decode (‹"SGVs"› ++ chr_nl :: ‹"bG8="›) = b64decode (‹"SGVs"› ++ ‹"bG8="›).
Proof. apply b64decode_skips; vm_compute; (done || lia || (split; discriminate)). Defined.

(** C13: the bounds of the transport decoding: every character of a text
    [base64.b64decode(s).decode()] returns, hence every file text
    [get_file_content_safe] returns, is a Unicode scalar value, in
    [0..0x10FFFF] and outside the surrogates [0xD800..0xDFFF]. *)
Theorem b64decode_text_scalar (s t : pystr) : b64decode_text s = Ok t -> Forall is_scalar t.
Proof.
  unfold b64decode_text. destruct (b64decode s) as [bytes|e] eqn:Hb; [|discriminate].
  cbv [mbind result_bind]. apply utf8_decode_scalar. by apply (b64decode_bytes s).
Qed.

Lemma b64decode_text_scalar_witness :
  b64decode_text ‹"8J+YgA=="› = Ok [128512] /\ Forall is_scalar [128512].
Proof.
  split; [vm_compute; reflexivity | apply (b64decode_text_scalar ‹"8J+YgA=="›)].
  vm_compute. reflexivity.
Defined.

End Base64.
