(* ===== verification/Services.v ===== *)
(** * The outside world: the GitHub API, the chat-completion client, and
    the process's output

    The program talks to two remote services through client libraries
    (PyGithub's [Github], [Repository], [ContentFile]; azure-ai-inference's
    [ChatCompletionsClient]) and writes to standard output and to the
    [logging] stream.  The services are data here: a function from a
    request to its answer (an exception when the service fails).  The
    state [world] records, in order, every request the program sends and
    every line it writes, and [trace] interleaves them as they happen, so
    that the order of effects can be stated. *)

From S2P Require Import Prelude PyStr Json.

Module Services.

(** ** PyGithub *)

(** [datetime.datetime] as PyGithub returns it for [updated_at]. *)
Record datetime := DateTime {
  dt_year : Z; dt_month : Z; dt_day : Z;
  dt_hour : Z; dt_minute : Z; dt_second : Z; dt_microsecond : Z;
  dt_utc : bool  (* timezone-aware (UTC) or naive *)
}.

(** ["%0*d" % (width, n)] for [n >= 0]. *)
Definition zero_pad (width : nat) (n : Z) : pystr :=
  let d := str_int n in replicate (width - length d) 48 ++ d.

(** [datetime.isoformat()]: [YYYY-MM-DDTHH:MM:SS], then [.ffffff] when the
    microseconds are not zero, then [+00:00] for an aware UTC time. *)
Definition isoformat (d : datetime) : pystr :=
  zero_pad 4 (dt_year d) ++ ‹"-"› ++ zero_pad 2 (dt_month d) ++ ‹"-"› ++ zero_pad 2 (dt_day d)
  ++ ‹"T"› ++ zero_pad 2 (dt_hour d) ++ ‹":"› ++ zero_pad 2 (dt_minute d)
  ++ ‹":"› ++ zero_pad 2 (dt_second d)
  ++ (if dt_microsecond d =? 0 then [] else ‹"."› ++ zero_pad 6 (dt_microsecond d))
  ++ (if dt_utc d then ‹"+00:00"› else []).

(** A [Repository]: [get_contents(path).content] (the transport-encoded
    text of a file, or the exception PyGithub raises: not found, a
    directory, a network error), and the statistics read as attributes. *)
Record repository := Repository {
  get_contents : pystr -> result pystr;
  stargazers_count : Z;
  open_issues_count : Z;
  updated_at : datetime
}.

(** [Github().get_repo(full_name)] *)
Record github := GitHub { get_repo : pystr -> result repository }.

(** ** The chat-completion client *)

Inductive role := SystemRole | UserRole.

#[export] Instance role_eq_dec : EqDecision role.
Proof. solve_decision. Defined.

(** [SystemMessage(content=...)], [UserMessage(content=...)] *)
Record message := Message { msg_role : role; msg_content : pystr }.

#[export] Instance message_eq_dec : EqDecision message.
Proof. solve_decision. Defined.

(** [response.choices[i].message.content] is [Optional[str]]. *)
Record choice := Choice { choice_content : option pystr }.
Record response := Response { choices : list choice }.

(** [client.complete(messages=..., max_tokens=..., model=...)]; the
    first argument numbers the calls made so far, so a service can answer
    each call differently.  [http_records] are the messages of the [INFO]
    records that the pipeline's [HttpLoggingPolicy] (azure-core, logger
    [azure.core.pipeline.policies.http_logging_policy]) logs during the
    call: one for each HTTP request sent (URL, method, redacted headers)
    and one for each response received (status, redacted headers), retries
    included.  Their text depends on the transport and on the service, so
    it is data of the client, like the answer; a [complete] replaced by a
    test double logs none. *)
Record chat_client := ChatClient {
  complete : nat -> list message -> Z -> pystr -> result response;
  http_records : nat -> list message -> Z -> pystr -> list pystr
}.

(** ** The world *)

Inductive request :=
  | ReqGetRepo (full_name : pystr)
  | ReqGetContents (path : pystr)
  | ReqComplete (messages : list message) (max_tokens : Z) (model : pystr).

#[export] Instance request_eq_dec : EqDecision request.
Proof. solve_decision. Defined.

Inductive level := INFO | ERROR.

(** One effect of the program, at the moment it happens: a call to a
    service, a line on standard output, a record of the module's logger
    ([logger = logging.getLogger(__name__)]), a record of azure-core's
    HTTP logging policy. *)
Inductive event :=
  | EvRequest (r : request)
  | EvOut (s : pystr)
  | EvLog (l : level) (s : pystr)
  | EvHttpLog (s : pystr).

(** The world: the requests, the output and the records of the module's
    logger, each in order, and [trace], all of them and the records of
    the client library interleaved in the order they happened. *)
Record world := World {
  requests : list request;      (* oldest first *)
  stdout : list pystr;          (* what [print] wrote, oldest first *)
  log : list (level * pystr);   (* [logger.info] and [logger.error] *)
  trace : list event
}.

Definition io := pyM world.

Definition send (r : request) (w : world) : world :=
  World (requests w ++ [r]) (stdout w) (log w) (trace w ++ [EvRequest r]).

Definition write_out (s : pystr) (w : world) : world :=
  World (requests w) (stdout w ++ [s]) (log w) (trace w ++ [EvOut s]).

Definition write_log (l : level) (s : pystr) (w : world) : world :=
  World (requests w) (stdout w) (log w ++ [(l, s)]) (trace w ++ [EvLog l s]).

(** The records the HTTP logging policy adds to the stream. *)
Definition http_logged (rs : list pystr) (w : world) : world :=
  World (requests w) (stdout w) (log w) (trace w ++ map EvHttpLog rs).

(** [sent rs w]: the world [w] after the requests [rs]. *)
Definition sent (rs : list request) (w : world) : world :=
  World (requests w ++ rs) (stdout w) (log w) (trace w ++ map EvRequest rs).

Lemma sent_nil w : sent [] w = w.
Proof. destruct w. unfold sent. simpl. by rewrite !app_nil_r. Qed.

Lemma send_sent r rs w : send r (sent rs w) = sent (rs ++ [r]) w.
Proof. unfold send, sent. simpl. by rewrite map_app, !app_assoc. Qed.

Lemma sent_app rs1 rs2 w : sent rs2 (sent rs1 w) = sent (rs1 ++ rs2) w.
Proof. unfold sent. simpl. by rewrite map_app, !app_assoc. Qed.

Lemma send_is_sent r w : send r w = sent [r] w.
Proof. reflexivity. Qed.

#[export] Hint Rewrite sent_nil send_sent sent_app : pyrw.

(** [print(s)] writes the text and a newline. *)
Definition print (s : pystr) : io unit := modify (write_out (s ++ nl)).

(** [print(x)] of an [Optional[str]]: [None] prints as [None]. *)
Definition print_opt (o : option pystr) : io unit :=
  print (match o with Some s => s | None => ‹"None"› end).

Definition log_info (s : pystr) : io unit := modify (write_log INFO s).
Definition log_error (s : pystr) : io unit := modify (write_log ERROR s).

Definition is_complete (r : request) : bool :=
  match r with ReqComplete _ _ _ => true | _ => false end.

(** The number of completion calls made so far in [w]. *)
Definition calls_made (w : world) : nat := length (filter is_complete (requests w)).

Lemma calls_made_send_complete msgs mt model w :
  calls_made (send (ReqComplete msgs mt model) w) = S (calls_made w).
Proof. unfold calls_made, send. simpl. rewrite filter_app, length_app. simpl. lia. Qed.

Lemma calls_made_send_github r w :
  is_complete r = false -> calls_made (send r w) = calls_made w.
Proof.
  intros Hr. unfold calls_made, send. simpl. rewrite filter_app, length_app.
  destruct r; [simpl; lia | simpl; lia | discriminate].
Qed.

Lemma calls_made_write_out s w : calls_made (write_out s w) = calls_made w.
Proof. reflexivity. Qed.

Lemma calls_made_write_log l s w : calls_made (write_log l s w) = calls_made w.
Proof. reflexivity. Qed.

Lemma calls_made_http_logged rs w : calls_made (http_logged rs w) = calls_made w.
Proof. reflexivity. Qed.

#[export] Hint Rewrite calls_made_send_complete calls_made_write_out calls_made_write_log
  calls_made_http_logged : pyrw.

(** The calls, each recorded before its answer is read. *)
Definition call_get_repo (gh : github) (name : pystr) : io repository :=
  fun w => (get_repo gh name, send (ReqGetRepo name) w).

Definition call_get_contents (repo : repository) (path : pystr) : io pystr :=
  fun w => (get_contents repo path, send (ReqGetContents path) w).

Definition call_complete (cl : chat_client) (msgs : list message) (max_tokens : Z)
    (model : pystr) : io response :=
  fun w => let n := length (filter is_complete (requests w)) in
           (complete cl n msgs max_tokens model,
            http_logged (http_records cl n msgs max_tokens model) (send (ReqComplete msgs max_tokens model) w)).

(** Compute the projections of a world built by the primitives above. *)
Ltac world_simpl :=
  repeat progress (autorewrite with pyrw; cbn [requests stdout log trace write_out write_log send sent http_logged]).

(** ** Computations that make no completion call

    [keeps_calls m]: running [m] leaves the number of completion calls
    unchanged.  The property is closed under the monad's operations. *)

Definition keeps_calls {A} (m : io A) : Prop := forall w, calls_made (snd (m w)) = calls_made w.

Lemma keeps_ret {A} (a : A) : keeps_calls (mret a).
Proof. by intros w. Qed.

Lemma keeps_lift {A} (r : result A) : keeps_calls (lift r).
Proof. by intros w. Qed.

Lemma keeps_raise {A} (e : exc) : keeps_calls (raise (A:=A) e).
Proof. by intros w. Qed.

Lemma keeps_modify_out s : keeps_calls (modify (write_out s)).
Proof. by intros w. Qed.

Lemma keeps_modify_log l s : keeps_calls (modify (write_log l s)).
Proof. by intros w. Qed.

Lemma keeps_bind {A B} (m : io A) (f : A -> io B) :
  keeps_calls m -> (forall a, keeps_calls (f a)) -> keeps_calls (m ≫= f).
Proof.
  intros Hm Hf w. cbv [mbind pyM_bind]. specialize (Hm w).
  destruct (m w) as [[a|e] w'] eqn:E; simpl in *; [by rewrite Hf | done].
Qed.

Lemma keeps_catch {A} (m : io A) (h : exc -> io A) :
  keeps_calls m -> (forall e, keeps_calls (h e)) -> keeps_calls (catch m h).
Proof.
  intros Hm Hh w. unfold catch. specialize (Hm w).
  destruct (m w) as [[a|e] w'] eqn:E; simpl in *; [done | by rewrite Hh].
Qed.

Lemma keeps_if {A} (b : bool) (m1 m2 : io A) :
  keeps_calls m1 -> keeps_calls m2 -> keeps_calls (if b then m1 else m2).
Proof. by destruct b. Qed.

Lemma keeps_get_repo gh name : keeps_calls (call_get_repo gh name).
Proof. intros w. by apply calls_made_send_github. Qed.

Lemma keeps_get_contents repo p : keeps_calls (call_get_contents repo p).
Proof. intros w. by apply calls_made_send_github. Qed.

Lemma keeps_print s : keeps_calls (print s).
Proof. apply keeps_modify_out. Qed.

Lemma keeps_log_error s : keeps_calls (log_error s).
Proof. apply keeps_modify_log. Qed.

Lemma keeps_log_info s : keeps_calls (log_info s).
Proof. apply keeps_modify_log. Qed.

Create HintDb keeps discriminated.
#[export] Hint Resolve keeps_ret keeps_lift keeps_raise keeps_modify_out keeps_modify_log
  keeps_get_repo keeps_get_contents keeps_print keeps_log_error keeps_log_info : keeps.

(** Decompose a computation built from binds, [catch], [if] and pattern
    matches into its primitives. *)
Ltac keeps_step :=
  match goal with
  | |- keeps_calls (mbind _ _) => apply keeps_bind; [| intros ?]
  | |- keeps_calls (catch _ _) => apply keeps_catch; [| intros ?]
  | |- keeps_calls (if _ then _ else _) => apply keeps_if
  | |- keeps_calls (match ?x with _ => _ end) => destruct x
  | |- keeps_calls _ => solve [eauto with keeps]
  end.

End Services.
