(* ===== verification/Traces.v ===== *)
(** * Properties of the event trace: [eventually], [always], [leads_to]

    The program is a sequence of blocking steps; [Services.trace] records
    its effects in the order they happen.  This file gives the temporal
    reading of such a finite trace: [eventually q] (a later event
    satisfies [q]), [always P] (every suffix satisfies [P]) and
    [leads_to p q] (every [p] event is followed, later, by a [q] event),
    with their decision procedures and the lemmas that compose them along
    concatenations of traces. *)

From S2P Require Import Prelude Services.
Import Services.

Module Traces.

Section props.
Context {E : Type}.

Inductive eventually (q : E -> Prop) : list E -> Prop :=
  | eventually_now e tr : q e -> eventually q (e :: tr)
  | eventually_later e tr : eventually q tr -> eventually q (e :: tr).

Inductive always (P : list E -> Prop) : list E -> Prop :=
  | always_nil : P [] -> always P []
  | always_cons e tr : P (e :: tr) -> always P tr -> always P (e :: tr).

(** What [leads_to] asks of a suffix: its first event, if it satisfies
    [p], is followed by a [q] event. *)
Definition answered (p q : E -> Prop) (tr : list E) : Prop :=
  match tr with [] => True | e :: rest => p e -> eventually q rest end.

Definition leads_to (p q : E -> Prop) : list E -> Prop := always (answered p q).

Lemma eventually_elem q tr : eventually q tr <-> exists e, e ∈ tr /\ q e.
Proof.
  split.
  - induction 1 as [e tr Hq|e tr _ (e' & Hin & Hq)]; [exists e | exists e']; split; try done;
      rewrite elem_of_cons; auto.
  - intros (e & Hin & Hq). induction tr as [|e' tr IH]; [by apply elem_of_nil in Hin|].
    apply elem_of_cons in Hin as [->|Hin]; [by constructor | apply eventually_later; auto].
Qed.

Lemma eventually_app_l q tr1 tr2 : eventually q tr1 -> eventually q (tr1 ++ tr2).
Proof. rewrite !eventually_elem. intros (e & Hin & Hq). exists e. split; [set_solver | done]. Qed.

Lemma eventually_app_r q tr1 tr2 : eventually q tr2 -> eventually q (tr1 ++ tr2).
Proof. rewrite !eventually_elem. intros (e & Hin & Hq). exists e. split; [set_solver | done]. Qed.

Lemma leads_to_nil p q : leads_to p q [].
Proof. by constructor. Qed.

Lemma leads_to_cons p q e tr :
  leads_to p q (e :: tr) <-> (p e -> eventually q tr) /\ leads_to p q tr.
Proof. split; [by inversion 1 | intros [H1 H2]; by constructor]. Qed.

Lemma leads_to_app p q tr1 tr2 :
  leads_to p q tr1 -> leads_to p q tr2 -> leads_to p q (tr1 ++ tr2).
Proof.
  induction tr1 as [|e tr1 IH]; intros H1 H2; [done|].
  apply leads_to_cons in H1 as [He H1]. simpl. apply leads_to_cons. split; [|by apply IH].
  intros Hp. by apply eventually_app_l, He.
Qed.

(** A trace without [p] event needs no answer. *)
Lemma leads_to_none p q tr : Forall (fun e => ~ p e) tr -> leads_to p q tr.
Proof.
  induction 1 as [|e tr Hn _ IH]; [apply leads_to_nil|].
  apply leads_to_cons. split; [by intros Hp | done].
Qed.

(** The index reading: every [p] event at position [i] has a [q] event
    at a later position. *)
Lemma leads_to_lookup p q tr :
  leads_to p q tr ->
  forall i e, tr !! i = Some e -> p e -> exists j e', (i < j)%nat /\ tr !! j = Some e' /\ q e'.
Proof.
  induction tr as [|e0 tr IH]; intros H i e Hi Hp; [done|].
  apply leads_to_cons in H as [H0 H]. destruct i as [|i].
  - injection Hi as ->. destruct (proj1 (eventually_elem _ _) (H0 Hp)) as (e' & Hin & Hq).
    apply list_elem_of_lookup in Hin as [j Hj]. exists (S j), e'. split_and!; [lia | done | done].
  - destruct (IH H i e Hi Hp) as (j & e' & Hij & Hj & Hq). exists (S j), e'.
    split_and!; [lia | done | done].
Qed.

Section dec.
Context (p q : E -> Prop) `{!forall e, Decision (p e)} `{!forall e, Decision (q e)}.

#[export] Instance eventually_dec tr : Decision (eventually q tr).
Proof.
  induction tr as [|e tr IH].
  - right. inversion 1.
  - destruct (decide (q e)); [left; by constructor|].
    destruct IH; [left; by constructor | right; by inversion 1].
Defined.

#[export] Instance leads_to_dec tr : Decision (leads_to p q tr).
Proof.
  induction tr as [|e tr IH]; [left; apply leads_to_nil|].
  destruct (decide (p e -> eventually q tr)) as [H1|H1];
    [destruct IH as [H2|H2]; [left | right] | right]; rewrite leads_to_cons; tauto.
Defined.
End dec.
End props.

(** ** The events of the program *)

(** A call to the completion service. *)
Definition is_call (e : event) : Prop :=
  match e with EvRequest r => is_complete r = true | _ => False end.

(** A line written on standard output. *)
Definition is_print (e : event) : Prop := match e with EvOut _ => True | _ => False end.

#[export] Instance is_call_dec e : Decision (is_call e).
Proof. destruct e; simpl; apply _. Defined.

#[export] Instance is_print_dec e : Decision (is_print e).
Proof. destruct e; simpl; apply _. Defined.

(** Requests to GitHub are not calls. *)
Lemma github_events rs :
  Forall (fun r => is_complete r = false) rs -> Forall (fun e => ~ is_call e) (map EvRequest rs).
Proof. induction 1; constructor; [simpl; congruence | done]. Qed.

End Traces.
