(* ===== verification/Logging.v ===== *)
(** * The logging configuration (src/langchain_flow.py, lines 120-122)

    [logging.basicConfig(level=logging.INFO)] sets the root logger's level
    to [INFO] and gives it one handler, a [StreamHandler] on [sys.stderr]
    whose formatter uses [logging.BASIC_FORMAT],
    ["%(levelname)s:%(name)s:%(message)s"].  Two loggers reach that
    handler: [logging.getLogger(__name__)], the module's, and azure-core's
    [azure.core.pipeline.policies.http_logging_policy], whose
    [HttpLoggingPolicy] logs each request and response of the chat client
    at [INFO].  Both are of level [NOTSET], so their records are filtered
    by the root's level and handled by the root's handler.  [stderr] is
    what the handler writes for the records of a trace, in order, each
    record followed by the handler's terminator ["\n"]. *)

From S2P Require Import Prelude PyStr Services.
Import Services.

Module Logging.

(** The numeric levels of [logging] and their names. *)
Definition levelno (l : level) : Z := match l with INFO => 20 | ERROR => 40 end.

Definition levelname (l : level) : pystr :=
  match l with INFO => ‹"INFO"› | ERROR => ‹"ERROR"› end.

(** [basicConfig(level=logging.INFO)] *)
Definition root_level : Z := 20.

(** [Logger.isEnabledFor]: the effective level of a [NOTSET] logger is
    its parent's, the root's. *)
Definition enabled (l : level) : bool := root_level <=? levelno l.

(** [Formatter(BASIC_FORMAT).format(record)] for a logger named [name]. *)
Definition BASIC_FORMAT (name : pystr) (l : level) (msg : pystr) : pystr :=
  levelname l ++ ‹":"› ++ name ++ ‹":"› ++ msg.

(** [StreamHandler.emit]: the formatted record and the terminator. *)
Definition emit (name : pystr) (record : level * pystr) : pystr :=
  if enabled record.1 then BASIC_FORMAT name record.1 record.2 ++ nl else [].

(** [__name__] when the module runs as a script. *)
Definition main_name : pystr := ‹"__main__"›.

(** The name of azure-core's HTTP logging policy's logger. *)
Definition http_logger_name : pystr := ‹"azure.core.pipeline.policies.http_logging_policy"›.

(** What the handler writes for one event: the module's records and the
    policy's [INFO] records; requests and [print]s write nothing there. *)
Definition event_stderr (e : event) : pystr :=
  match e with
  | EvLog l msg => emit main_name (l, msg)
  | EvHttpLog msg => emit http_logger_name (INFO, msg)
  | EvRequest _ | EvOut _ => []
  end.

(** What the handler writes on [sys.stderr] for a trace. *)
Definition stderr (tr : list event) : pystr := tr ≫= event_stderr.

(** ** Properties *)

Lemma stderr_app tr1 tr2 : stderr (tr1 ++ tr2) = stderr tr1 ++ stderr tr2.
Proof. unfold stderr. by rewrite bind_app. Qed.

Lemma stderr_cons e tr : stderr (e :: tr) = event_stderr e ++ stderr tr.
Proof. reflexivity. Qed.

Lemma stderr_nil : stderr [] = [].
Proof. reflexivity. Qed.

#[export] Hint Rewrite stderr_app stderr_cons stderr_nil : pyrw.

(** Both levels the program uses pass the root's filter. *)
Lemma enabled_all l : enabled l = true.
Proof. by destruct l. Qed.

Lemma emit_line name l msg : emit name (l, msg) = BASIC_FORMAT name l msg ++ nl.
Proof. unfold emit. by rewrite enabled_all. Qed.

(** The policy's records of one call, as the handler writes them. *)
Definition http_stderr (rs : list pystr) : pystr :=
  rs ≫= (fun msg => ‹"INFO:azure.core.pipeline.policies.http_logging_policy:"› ++ msg ++ nl).

Lemma stderr_http rs : stderr (map EvHttpLog rs) = http_stderr rs.
Proof.
  unfold http_stderr. induction rs as [|msg rs IH]; [done|]. cbn [map mbind list_bind].
  rewrite stderr_cons, IH. cbn [event_stderr]. rewrite emit_line. unfold BASIC_FORMAT.
  rewrite <- !app_assoc. reflexivity.
Qed.

#[export] Hint Rewrite stderr_http : pyrw.

End Logging.
