(* ===== verification/Fetcher.v ===== *)
(** * Repository fetcher and context assembler: [get_file_content_safe]
    and [analyze_github_repo] (src/langchain_flow.py, lines 132-207)

    The fetcher calls two library functions, given here as an interface
    ([PyCodecs]): [base64.b64decode(s).decode()] and [json.loads].  Every
    theorem of this file holds for any implementation of them; the one on
    the text of the context ([analysis_text_loads]) also uses the law
    [PyCodecsLaws] (a decoded file is a text of scalar values), which
    [cpython_codecs_laws] proves of CPython's decoders.

    [analyze_github_repo] runs in the [io] monad of [Services]: it records
    each request to GitHub in order, and its whole body is guarded by
    [except Exception], which turns any exception into an
    ["Error analyzing repository: ..."] string. *)

From S2P Require Import Prelude PyStr UrlParser Json JsonLoads JsonRoundtrip Base64 Services Traces.
Import Url Json JsonRoundtrip Services Traces.

(** The library functions the fetcher relies on. *)
Class PyCodecs := {
  b64decode_text : pystr -> result pystr;   (* base64.b64decode(s).decode() *)
  json_loads : pystr -> result jvalue       (* json.loads(s) *)
}.

(** What the decoders promise the context assembler: a decoded file is a
    text of Unicode scalar values (strict UTF-8 never yields a surrogate). *)
Class PyCodecsLaws `{!PyCodecs} := {
  b64decode_text_scalar_law : forall s t, b64decode_text s = Ok t -> Forall is_scalar t
}.

Module Fetcher.

(** Python truthiness of an [Optional[str]]: [None] and [""] are false. *)
Definition truthy (o : option pystr) : bool :=
  match o with Some (_ :: _) => true | _ => false end.

(** [x or ""] *)
Definition or_empty (o : option pystr) : pystr :=
  match o with Some s => s | None => [] end.

Definition opt_json (o : option pystr) : jvalue :=
  match o with Some s => JStr s | None => JNull end.

Definition manifest_path : pystr := Eval vm_compute in ‹"manifest.json"›.
Definition readme_path : pystr := Eval vm_compute in ‹"README.md"›.
Definition package_path : pystr := Eval vm_compute in ‹"package.json"›.
Definition privacy_paths : list pystr :=
  Eval vm_compute in [‹"PRIVACY.md"›; ‹"PRIVACY_POLICY.md"›; ‹"privacy.md"›; ‹"privacy-policy.md"›].
Definition license_paths : list pystr :=
  Eval vm_compute in [‹"LICENSE"›; ‹"LICENSE.md"›; ‹"license.txt"›].

Definition manifest_error : pystr := ‹"Error: manifest.json not found or invalid"›.
Definition analysis_error (e : exc) : pystr := ‹"Error analyzing repository: "› ++ exc_str e.

Section Fetcher.
Context `{!PyCodecs}.

(** [get_file_content_safe(repo, path)]: the bare [except:] turns a
    failed request or a failed decoding into [None]. *)
Definition get_file_content_safe (repo : repository) (path : pystr) : io (option pystr) :=
  catch (c ← call_get_contents repo path;
         t ← lift (b64decode_text c);
         mret (Some t))
        (fun _ => mret None).

(** [f(p1) or f(p2) or ... or f(pn)]: the next file is requested only
    when the previous value is falsy; the value is the last one computed. *)
Fixpoint first_file (repo : repository) (paths : list pystr) : io (option pystr) :=
  match paths with
  | [] => mret None
  | [p] => get_file_content_safe repo p
  | p :: ps =>
      x ← get_file_content_safe repo p;
      if truthy x then mret x else first_file repo ps
  end.

(** Lines 158-168: the dependency mapping of [package.json]; anything that
    goes wrong (no file, bad JSON, not an object) gives [{}]. *)
Definition dependencies_of (package_json : option pystr) : jvalue :=
  if truthy package_json then
    match json_loads (or_empty package_json) with
    | Ok package_data =>
        match py_get package_data ‹"dependencies"› (JDict []),
              py_get package_data ‹"devDependencies"› (JDict []) with
        | Ok deps, Ok dev => JDict [(‹"dependencies"›, deps); (‹"devDependencies"›, dev)]
        | _, _ => JDict []
        end
    | Raise _ => JDict []
    end
  else JDict [].

(** Lines 182-201: the context dict, in the order of its keys; each
    [manifest_data.get] raises [AttributeError] if the manifest is not a
    JSON object. *)
Definition build_context (manifest_data : jvalue) (readme : pystr) (dependencies : jvalue)
    (privacy_policy license : option pystr) (repo_url : pystr) (repo : repository)
    : result jvalue :=
  name ← py_get manifest_data ‹"name"› (JStr []);
  version ← py_get manifest_data ‹"version"› (JStr []);
  description ← py_get manifest_data ‹"description"› (JStr []);
  manifest_version ← py_get manifest_data ‹"manifest_version"› (JStr []);
  permissions ← py_get manifest_data ‹"permissions"› (JList []);
  host_permissions ← py_get manifest_data ‹"host_permissions"› (JList []);
  content_scripts ← py_get manifest_data ‹"content_scripts"› (JList []);
  background ← py_get manifest_data ‹"background"› (JDict []);
  default_locale ← py_get manifest_data ‹"default_locale"› (JStr []);
  icons ← py_get manifest_data ‹"icons"› (JDict []);
  mret (JDict [
    (‹"name"›, name); (‹"version"›, version); (‹"description"›, description);
    (‹"manifest_version"›, manifest_version); (‹"permissions"›, permissions);
    (‹"host_permissions"›, host_permissions); (‹"content_scripts"›, content_scripts);
    (‹"background"›, background); (‹"readme"›, JStr readme);
    (‹"dependencies"›, dependencies); (‹"privacy_policy"›, opt_json privacy_policy);
    (‹"license"›, opt_json license); (‹"repo_url"›, JStr repo_url);
    (‹"stars"›, JInt (stargazers_count repo));
    (‹"last_updated"›, JStr (isoformat (updated_at repo)));
    (‹"open_issues"›, JInt (open_issues_count repo));
    (‹"default_locale"›, default_locale); (‹"icons"›, icons)]).

(** [analyze_github_repo(repo_url)] against the GitHub service [gh]. *)
Definition analyze_github_repo (gh : github) (repo_url : pystr) : io pystr :=
  catch
    ('(owner, repo_name) ← lift (parse_github_url repo_url);
     repo ← call_get_repo gh (owner ++ ‹"/"› ++ repo_name);
     manifest_content ← get_file_content_safe repo manifest_path;
     if negb (truthy manifest_content) then mret manifest_error else
     manifest_data ← lift (json_loads (or_empty manifest_content));
     readme_content ← get_file_content_safe repo readme_path;
     package_json ← get_file_content_safe repo package_path;
     privacy_policy ← first_file repo privacy_paths;
     license_content ← first_file repo license_paths;
     context ← lift (build_context manifest_data (or_empty readme_content)
                       (dependencies_of package_json) privacy_policy license_content
                       repo_url repo);
     mret (dumps context))
    (fun e =>
       log_error (‹"Error analyzing GitHub repository: "› ++ exc_str e);;
       mret (analysis_error e)).

(** ** The abstract reading of the fetches

    [safe_content repo p] is what one best-effort fetch yields; [first_found]
    and [tried] are the value of an [or] chain and the paths it requests. *)

Definition safe_content (repo : repository) (p : pystr) : option pystr :=
  match get_contents repo p with
  | Ok c => result_to_option (b64decode_text c)
  | Raise _ => None
  end.

Fixpoint first_found (repo : repository) (paths : list pystr) : option pystr :=
  match paths with
  | [] => None
  | [p] => safe_content repo p
  | p :: ps => if truthy (safe_content repo p) then safe_content repo p else first_found repo ps
  end.

Fixpoint tried (repo : repository) (paths : list pystr) : list pystr :=
  match paths with
  | [] => []
  | [p] => [p]
  | p :: ps => p :: (if truthy (safe_content repo p) then [] else tried repo ps)
  end.

(** One fetch requests its path and yields [safe_content]. *)
Lemma get_file_content_safe_spec repo p w :
  get_file_content_safe repo p w = (Ok (safe_content repo p), send (ReqGetContents p) w).
Proof.
  unfold get_file_content_safe, safe_content, call_get_contents. run_monad.
  destruct (get_contents repo p) as [c|e]; [|done].
  by destruct (b64decode_text c).
Qed.

(** The [or] chain refines its abstract reading: same value, and the
    requests are those of [tried], in order. *)
Lemma first_file_spec repo ps w :
  first_file repo ps w =
  (Ok (first_found repo ps), sent (map ReqGetContents (tried repo ps)) w).
Proof.
  revert w. induction ps as [|p ps IH]; intros w; [by rewrite sent_nil|].
  destruct ps as [|p' ps'].
  - apply get_file_content_safe_spec.
  - change (first_file repo (p :: p' :: ps'))
      with (x ← get_file_content_safe repo p;
            if truthy x then mret x else first_file repo (p' :: ps')).
    rewrite (bind_ok _ _ _ _ _ (get_file_content_safe_spec repo p w)).
    cbn [first_found tried]. destruct (truthy (safe_content repo p)); [done|].
    rewrite IH, send_is_sent, sent_app. done.
Qed.

Lemma first_found_cons2 repo p p' ps :
  first_found repo (p :: p' :: ps)
  = if truthy (safe_content repo p) then safe_content repo p else first_found repo (p' :: ps).
Proof. reflexivity. Qed.

Lemma tried_cons2 repo p p' ps :
  tried repo (p :: p' :: ps)
  = p :: (if truthy (safe_content repo p) then [] else tried repo (p' :: ps)).
Proof. reflexivity. Qed.

Lemma first_found_at repo ps i p t :
  ps !! i = Some p -> safe_content repo p = Some t -> t <> [] ->
  (forall j q, (j < i)%nat -> ps !! j = Some q -> truthy (safe_content repo q) = false) ->
  first_found repo ps = Some t /\ tried repo ps = take (S i) ps.
Proof.
  revert i. induction ps as [|p0 ps IH]; intros i Hi Hp Ht Hbefore; [done|].
  assert (Htruthy : truthy (Some t) = true) by (destruct t; done).
  destruct i as [|i].
  - simpl in Hi. injection Hi as ->.
    destruct ps as [|p1 ps]; cbn [first_found tried]; rewrite ?Hp, ?Htruthy; [done|].
    done.
  - simpl in Hi.
    destruct ps as [|p1 ps]; [done|].
    destruct (IH i Hi Hp Ht) as [IH1 IH2].
    { intros j q Hj Hq. apply (Hbefore (S j)); [lia | done]. }
    rewrite first_found_cons2, tried_cons2, (Hbefore 0%nat p0) by (done || lia).
    split; [done|]. by rewrite IH2.
Qed.

Lemma first_found_none repo ps q :
  (forall r, r ∈ ps -> truthy (safe_content repo r) = false) ->
  first_found repo (ps ++ [q]) = safe_content repo q /\ tried repo (ps ++ [q]) = ps ++ [q].
Proof.
  induction ps as [|p ps IH]; intros Hall; [done|].
  rewrite <- app_comm_cons.
  assert (Hp : truthy (safe_content repo p) = false) by (apply Hall; left).
  destruct (IH (fun r Hr => Hall r (list_elem_of_further _ _ _ Hr))) as [IH1 IH2].
  destruct ps as [|p1 ps]; simpl app in *;
    rewrite ?first_found_cons2, ?tried_cons2, Hp, ?IH1, ?IH2; done.
Qed.

(** C18: first found wins.  If the [i]-th candidate is the first one whose
    fetch yields a non-empty text, the chain [f(p1) or f(p2) or ...]
    returns that text and requests exactly the candidates [p1 .. p(i+1)],
    in order; the later ones are never requested. *)
Theorem first_file_first_found repo ps i p t w :
  ps !! i = Some p -> safe_content repo p = Some t -> t <> [] ->
  (forall j q, (j < i)%nat -> ps !! j = Some q -> truthy (safe_content repo q) = false) ->
  first_file repo ps w = (Ok (Some t), sent (map ReqGetContents (take (S i) ps)) w).
Proof.
  intros Hi Hp Ht Hbefore. rewrite first_file_spec.
  by destruct (first_found_at repo ps i p t Hi Hp Ht Hbefore) as [-> ->].
Qed.

(** C28: when no candidate yields a non-empty text, every candidate is
    requested and the value is the last candidate's own result: [None]
    if it is missing, [""] if it exists but is empty. *)
Theorem first_file_none_found repo ps q w :
  (forall r, r ∈ ps -> truthy (safe_content repo r) = false) ->
  first_file repo (ps ++ [q]) w
  = (Ok (safe_content repo q), sent (map ReqGetContents (ps ++ [q])) w).
Proof.
  intros Hall. rewrite first_file_spec.
  by destruct (first_found_none repo ps q Hall) as [-> ->].
Qed.

(** ** No completion call during the analysis *)

Lemma keeps_get_file_content_safe repo p : keeps_calls (get_file_content_safe repo p).
Proof. unfold get_file_content_safe. repeat keeps_step. Qed.

Lemma keeps_first_file repo ps : keeps_calls (first_file repo ps).
Proof.
  induction ps as [|p [|p' ps] IH]; simpl; [eauto with keeps | apply keeps_get_file_content_safe |].
  apply keeps_bind; [apply keeps_get_file_content_safe | intros x; apply keeps_if; eauto with keeps].
Qed.

#[local] Hint Resolve keeps_get_file_content_safe keeps_first_file : keeps.

(** The analysis sends no request to the completion service, on every
    path, failures included. *)
Lemma keeps_analyze gh url : keeps_calls (analyze_github_repo gh url).
Proof. unfold analyze_github_repo. repeat keeps_step. Qed.

(** ** [analyze_github_repo] *)

Definition analysis_log (e : exc) : pystr :=
  ‹"Error analyzing GitHub repository: "› ++ exc_str e.

Definition full_name (owner repo_name : pystr) : pystr := owner ++ ‹"/"› ++ repo_name.

(** The context as a function of the manifest's entries: the value the
    dict literal of lines 182-201 takes when the manifest is an object. *)
Definition get_or (kvs : list (pystr * jvalue)) (k : pystr) (d : jvalue) : jvalue :=
  match assoc_get kvs k with Some x => x | None => d end.

Definition context_value (kvs : list (pystr * jvalue)) (readme : pystr) (dependencies : jvalue)
    (privacy_policy license : option pystr) (repo_url : pystr) (repo : repository) : jvalue :=
  JDict [
    (‹"name"›, get_or kvs ‹"name"› (JStr [])); (‹"version"›, get_or kvs ‹"version"› (JStr []));
    (‹"description"›, get_or kvs ‹"description"› (JStr []));
    (‹"manifest_version"›, get_or kvs ‹"manifest_version"› (JStr []));
    (‹"permissions"›, get_or kvs ‹"permissions"› (JList []));
    (‹"host_permissions"›, get_or kvs ‹"host_permissions"› (JList []));
    (‹"content_scripts"›, get_or kvs ‹"content_scripts"› (JList []));
    (‹"background"›, get_or kvs ‹"background"› (JDict [])); (‹"readme"›, JStr readme);
    (‹"dependencies"›, dependencies); (‹"privacy_policy"›, opt_json privacy_policy);
    (‹"license"›, opt_json license); (‹"repo_url"›, JStr repo_url);
    (‹"stars"›, JInt (stargazers_count repo));
    (‹"last_updated"›, JStr (isoformat (updated_at repo)));
    (‹"open_issues"›, JInt (open_issues_count repo));
    (‹"default_locale"›, get_or kvs ‹"default_locale"› (JStr []));
    (‹"icons"›, get_or kvs ‹"icons"› (JDict []))].

(** The requests of an analysis that reaches [build_context], in order. *)
Definition analysis_requests (owner name : pystr) (repo : repository) : list request :=
  [ReqGetRepo (full_name owner name); ReqGetContents manifest_path;
   ReqGetContents readme_path; ReqGetContents package_path]
  ++ map ReqGetContents (tried repo privacy_paths)
  ++ map ReqGetContents (tried repo license_paths).

(** The analysis read abstractly, path by path: its result, the requests
    it sends, and the exception it logs, if any. *)
Definition analysis_spec (gh : github) (url : pystr) : pystr * list request * option exc :=
  match parse_github_url url with
  | Raise e => (analysis_error e, [], Some e)
  | Ok (owner, name) =>
      match get_repo gh (full_name owner name) with
      | Raise e => (analysis_error e, [ReqGetRepo (full_name owner name)], Some e)
      | Ok repo =>
          let head := [ReqGetRepo (full_name owner name); ReqGetContents manifest_path] in
          match safe_content repo manifest_path with
          | Some ((_ :: _) as m) =>
              match json_loads m with
              | Raise e => (analysis_error e, head, Some e)
              | Ok (JDict kvs) =>
                  (dumps (context_value kvs (or_empty (safe_content repo readme_path))
                            (dependencies_of (safe_content repo package_path))
                            (first_found repo privacy_paths) (first_found repo license_paths)
                            url repo),
                   analysis_requests owner name repo, None)
              | Ok v =>
                  (analysis_error (no_attribute v ‹"get"›), analysis_requests owner name repo,
                   Some (no_attribute v ‹"get"›))
              end
          | _ => (manifest_error, head, None)
          end
      end
  end.

Definition spec_result (gh : github) (url : pystr) : pystr := (analysis_spec gh url).1.1.

Definition spec_world (gh : github) (url : pystr) (w : world) : world :=
  let '(_, rs, err) := analysis_spec gh url in
  match err with
  | Some e => write_log ERROR (analysis_log e) (sent rs w)
  | None => sent rs w
  end.

(** The analysis only talks to GitHub. *)
Lemma analysis_spec_github gh url : Forall (fun r => is_complete r = false) (analysis_spec gh url).1.2.
Proof.
  assert (Hm : forall l, Forall (fun r => is_complete r = false) (map ReqGetContents l))
    by (induction l; constructor; auto).
  unfold analysis_spec, analysis_requests. repeat case_match; cbn [fst snd];
    repeat first [apply Forall_app; split | apply Hm | apply Forall_nil_2 | apply Forall_cons; split];
    reflexivity.
Qed.

(** What the analysis adds to the trace: GitHub requests and log records,
    no call to the completion service. *)
Lemma spec_world_trace gh url w :
  exists ev, trace (spec_world gh url w) = trace w ++ ev /\ Forall (fun e => ~ is_call e) ev.
Proof.
  pose proof (analysis_spec_github gh url) as Hg. unfold spec_world.
  destruct (analysis_spec gh url) as [[r rs] err]. cbn [fst snd] in Hg.
  destruct err as [e|]; cbn [sent write_log trace]; eexists; (split; [rewrite <- ?app_assoc; reflexivity|]).
  - apply Forall_app. split; [by apply github_events | constructor; [intros [] | constructor]].
  - by apply github_events.
Qed.

Lemma build_context_dict kvs readme deps pp lic url repo :
  build_context (JDict kvs) readme deps pp lic url repo
  = Ok (context_value kvs readme deps pp lic url repo).
Proof. reflexivity. Qed.

(** The handler refines its abstract reading: [analyze_github_repo]
    never raises, returns [spec_result] and leaves [spec_world]. *)
Lemma analyze_refines gh url w :
  analyze_github_repo gh url w = (Ok (spec_result gh url), spec_world gh url w).
Proof.
  unfold analyze_github_repo, spec_result, spec_world, analysis_spec. run_monad.
  destruct (parse_github_url url) as [[owner name]|e]; [|by rewrite sent_nil].
  unfold call_get_repo, full_name. destruct (get_repo gh _) as [repo|e]; [|by rewrite send_is_sent].
  rewrite get_file_content_safe_spec.
  destruct (safe_content repo manifest_path) as [[|c m]|]; cbn [negb truthy or_empty].
  1,3: by rewrite !send_is_sent, sent_app.
  destruct (json_loads (c :: m)) as [v|e]; [|by rewrite !send_is_sent, sent_app].
  rewrite !get_file_content_safe_spec, !first_file_spec.
  unfold analysis_requests, full_name. rewrite !send_is_sent.
  destruct v; autorewrite with pyrw; reflexivity.
Qed.

(** C27: an unparsable URL: no request is sent, the error is logged,
    and the analysis returns ["Error analyzing repository: " + str(e)]. *)
Theorem analyze_invalid_url gh url e w :
  parse_github_url url = Raise e ->
  analyze_github_repo gh url w = (Ok (analysis_error e), write_log ERROR (analysis_log e) w).
Proof.
  intros Hp. rewrite analyze_refines. unfold spec_result, spec_world, analysis_spec.
  rewrite Hp. by rewrite sent_nil.
Qed.

(** C24: a repository GitHub does not return: one request, logged error. *)
Theorem analyze_repo_not_found gh url owner name e w :
  parse_github_url url = Ok (owner, name) ->
  get_repo gh (full_name owner name) = Raise e ->
  analyze_github_repo gh url w
  = (Ok (analysis_error e),
     write_log ERROR (analysis_log e) (sent [ReqGetRepo (full_name owner name)] w)).
Proof.
  intros Hp Hr. rewrite analyze_refines. unfold spec_result, spec_world, analysis_spec.
  by rewrite Hp, Hr.
Qed.

(** C7: a missing or empty [manifest.json] (not found, not decodable, or
    empty): two requests, and ["Error: manifest.json not found or invalid"]. *)
Theorem analyze_missing_manifest gh url owner name repo w :
  parse_github_url url = Ok (owner, name) ->
  get_repo gh (full_name owner name) = Ok repo ->
  truthy (safe_content repo manifest_path) = false ->
  analyze_github_repo gh url w
  = (Ok manifest_error,
     sent [ReqGetRepo (full_name owner name); ReqGetContents manifest_path] w).
Proof.
  intros Hp Hr Hm. rewrite analyze_refines. unfold spec_result, spec_world, analysis_spec.
  rewrite Hp, Hr. by destruct (safe_content repo manifest_path) as [[|c m]|].
Qed.

(** C1: a successful analysis.  When the manifest is a JSON object, the
    result is [json.dumps(context, indent=2)] of the context built from
    the manifest's entries, the README (or [""]), the dependencies of
    [package.json] (or [{}]), the first privacy policy and license found
    (or the last candidate's result), the URL and the statistics; every
    optional file's failure is absorbed; and the requests are GitHub's
    repository, then [manifest.json], [README.md], [package.json], the
    privacy candidates and the license candidates, in this order. *)
Theorem analyze_success gh url owner name repo m kvs w :
  parse_github_url url = Ok (owner, name) ->
  get_repo gh (full_name owner name) = Ok repo ->
  safe_content repo manifest_path = Some m -> m <> [] ->
  json_loads m = Ok (JDict kvs) ->
  analyze_github_repo gh url w
  = (Ok (dumps (context_value kvs (or_empty (safe_content repo readme_path))
                  (dependencies_of (safe_content repo package_path))
                  (first_found repo privacy_paths) (first_found repo license_paths) url repo)),
     sent (analysis_requests owner name repo) w).
Proof.
  intros Hp Hr Hm Hne Hj. rewrite analyze_refines. unfold spec_result, spec_world, analysis_spec.
  rewrite Hp, Hr, Hm. destruct m as [|c m]; [done|]. by rewrite Hj.
Qed.

(** C25: a [manifest.json] that is not valid JSON: the decoder's
    exception is reported, and nothing after the manifest is requested. *)
Theorem analyze_bad_manifest_json gh url owner name repo m e w :
  parse_github_url url = Ok (owner, name) ->
  get_repo gh (full_name owner name) = Ok repo ->
  safe_content repo manifest_path = Some m -> m <> [] ->
  json_loads m = Raise e ->
  analyze_github_repo gh url w
  = (Ok (analysis_error e),
     write_log ERROR (analysis_log e)
       (sent [ReqGetRepo (full_name owner name); ReqGetContents manifest_path] w)).
Proof.
  intros Hp Hr Hm Hne Hj. rewrite analyze_refines. unfold spec_result, spec_world, analysis_spec.
  rewrite Hp, Hr, Hm. destruct m as [|c m]; [done|]. by rewrite Hj.
Qed.

(** C26: a [manifest.json] that is valid JSON but not an object (a list,
    a string, ...): the optional files are all fetched first, then the
    first [manifest_data.get] raises [AttributeError], which is reported. *)
Theorem analyze_manifest_not_object gh url owner name repo m v w :
  parse_github_url url = Ok (owner, name) ->
  get_repo gh (full_name owner name) = Ok repo ->
  safe_content repo manifest_path = Some m -> m <> [] ->
  json_loads m = Ok v -> (forall kvs, v <> JDict kvs) ->
  analyze_github_repo gh url w
  = (Ok (analysis_error (no_attribute v ‹"get"›)),
     write_log ERROR (analysis_log (no_attribute v ‹"get"›))
       (sent (analysis_requests owner name repo) w)).
Proof.
  intros Hp Hr Hm Hne Hj Hv. rewrite analyze_refines. unfold spec_result, spec_world, analysis_spec.
  rewrite Hp, Hr, Hm. destruct m as [|c m]; [done|]. rewrite Hj.
  destruct v; try reflexivity. by destruct (Hv items).
Qed.

(** What [__main__] means by success: the URL parses, the repository
    exists, the manifest is found and non-empty, and it is a JSON object. *)
Definition analysis_succeeds (gh : github) (url : pystr) : Prop :=
  exists owner name repo m kvs,
    parse_github_url url = Ok (owner, name) /\
    get_repo gh (full_name owner name) = Ok repo /\
    safe_content repo manifest_path = Some m /\ m <> [] /\
    json_loads m = Ok (JDict kvs).

Definition error_marker : pystr := Eval vm_compute in ‹"Error"›.

Lemma analysis_error_marked e : startswith (analysis_error e) error_marker = true.
Proof. apply bool_decide_eq_true. by exists (‹" analyzing repository: "› ++ exc_str e). Qed.

Lemma manifest_error_marked : startswith manifest_error error_marker = true.
Proof. by vm_compute. Qed.

Lemma context_unmarked kvs readme deps pp lic url repo :
  startswith (dumps (context_value kvs readme deps pp lic url repo)) error_marker = false.
Proof. apply bool_decide_eq_false. intros [t Ht]. simpl in Ht. discriminate. Qed.

(** The abstract result starts with ["Error"] exactly off the success path. *)
Lemma spec_result_marked gh url :
  startswith (spec_result gh url) error_marker = true <-> ~ analysis_succeeds gh url.
Proof.
  unfold spec_result, analysis_spec.
  destruct (parse_github_url url) as [[owner name]|e] eqn:Hp.
  2: { split; [intros _ (? & ? & ? & ? & ? & Hp' & _); congruence | intros _; first [apply analysis_error_marked | apply manifest_error_marked]]. }
  destruct (get_repo gh (full_name owner name)) as [repo|e] eqn:Hr.
  2: { split; [|intros _; first [apply analysis_error_marked | apply manifest_error_marked]].
       intros _ (? & ? & ? & ? & ? & Hp' & Hr' & _). rewrite Hp in Hp'.
       injection Hp' as <- <-. congruence. }
  assert (Hsucc : analysis_succeeds gh url <->
          exists m kvs, safe_content repo manifest_path = Some m /\ m <> [] /\
                        json_loads m = Ok (JDict kvs)).
  { split; [|intros (m & kvs & ?); by exists owner, name, repo, m, kvs].
    intros (o & n & r & m & kvs & Hp' & Hr' & Hm & Hne & Hj).
    rewrite Hp in Hp'. injection Hp' as <- <-. rewrite Hr in Hr'. injection Hr' as <-. eauto. }
  rewrite Hsucc.
  destruct (safe_content repo manifest_path) as [[|c m]|].
  1,3: split; [intros _ (m' & kvs & Hm' & Hne & _); congruence | intros _; first [apply analysis_error_marked | apply manifest_error_marked]].
  destruct (json_loads (c :: m)) as [v|e] eqn:Hj.
  - destruct v; cbn [fst];
      try (split; [intros _ (m' & kvs & [= <-] & _ & Hj'); congruence | intros _; first [apply analysis_error_marked | apply manifest_error_marked]]).
    rewrite context_unmarked. split; [done|]. intros Hn. exfalso. apply Hn. eauto.
  - split; [intros _ (m' & kvs & [= <-] & _ & Hj'); congruence | intros _; first [apply analysis_error_marked | apply manifest_error_marked]].
Qed.

(** C4: [analyze_github_repo] never raises, and its result starts with
    ["Error"] exactly when the analysis did not succeed: the entry
    point's [startswith("Error")] test tells the two apart. *)
Theorem analyze_marks_failure gh url w :
  exists s w', analyze_github_repo gh url w = (Ok s, w') /\
    (startswith s error_marker = true <-> ~ analysis_succeeds gh url).
Proof. rewrite analyze_refines. do 2 eexists. split; [reflexivity | apply spec_result_marked]. Qed.

(** ** The text the agents receive *)

Lemma out_char_scalar c : out_char c -> is_scalar c.
Proof. unfold out_char, is_scalar, chr_nl. lia. Qed.

Lemma isoformat_scalar d : Forall is_scalar (isoformat d).
Proof.
  assert (Hz : forall n z, Forall is_scalar (zero_pad n z)).
  { intros n z. unfold zero_pad. apply Forall_app. split.
    - apply Forall_replicate. unfold is_scalar. lia.
    - eapply Forall_impl; [apply str_int_out | apply out_char_scalar]. }
  unfold isoformat. destruct (dt_microsecond d =? 0), (dt_utc d);
    repeat first [apply Hz | apply Forall_nil_2 | apply Forall_app; split | decide_concrete].
Qed.

Lemma wf_get_or kvs k d :
  Forall (fun kv => wf kv.2 = true) kvs -> wf d = true -> wf (get_or kvs k d) = true.
Proof.
  unfold get_or. induction 1 as [|[k' x] kvs Hx _ IH]; intros Hd; [done|]. cbn [assoc_get].
  case_decide; [exact Hx | by apply IH].
Qed.

Lemma wf_opt_json (o : option pystr) :
  (forall t, o = Some t -> Forall is_scalar t) -> wf (opt_json o) = true.
Proof. destruct o as [t|]; intros Ho; [apply bool_decide_eq_true_2; by apply Ho | done]. Qed.

(** The context is a value [json.dumps] writes and [json.loads] reads
    back when its parts are. *)
Lemma wf_context_value kvs readme deps pp lic url repo :
  Forall (fun kv => wf kv.2 = true) kvs -> Forall is_scalar readme -> wf deps = true ->
  wf (opt_json pp) = true -> wf (opt_json lic) = true -> Forall is_scalar url ->
  wf (context_value kvs readme deps pp lic url repo) = true.
Proof.
  intros Hkvs Hr Hd Hp Hl Hu. unfold context_value. cbn [wf].
  apply andb_true_iff. split; [apply bool_decide_eq_true_2; cbn [map fst]; decide_concrete|].
  cbn [forallb]. repeat (apply andb_true_iff; split);
    first [ reflexivity | done | apply wf_get_or; done
          | apply bool_decide_eq_true_2; first [done | apply isoformat_scalar | decide_concrete] ].
Qed.

Context `{!PyCodecsLaws}.

Lemma safe_content_scalar repo p t : safe_content repo p = Some t -> Forall is_scalar t.
Proof.
  unfold safe_content. destruct (get_contents repo p) as [c|]; [|discriminate].
  destruct (b64decode_text c) eqn:Hd; cbn [result_to_option]; [|discriminate].
  intros [= <-]. by apply (b64decode_text_scalar_law c).
Qed.

Lemma first_found_scalar repo ps t : first_found repo ps = Some t -> Forall is_scalar t.
Proof.
  induction ps as [|p [|p' ps] IH]; cbn [first_found]; [discriminate | apply safe_content_scalar |].
  destruct (truthy _); [apply safe_content_scalar | apply IH].
Qed.

(** C11: the text the agents receive is the context itself.  When the
    analysis succeeds on a manifest whose entries, and a dependency
    mapping whose values, hold no float and no lone surrogate, and the
    URL is a text of scalar values, CPython's [json.loads] reads the
    analysis result back as the context dict, README, policy and license
    included: nothing of the context is lost or altered in the text. *)
Theorem analysis_text_loads gh url owner name repo m kvs w :
  parse_github_url url = Ok (owner, name) ->
  get_repo gh (full_name owner name) = Ok repo ->
  safe_content repo manifest_path = Some m -> m <> [] ->
  json_loads m = Ok (JDict kvs) ->
  Forall (fun kv => wf kv.2 = true) kvs ->
  wf (dependencies_of (safe_content repo package_path)) = true ->
  Forall is_scalar url ->
  (text ← fst (analyze_github_repo gh url w); JsonLoads.loads text)
  = Ok (context_value kvs (or_empty (safe_content repo readme_path))
          (dependencies_of (safe_content repo package_path))
          (first_found repo privacy_paths) (first_found repo license_paths) url repo).
Proof.
  intros Hp Hr Hm Hne Hj Hkvs Hd Hu. rewrite analyze_refines. unfold spec_result, analysis_spec.
  rewrite Hp, Hr, Hm. destruct m as [|c m]; [done|]. rewrite Hj. cbv [mbind result_bind fst].
  destruct (dumps_read (context_value kvs (or_empty (safe_content repo readme_path))
          (dependencies_of (safe_content repo package_path))
          (first_found repo privacy_paths) (first_found repo license_paths) url repo)) as [Hb Hs].
  { apply wf_context_value; try done; try (apply wf_opt_json; apply first_found_scalar).
    destruct (safe_content repo readme_path) as [t|] eqn:Ht; [|constructor].
    by apply (safe_content_scalar repo readme_path). }
  unfold JsonLoads.loads, JsonLoads.loads_fuel. by rewrite Hb, Hs.
Qed.

End Fetcher.

(** ** CPython's codecs, and the theorems at concrete repositories *)

(** The implementation of [PyCodecs] the program runs with. *)
Definition cpython_codecs : PyCodecs :=
  {| b64decode_text := Base64.b64decode_text; json_loads := JsonLoads.loads |}.

#[local] Existing Instance cpython_codecs.

(** CPython's decoders keep the law: [bytes.decode()] of what
    [b64decode] returns is a text of scalar values. *)
#[local] Instance cpython_codecs_laws : PyCodecsLaws.
Proof.
  constructor. intros s t Hd. cbn in Hd. unfold Base64.b64decode_text in Hd.
  destruct (Base64.b64decode s) as [bytes|] eqn:Hb; [|discriminate].
  apply (Base64.utf8_decode_scalar bytes); [by apply (Base64.b64decode_bytes s) | exact Hd].
Qed.

Definition not_found : exc := Exc GithubException ‹"404 Not Found"›.

(** A repository holding [files]; GitHub sends their content base64-encoded. *)
Definition demo_contents (files : list (pystr * pystr)) (p : pystr) : result pystr :=
  match list_find (fun f => f.1 = p) files with
  | Some (_, (_, t)) => Ok (Base64.b64encode t)
  | None => Raise not_found
  end.

Definition demo_repo (files : list (pystr * pystr)) : repository :=
  Repository (demo_contents files) 42 3 (DateTime 2024 5 1 12 30 0 0 true).

Definition demo_github (repo : repository) : github :=
  GitHub (fun n => if bool_decide (n = ‹"owner/tab-organizer"›) then Ok repo else Raise not_found).

Definition demo_url : pystr := ‹"https://github.com/owner/tab-organizer"›.

Definition demo_manifest : pystr :=
  Eval vm_compute in dq "{`name`: `Tab Organizer`, `version`: `1.0`, `manifest_version`: 3}".

Definition demo_kvs : list (pystr * jvalue) :=
  Eval vm_compute in
    match JsonLoads.loads demo_manifest with Ok (JDict kvs) => kvs | _ => [] end.

Definition demo_policy : pystr := ‹"We collect no data."›.

Definition full_repo : repository :=
  demo_repo [(manifest_path, demo_manifest); (readme_path, ‹"# Tab Organizer"›);
             (‹"PRIVACY_POLICY.md"›, demo_policy)].

Definition w0 : world := World [] [] [] [].

Lemma first_file_first_found_witness :
  first_file full_repo privacy_paths w0
  = (Ok (Some demo_policy), sent (map ReqGetContents (take 2 privacy_paths)) w0).
Proof.
  apply (first_file_first_found full_repo privacy_paths 1 ‹"PRIVACY_POLICY.md"›);
    [reflexivity | vm_compute; reflexivity | discriminate |].
  intros [|j] q Hj Hq; [|lia]. injection Hq as <-. vm_compute. reflexivity.
Defined.

Lemma first_file_none_found_witness :
  first_file full_repo ([‹"LICENSE"›; ‹"LICENSE.md"›] ++ [‹"license.txt"›]) w0
  = (Ok None, sent (map ReqGetContents ([‹"LICENSE"›; ‹"LICENSE.md"›] ++ [‹"license.txt"›])) w0).
Proof.
  apply (first_file_none_found full_repo _ ‹"license.txt"›).
  intros r Hr. repeat (apply elem_of_cons in Hr as [->|Hr]; [vm_compute; reflexivity|]).
  by apply elem_of_nil in Hr.
Defined.

Lemma analyze_invalid_url_witness :
  analyze_github_repo (demo_github full_repo) ‹"https://invalid-url.com"› w0
  = (Ok (analysis_error invalid_url_error), write_log ERROR (analysis_log invalid_url_error) w0).
Proof. apply analyze_invalid_url. vm_compute. reflexivity. Defined.

Lemma analyze_repo_not_found_witness :
  analyze_github_repo (GitHub (fun _ => Raise not_found)) demo_url w0
  = (Ok (analysis_error not_found),
     write_log ERROR (analysis_log not_found)
       (sent [ReqGetRepo (full_name ‹"owner"› ‹"tab-organizer"›)] w0)).
Proof. apply analyze_repo_not_found; vm_compute; reflexivity. Defined.

Lemma analyze_missing_manifest_witness :
  analyze_github_repo (demo_github (demo_repo [])) demo_url w0
  = (Ok manifest_error,
     sent [ReqGetRepo (full_name ‹"owner"› ‹"tab-organizer"›); ReqGetContents manifest_path] w0).
Proof. apply (analyze_missing_manifest _ _ _ _ (demo_repo [])); vm_compute; reflexivity. Defined.

Lemma analyze_success_witness :
  analyze_github_repo (demo_github full_repo) demo_url w0
  = (Ok (dumps (context_value demo_kvs (or_empty (safe_content full_repo readme_path))
                  (dependencies_of (safe_content full_repo package_path))
                  (first_found full_repo privacy_paths) (first_found full_repo license_paths)
                  demo_url full_repo)),
     sent (analysis_requests ‹"owner"› ‹"tab-organizer"› full_repo) w0).
Proof.
  apply (analyze_success _ _ _ _ full_repo demo_manifest);
    [vm_compute; reflexivity.. | discriminate | vm_compute; reflexivity].
Defined.

Lemma analysis_text_loads_witness :
  (text ← fst (analyze_github_repo (demo_github full_repo) demo_url w0); JsonLoads.loads text)
  = Ok (context_value demo_kvs (or_empty (safe_content full_repo readme_path))
          (dependencies_of (safe_content full_repo package_path))
          (first_found full_repo privacy_paths) (first_found full_repo license_paths)
          demo_url full_repo).
Proof.
  apply (analysis_text_loads _ _ ‹"owner"› ‹"tab-organizer"› full_repo demo_manifest);
    [vm_compute; reflexivity.. | discriminate | vm_compute; reflexivity | decide_concrete
    | vm_compute; reflexivity | decide_concrete].
Defined.

Definition bad_manifest : pystr := Eval vm_compute in ‹"{name: 1}"›.

Definition bad_manifest_error : exc :=
  Exc JSONDecodeError ‹"Expecting property name enclosed in double quotes: line 1 column 2 (char 1)"›.

Lemma analyze_bad_manifest_json_witness :
  analyze_github_repo (demo_github (demo_repo [(manifest_path, bad_manifest)])) demo_url w0
  = (Ok (analysis_error bad_manifest_error),
     write_log ERROR (analysis_log bad_manifest_error)
       (sent [ReqGetRepo (full_name ‹"owner"› ‹"tab-organizer"›); ReqGetContents manifest_path] w0)).
Proof.
  apply (analyze_bad_manifest_json _ _ _ _ (demo_repo [(manifest_path, bad_manifest)]) bad_manifest);
    [vm_compute; reflexivity.. | discriminate | vm_compute; reflexivity].
Defined.

Definition list_repo : repository := demo_repo [(manifest_path, ‹"[1, 2]"›)].

Lemma analyze_manifest_not_object_witness :
  analyze_github_repo (demo_github list_repo) demo_url w0
  = (Ok (analysis_error (no_attribute (JList [JInt 1; JInt 2]) ‹"get"›)),
     write_log ERROR (analysis_log (no_attribute (JList [JInt 1; JInt 2]) ‹"get"›))
       (sent (analysis_requests ‹"owner"› ‹"tab-organizer"› list_repo) w0)).
Proof.
  apply (analyze_manifest_not_object _ _ _ _ list_repo ‹"[1, 2]"›);
    [vm_compute; reflexivity.. | discriminate | vm_compute; reflexivity | discriminate].
Defined.

(** Scenario 3 of the spec, with the repository of the test module's
    fixture [mock_github_repo]: the five values of the manifest and the
    statistics come back unchanged from [json.loads] of the context. *)
Definition test_manifest : pystr :=
  Eval vm_compute in
    dq "{`name`: `Test Extension`, `version`: `1.0.0`, `description`: `A test extension`, `manifest_version`: 3, `permissions`: [`tabs`]}".

Definition test_repo : repository :=
  Repository (demo_contents [(manifest_path, test_manifest);
                             (readme_path, ‹"# Test Extension"› ++ nl ++ ‹"This is a test."›)])
    100 5 (DateTime 2024 5 13 0 0 0 0 false).

Example scenario_context_values :
  match analyze_github_repo (GitHub (fun _ => Ok test_repo)) ‹"https://github.com/owner/repo"› w0 with
  | (Ok ctx, _) =>
      match JsonLoads.loads ctx with
      | Ok (JDict kvs) =>
          map (assoc_get kvs) [‹"name"›; ‹"version"›; ‹"description"›; ‹"manifest_version"›;
                               ‹"permissions"›; ‹"stars"›; ‹"open_issues"›]
          = [Some (JStr ‹"Test Extension"›); Some (JStr ‹"1.0.0"›); Some (JStr ‹"A test extension"›);
             Some (JInt 3); Some (JList [JStr ‹"tabs"›]); Some (JInt 100); Some (JInt 5)]
      | _ => False
      end
  | _ => False
  end.
Proof. vm_compute. reflexivity. Qed.

End Fetcher.
