(* ===== verification/Templates.v ===== *)
(** * Prompt templates (src/langchain_flow.py, lines 32-118)

    The three field lists, the three example outputs and the three
    prompts, built the way the module builds them at import time: the
    adjacent string literals, the f-string [{[field[0] for field in F]}]
    (the [repr] of a list of strings), and ["\n".join(...)] of the field
    lines.  The example outputs are written with a backtick where the
    source has a double quote; [dq] of the prelude puts the double quotes back. *)

From S2P Require Import Prelude PyStr Json.
Import Json.

Module Templates.

Definition field := (pystr * pystr)%type.

Definition STORE_LISTING_FIELDS : list field := [
  (‹"display_name"›, ‹"Enter the extension's display name. It should be clear and related to the manifest name."›);
  (‹"summary"›, ‹"Write a concise tagline (max 132 characters) for the extension."›);
  (‹"detailed_description"›, ‹"Provide a full description of features, benefits, and usage. Use formatting for readability."›);
  (‹"language"›, ‹"Specify the primary language."›);
  (‹"category"›, ‹"Choose the most relevant category (e.g., Productivity, Developer Tools)."›);
  (‹"official_website"›, ‹"Provide the homepage or support page URL."›);
  (‹"support_contact"›, ‹"Provide a support contact (email or URL)."›)].

Definition STORE_LISTING_EXAMPLE : pystr :=
  dq "{" ++ nl
  ++ dq "  `display_name`: `Tab Organizer`," ++ nl
  ++ dq "  `summary`: `Organize your tabs with one click.`," ++ nl
  ++ dq "  `detailed_description`: `Tab Organizer helps you manage and group your Chrome tabs efficiently. Features include...`," ++ nl
  ++ dq "  `language`: `en`," ++ nl
  ++ dq "  `category`: `Productivity`," ++ nl
  ++ dq "  `official_website`: `https://taborganizer.com`," ++ nl
  ++ dq "  `support_contact`: `support@taborganizer.com`" ++ nl
  ++ dq "}".

Definition PRIVACY_PRACTICES_FIELDS : list field := [
  (‹"single_purpose"›, ‹"Clearly explain your extension's single core purpose."›);
  (‹"permission_justifications"›, ‹"For each permission, provide a detailed justification."›);
  (‹"user_data_usage"›, ‹"Disclose if and how user data is collected/used/shared."›);
  (‹"privacy_policy_url"›, ‹"Provide a direct link to your privacy policy."›);
  (‹"remote_code"›, ‹"Disclose if remote code is used."›);
  (‹"content_security_policy"›, ‹"State your Content Security Policy."›)].

Definition PRIVACY_PRACTICES_EXAMPLE : pystr :=
  dq "{" ++ nl
  ++ dq "  `single_purpose`: `Tab Organizer helps users manage browser tabs.`," ++ nl
  ++ dq "  `permission_justifications`: {`tabs`: `Needed to read and organize open tabs.`}," ++ nl
  ++ dq "  `user_data_usage`: {`PII`: `No`, `analytics`: `No`}," ++ nl
  ++ dq "  `privacy_policy_url`: `https://taborganizer.com/privacy`," ++ nl
  ++ dq "  `remote_code`: `No`," ++ nl
  ++ dq "  `content_security_policy`: `script-src 'self'; object-src 'none';`" ++ nl
  ++ dq "}".

Definition DISTRIBUTION_FIELDS : list field := [
  (‹"visibility"›, ‹"Choose one: Public, Unlisted, Private."›);
  (‹"countries"›, ‹"List countries for distribution."›);
  (‹"pricing_payments"›, ‹"Describe pricing or payment setup if applicable."›)].

Definition DISTRIBUTION_EXAMPLE : pystr :=
  dq "{" ++ nl
  ++ dq "  `visibility`: `Public`," ++ nl
  ++ dq "  `countries`: [`US`, `CA`, `GB`]," ++ nl
  ++ dq "  `pricing_payments`: `Free extension. No payments required.`" ++ nl
  ++ dq "}".

(** [f"- {field[0]}: {field[1]}"] *)
Definition field_line (f : field) : pystr := ‹"- "› ++ f.1 ++ ‹": "› ++ f.2.

(** The part of a prompt that follows its two or three opening lines. *)
Definition render_fields (fields : list field) (example : pystr) : pystr :=
  ‹"For each of the following fields, provide a value as described. Return your answers as a JSON object with these keys: "›
  ++ repr_str_list (map fst fields) ++ ‹"."› ++ nl
  ++ join nl (map field_line fields)
  ++ nl ++ ‹"If a field is not applicable, use null or an empty string."› ++ nl
  ++ ‹"Here is an example output:"› ++ nl
  ++ example.

Definition STORE_LISTING_PROMPT : pystr :=
  ‹"You are the Store Listing Agent. Fill out the Chrome Web Store 'Store Listing' tab."› ++ nl
  ++ ‹"Based on the repository data provided, analyze the manifest.json, README.md, and repository information to fill out the store listing."› ++ nl
  ++ render_fields STORE_LISTING_FIELDS STORE_LISTING_EXAMPLE.

Definition PRIVACY_PRACTICES_PROMPT : pystr :=
  ‹"You are the Privacy Practices Agent. Fill out the Chrome Web Store 'Privacy Practices' tab."› ++ nl
  ++ ‹"Based on the repository data provided, analyze the manifest.json permissions, README.md, and any privacy-related files to assess privacy practices."› ++ nl
  ++ ‹"Pay special attention to the permissions requested in manifest.json and any privacy policy or data handling documentation."› ++ nl
  ++ render_fields PRIVACY_PRACTICES_FIELDS PRIVACY_PRACTICES_EXAMPLE.

Definition DISTRIBUTION_PROMPT : pystr :=
  ‹"You are the Distribution Agent. Fill out the Chrome Web Store 'Distribution' tab."› ++ nl
  ++ ‹"Based on the repository data provided, analyze the project's maturity, popularity (stars), and maintenance status (issues, last update)."› ++ nl
  ++ ‹"Consider the repository's visibility, documentation quality, and overall readiness for distribution."› ++ nl
  ++ render_fields DISTRIBUTION_FIELDS DISTRIBUTION_EXAMPLE.

Definition MAX_TOKENS : Z := 2048.

End Templates.
