(* ===== verification/Agent.v ===== *)
(** * Completion agent and configuration: [agent_tool] and the module's
    start-up code (src/langchain_flow.py, lines 13-30 and 209-224)

    [load_dotenv()] adds the variables of the [.env] file that the
    environment does not set; the configuration is then read from the
    environment and each of its four variables is asserted non-empty, in
    order; the client is built from the endpoint, the key and the API
    version.  [agent_tool] sends one
    system and one user message to the chat-completion client and returns
    the first choice's content; any exception, the assertion on an empty
    [choices] included, becomes the string ["Error: " + str(error)]. *)

From S2P Require Import Prelude PyStr Services Templates.
Import Services Templates.

Module Agent.

Record config := Config {
  AZURE_OPENAI_ENDPOINT : pystr;
  AZURE_OPENAI_KEY : pystr;
  AZURE_OPENAI_MODEL : pystr;
  AZURE_OPENAI_API_VERSION : pystr
}.

(** [assert value, message]: a missing or empty variable fails. *)
Definition assert_set (value : option pystr) (message : pystr) : result pystr :=
  match value with
  | Some (c :: s) => Ok (c :: s)
  | _ => Raise (Exc AssertionError message)
  end.

(** Lines 16-24: [os.getenv] of each variable, then the four asserts. *)
Definition load_config (getenv : pystr -> option pystr) : result config :=
  endpoint ← assert_set (getenv ‹"AZURE_OPENAI_ENDPOINT"›) ‹"AZURE_OPENAI_ENDPOINT is not set."›;
  key ← assert_set (getenv ‹"AZURE_OPENAI_KEY"›) ‹"AZURE_OPENAI_KEY is not set."›;
  model ← assert_set (getenv ‹"AZURE_OPENAI_MODEL"›) ‹"AZURE_OPENAI_MODEL is not set."›;
  version ← assert_set (getenv ‹"AZURE_OPENAI_API_VERSION"›) ‹"AZURE_OPENAI_API_VERSION is not set."›;
  mret (Config endpoint key model version).

(** [load_dotenv()] (line 13): each variable of the [.env] file (parsed:
    [dotenv k] is its value, [None] when the file has no value for [k]) is
    set in [os.environ] only if the environment does not have it yet
    ([override=False]); [os.getenv] then reads the result. *)
Definition load_dotenv (dotenv environ : pystr -> option pystr) : pystr -> option pystr :=
  fun k => match environ k with Some v => Some v | None => dotenv k end.

(** Lines 26-30: [ChatCompletionsClient(endpoint=..., credential=
    AzureKeyCredential(key), api_version=...)]; the client is built once,
    before any request, and the service it reaches is a function of these
    settings. *)
Record client_settings := ClientSettings {
  cs_endpoint : pystr;
  cs_credential : pystr;   (* AzureKeyCredential(AZURE_OPENAI_KEY).key *)
  cs_api_version : pystr
}.

Definition make_client (cfg : config) : client_settings :=
  ClientSettings (AZURE_OPENAI_ENDPOINT cfg) (AZURE_OPENAI_KEY cfg) (AZURE_OPENAI_API_VERSION cfg).

Definition agent_messages (agent_prompt user_input : pystr) : list message :=
  [Message SystemRole agent_prompt; Message UserRole user_input].

Definition no_choices_error : exc :=
  Exc AssertionError ‹"No response choices returned from agent."›.

Definition agent_error (e : exc) : pystr := ‹"Error: "› ++ exc_str e.

(** [agent_tool(agent_prompt, user_input)]; [None] is a choice whose
    [message.content] is [None]. *)
Definition agent_tool (client : chat_client) (cfg : config) (agent_prompt user_input : pystr)
    : io (option pystr) :=
  let messages := agent_messages agent_prompt user_input in
  catch (response ← call_complete client messages MAX_TOKENS (AZURE_OPENAI_MODEL cfg);
         match choices response with
         | [] => raise no_choices_error
         | c :: _ => mret (choice_content c)
         end)
        (fun error =>
           log_error (‹"Agent failed: "› ++ exc_str error);;
           mret (Some (agent_error error))).

(** ** The agent's contract

    [agent_outcome r] is the text [agent_tool] returns when the service
    answers [r]; [agent_failure r] the exception it logs, if any. *)

Definition agent_outcome (r : result response) : option pystr :=
  match r with
  | Ok resp => match choices resp with
               | [] => Some (agent_error no_choices_error)
               | c :: _ => choice_content c
               end
  | Raise e => Some (agent_error e)
  end.

Definition agent_failure (r : result response) : option exc :=
  match r with
  | Ok resp => match choices resp with [] => Some no_choices_error | _ => None end
  | Raise e => Some e
  end.

Definition agent_log (r : result response) (w : world) : world :=
  match agent_failure r with
  | Some e => write_log ERROR (‹"Agent failed: "› ++ exc_str e) w
  | None => w
  end.

(** The answer of the service to the next call from [w]. *)
Definition answer (client : chat_client) (cfg : config) (w : world) (agent_prompt user_input : pystr)
    : result response :=
  complete client (calls_made w) (agent_messages agent_prompt user_input) MAX_TOKENS
    (AZURE_OPENAI_MODEL cfg).

(** The records the HTTP logging policy logs during that call. *)
Definition http_answer (client : chat_client) (cfg : config) (w : world) (agent_prompt user_input : pystr)
    : list pystr :=
  http_records client (calls_made w) (agent_messages agent_prompt user_input) MAX_TOKENS
    (AZURE_OPENAI_MODEL cfg).

Lemma agent_log_requests r w : requests (agent_log r w) = requests w.
Proof. unfold agent_log. by destruct (agent_failure r). Qed.

Lemma agent_log_stdout r w : stdout (agent_log r w) = stdout w.
Proof. unfold agent_log. by destruct (agent_failure r). Qed.

Lemma calls_made_agent_log r w : calls_made (agent_log r w) = calls_made w.
Proof. unfold calls_made. by rewrite agent_log_requests. Qed.

#[export] Hint Rewrite agent_log_requests agent_log_stdout calls_made_agent_log : pyrw.

(** The log lines [agent_log] adds. *)
Definition agent_log_lines (r : result response) : list (level * pystr) :=
  match agent_failure r with
  | Some e => [(ERROR, ‹"Agent failed: "› ++ exc_str e)]
  | None => []
  end.

Lemma agent_log_log r w : log (agent_log r w) = log w ++ agent_log_lines r.
Proof. unfold agent_log, agent_log_lines. destruct (agent_failure r); simpl; by rewrite ?app_nil_r. Qed.

(** The same failure, as an event of the trace. *)
Definition agent_log_events (r : result response) : list event :=
  match agent_failure r with
  | Some e => [EvLog ERROR (‹"Agent failed: "› ++ exc_str e)]
  | None => []
  end.

Lemma agent_log_trace r w : trace (agent_log r w) = trace w ++ agent_log_events r.
Proof. unfold agent_log, agent_log_events. destruct (agent_failure r); simpl; by rewrite ?app_nil_r. Qed.

#[export] Hint Rewrite agent_log_log agent_log_trace : pyrw.

(** The run of [agent_tool] from [w], as one equation. *)
Lemma agent_tool_run client cfg agent_prompt user_input w :
  agent_tool client cfg agent_prompt user_input w
  = (Ok (agent_outcome (answer client cfg w agent_prompt user_input)),
     agent_log (answer client cfg w agent_prompt user_input)
       (http_logged (http_answer client cfg w agent_prompt user_input)
          (send (ReqComplete (agent_messages agent_prompt user_input) MAX_TOKENS
                   (AZURE_OPENAI_MODEL cfg)) w))).
Proof.
  unfold agent_tool, answer, http_answer, calls_made, call_complete. run_monad.
  destruct (complete _ _ _ _ _) as [[[|c cs]]|e]; reflexivity.
Qed.

(** C5: [agent_tool] sends exactly one request, [client.complete] with
    the system prompt and the user input, [max_tokens=2048] and the
    configured model; it never raises and prints nothing; it returns the
    first choice's content or, when the service fails or returns no
    choice, ["Error: " + str(e)], and then logs ["Agent failed: ..."]. *)
Theorem agent_tool_spec client cfg agent_prompt user_input w :
  let r := answer client cfg w agent_prompt user_input in
  let '(o, w') := agent_tool client cfg agent_prompt user_input w in
  o = Ok (agent_outcome r) /\
  requests w' = requests w ++ [ReqComplete (agent_messages agent_prompt user_input) MAX_TOKENS
                                 (AZURE_OPENAI_MODEL cfg)] /\
  stdout w' = stdout w /\
  log w' = log w ++ agent_log_lines r.
Proof.
  cbn zeta. rewrite agent_tool_run. unfold agent_log, agent_log_lines.
  destruct (agent_failure _); split_and!; simpl; by rewrite ?app_nil_r.
Qed.

(** C20: the two failures the spec names.  No choice gives
    ["Error: No response choices returned from agent."]; a service
    exception [e] gives ["Error: " + str(e)]. *)
Theorem agent_tool_errors client cfg agent_prompt user_input w :
  (answer client cfg w agent_prompt user_input = Ok (Response []) ->
   fst (agent_tool client cfg agent_prompt user_input w)
   = Ok (Some (‹"Error: No response choices returned from agent."›)))
  /\ (forall e, answer client cfg w agent_prompt user_input = Raise e ->
      fst (agent_tool client cfg agent_prompt user_input w) = Ok (Some (‹"Error: "› ++ exc_str e))).
Proof. rewrite agent_tool_run. split; [intros -> | intros e ->]; reflexivity. Qed.

Definition demo_config : config :=
  Config ‹"https://example.openai.azure.com"› ‹"key"› ‹"gpt-4o"› ‹"2024-05-01-preview"›.

(** A service that answers with no choice. *)
Definition silent_client : chat_client :=
  ChatClient (fun _ _ _ _ => Ok (Response [])) (fun _ _ _ _ => [‹"Response status: 200"›]).

Lemma agent_tool_errors_witness :
  fst (agent_tool silent_client demo_config ‹"prompt"› ‹"input"› (World [] [] [] []))
  = Ok (Some (‹"Error: No response choices returned from agent."›)).
Proof. apply (proj1 (agent_tool_errors silent_client demo_config _ _ _)). reflexivity. Defined.

(** ** Configuration *)

Definition config_vars : list pystr :=
  [‹"AZURE_OPENAI_ENDPOINT"›; ‹"AZURE_OPENAI_KEY"›; ‹"AZURE_OPENAI_MODEL"›;
   ‹"AZURE_OPENAI_API_VERSION"›].

Definition is_set (v : option pystr) : bool := match v with Some (_ :: _) => true | _ => false end.

(** The first variable of the list that is missing or empty. *)
Fixpoint first_unset (getenv : pystr -> option pystr) (vars : list pystr) : option pystr :=
  match vars with
  | [] => None
  | v :: vs => if is_set (getenv v) then first_unset getenv vs else Some v
  end.

Definition getenv_str (getenv : pystr -> option pystr) (v : pystr) : pystr :=
  match getenv v with Some s => s | None => [] end.

Lemma assert_set_spec value message :
  assert_set value message
  = if is_set value then Ok (match value with Some s => s | None => [] end)
    else Raise (Exc AssertionError message).
Proof. by destruct value as [[|c s]|]. Qed.

(** C31: the start-up asserts: the configuration is loaded when the four
    variables are set and non-empty; otherwise the first one missing, in
    the order of the source, raises [AssertionError("<NAME> is not set.")]. *)
Theorem load_config_spec getenv :
  load_config getenv =
  match first_unset getenv config_vars with
  | None => Ok (Config (getenv_str getenv (config_vars !!! 0%nat))
                       (getenv_str getenv (config_vars !!! 1%nat))
                       (getenv_str getenv (config_vars !!! 2%nat))
                       (getenv_str getenv (config_vars !!! 3%nat)))
  | Some v => Raise (Exc AssertionError (v ++ ‹" is not set."›))
  end.
Proof.
  unfold load_config, getenv_str. cbn [first_unset config_vars lookup_total list_lookup_total].
  rewrite !assert_set_spec.
  repeat match goal with |- context [is_set ?x] => destruct (is_set x) eqn:? end;
    try reflexivity.
Qed.

(** An unset or empty variable makes the start-up fail with an assert. *)
Lemma load_config_unset getenv v :
  v ∈ config_vars -> is_set (getenv v) = false ->
  exists msg, load_config getenv = Raise (Exc AssertionError msg).
Proof.
  intros Hv Hu. unfold load_config. rewrite !assert_set_spec.
  repeat (apply elem_of_cons in Hv as [->|Hv]; [|]); [..| by apply elem_of_nil in Hv];
    cbv [mbind result_bind];
    repeat match goal with |- context [is_set ?x] => destruct (is_set x) eqn:? end;
    try congruence; eauto.
Qed.

(** C17: [load_dotenv()] does not override the environment: a
    configuration variable exported empty in the process environment hides
    its value in [.env], and the start-up assert fails whatever the
    [.env] file holds. *)
Theorem dotenv_empty_hides dotenv environ v :
  v ∈ config_vars -> environ v = Some [] ->
  exists msg, load_config (load_dotenv dotenv environ) = Raise (Exc AssertionError msg).
Proof.
  intros Hv He. apply (load_config_unset _ v Hv). unfold load_dotenv. by rewrite He.
Qed.

(** The key exported empty, the [.env] file complete. *)
Definition demo_environ (k : pystr) : option pystr :=
  if bool_decide (k = ‹"AZURE_OPENAI_KEY"›) then Some [] else None.

Definition demo_dotenv (k : pystr) : option pystr := Some ‹"from-dotenv"›.

Lemma dotenv_empty_hides_witness :
  ‹"AZURE_OPENAI_KEY"› ∈ config_vars /\ demo_environ ‹"AZURE_OPENAI_KEY"› = Some [] /\
  exists msg, load_config (load_dotenv demo_dotenv demo_environ) = Raise (Exc AssertionError msg).
Proof.
  split_and!; [decide_concrete | reflexivity |].
  apply (dotenv_empty_hides demo_dotenv demo_environ ‹"AZURE_OPENAI_KEY"›);
    [decide_concrete | reflexivity].
Defined.

End Agent.
