(* ===== verification/Flow.v ===== *)
(** * Flow orchestrator and entry point: [run_agentic_flow] and
    [__main__] (src/langchain_flow.py, lines 226-253)

    [run_agentic_flow] calls the agent three times in a fixed order with
    the same context and prints each result under its header before the
    next call.  The entry point reads the URL, asserts it is not blank,
    runs the analysis, and starts the flow only when the analysis result
    does not start with ["Error"].  The records the flow logs are also
    read through the [sys.stderr] handler of [Logging]. *)

From S2P Require Import Prelude PyStr UrlParser Json Services Traces Logging Fetcher Templates Agent.
Import Services Traces Logging Fetcher Templates Agent.

Module Flow.

Definition STORE_HEADER : pystr := nl ++ ‹"=== Store Listing Agent Output ==="› ++ nl.
Definition PRIVACY_HEADER : pystr := nl ++ ‹"=== Privacy Practices Agent Output ==="› ++ nl.
Definition DISTRIBUTION_HEADER : pystr := nl ++ ‹"=== Distribution Agent Output ==="› ++ nl.

(** [run_agentic_flow(extension_context)] *)
Definition run_agentic_flow (client : chat_client) (cfg : config) (extension_context : pystr)
    : io unit :=
  log_info ‹"Starting Store Listing Agent..."›;;
  store_listing_output ← agent_tool client cfg STORE_LISTING_PROMPT extension_context;
  print STORE_HEADER;;
  print_opt store_listing_output;;
  log_info ‹"Starting Privacy Practices Agent..."›;;
  privacy_practices_output ← agent_tool client cfg PRIVACY_PRACTICES_PROMPT extension_context;
  print PRIVACY_HEADER;;
  print_opt privacy_practices_output;;
  log_info ‹"Starting Distribution Agent..."›;;
  distribution_output ← agent_tool client cfg DISTRIBUTION_PROMPT extension_context;
  print DISTRIBUTION_HEADER;;
  print_opt distribution_output.

Definition INPUT_PROMPT : pystr :=
  ‹"Enter the GitHub repository URL of your Chrome Extension: "›.

Definition empty_url_error : exc :=
  Exc AssertionError ‹"Repository URL must not be empty."›.

(** [input(prompt)] writes the prompt (no newline) and returns the line
    the user typed, here [line]. *)
Definition input (prompt line : pystr) : io pystr :=
  fun w => (Ok line, write_out prompt w).

(** The [if __name__ == "__main__":] block, once the module's start-up
    code has built [client] from [cfg], on the line typed by the user. *)
Definition main `{!PyCodecs} (gh : github) (client : chat_client) (cfg : config) (line : pystr)
    : io unit :=
  repo_url ← input INPUT_PROMPT line;
  if bool_decide (strip repo_url = []) then raise empty_url_error else
  print (nl ++ ‹"Analyzing repository..."›);;
  extension_context ← analyze_github_repo gh repo_url;
  if startswith extension_context ‹"Error"›
  then print (‹"Failed to analyze repository: "› ++ extension_context)
  else print (nl ++ ‹"Repository analysis complete. Running agent flow..."›);;
       run_agentic_flow client cfg extension_context.

(** The whole program: the start-up asserts, then [main]. *)
Definition program `{!PyCodecs} (dotenv environ : pystr -> option pystr) (gh : github)
    (azure : client_settings -> chat_client) (line : pystr) : io unit :=
  cfg ← lift (load_config (load_dotenv dotenv environ));
  main gh (azure (make_client cfg)) cfg line.

(** ** The orchestrator's contract *)

Definition outcome_text (o : option pystr) : pystr :=
  match o with Some s => s | None => ‹"None"› end.

(** The text the [n]-th call of the flow's service returns for [prompt]. *)
Definition nth_outcome (client : chat_client) (cfg : config) (n : nat) (prompt ctx : pystr)
    : option pystr :=
  agent_outcome (complete client n (agent_messages prompt ctx) MAX_TOKENS (AZURE_OPENAI_MODEL cfg)).

(** The service's answer to the [n]-th call of the flow, for [prompt]. *)
Definition nth_answer (client : chat_client) (cfg : config) (n : nat) (prompt ctx : pystr)
    : result response :=
  complete client n (agent_messages prompt ctx) MAX_TOKENS (AZURE_OPENAI_MODEL cfg).

(** The records the HTTP logging policy logs during that call. *)
Definition nth_http (client : chat_client) (cfg : config) (n : nat) (prompt ctx : pystr)
    : list pystr :=
  http_records client n (agent_messages prompt ctx) MAX_TOKENS (AZURE_OPENAI_MODEL cfg).

(** The line the handler writes on [sys.stderr] when that call fails. *)
Definition agent_stderr (r : result response) : pystr :=
  match agent_failure r with
  | Some e => ‹"ERROR:__main__:Agent failed: "› ++ exc_str e ++ nl
  | None => []
  end.

Definition flow_request (cfg : config) (ctx prompt : pystr) : request :=
  ReqComplete (agent_messages prompt ctx) MAX_TOKENS (AZURE_OPENAI_MODEL cfg).

Lemma print_run s w : print s w = (Ok tt, write_out (s ++ nl) w).
Proof. reflexivity. Qed.

Lemma log_info_run s w : log_info s w = (Ok tt, write_log INFO s w).
Proof. reflexivity. Qed.

(** Run the flow step by step. *)
Ltac run_flow :=
  unfold run_agentic_flow; cbv [mbind pyM_bind];
  rewrite log_info_run, agent_tool_run, !print_run; unfold print_opt; rewrite print_run;
  rewrite log_info_run, agent_tool_run, !print_run, log_info_run, agent_tool_run, !print_run;
  unfold answer, http_answer; cbn zeta iota beta.

(** C2: the flow always makes exactly three completion calls, in the
    order store listing, privacy practices, distribution, each with the
    same context; it prints each header and each result in that order,
    each result right after its call, whatever the calls return (a failed
    call's output is its error text), and it never raises. *)
Theorem run_agentic_flow_spec client cfg ctx w :
  let n := calls_made w in
  let '(r, w') := run_agentic_flow client cfg ctx w in
  r = Ok tt /\
  requests w' = requests w ++ map (flow_request cfg ctx)
                                [STORE_LISTING_PROMPT; PRIVACY_PRACTICES_PROMPT; DISTRIBUTION_PROMPT] /\
  stdout w' = stdout w ++
    [STORE_HEADER ++ nl; outcome_text (nth_outcome client cfg n STORE_LISTING_PROMPT ctx) ++ nl;
     PRIVACY_HEADER ++ nl; outcome_text (nth_outcome client cfg (S n) PRIVACY_PRACTICES_PROMPT ctx) ++ nl;
     DISTRIBUTION_HEADER ++ nl; outcome_text (nth_outcome client cfg (S (S n)) DISTRIBUTION_PROMPT ctx) ++ nl].
Proof.
  run_flow. repeat progress (autorewrite with pyrw; cbn [requests stdout write_out write_log send http_logged]).
  rewrite <- !app_assoc. done.
Qed.

(** ** The flow as a sequence of events *)

(** One agent of the flow: its [INFO] record, its call and the HTTP
    records of the call, the failure it logs if any, then its header and
    its result on standard output. *)
Definition flow_step (client : chat_client) (cfg : config) (n : nat) (prompt ctx announce header : pystr)
    : list event :=
  [EvLog INFO announce; EvRequest (flow_request cfg ctx prompt)]
  ++ map EvHttpLog (nth_http client cfg n prompt ctx)
  ++ agent_log_events (nth_answer client cfg n prompt ctx)
  ++ [EvOut (header ++ nl); EvOut (outcome_text (nth_outcome client cfg n prompt ctx) ++ nl)].

Definition flow_events (client : chat_client) (cfg : config) (n : nat) (ctx : pystr) : list event :=
  flow_step client cfg n STORE_LISTING_PROMPT ctx ‹"Starting Store Listing Agent..."› STORE_HEADER
  ++ flow_step client cfg (S n) PRIVACY_PRACTICES_PROMPT ctx
       ‹"Starting Privacy Practices Agent..."› PRIVACY_HEADER
  ++ flow_step client cfg (S (S n)) DISTRIBUTION_PROMPT ctx
       ‹"Starting Distribution Agent..."› DISTRIBUTION_HEADER.

Lemma run_agentic_flow_trace client cfg ctx w :
  trace (snd (run_agentic_flow client cfg ctx w)) = trace w ++ flow_events client cfg (calls_made w) ctx.
Proof.
  run_flow. repeat progress (autorewrite with pyrw; cbn [snd trace write_out write_log send http_logged]).
  unfold flow_events, flow_step, nth_answer, nth_http, nth_outcome, flow_request, outcome_text.
  rewrite <- !app_assoc. reflexivity.
Qed.

Lemma stderr_agent_events r : stderr (agent_log_events r) = agent_stderr r.
Proof.
  unfold agent_log_events, agent_stderr. destruct (agent_failure r); [|done].
  rewrite stderr_cons, stderr_nil, app_nil_r. cbn [event_stderr]. rewrite emit_line.
  unfold BASIC_FORMAT. rewrite <- !app_assoc. reflexivity.
Qed.

(** What one agent of the flow writes on [sys.stderr]. *)
Lemma stderr_flow_step client cfg n prompt ctx announce header :
  stderr (flow_step client cfg n prompt ctx announce header)
  = ‹"INFO:__main__:"› ++ announce ++ nl ++ http_stderr (nth_http client cfg n prompt ctx)
    ++ agent_stderr (nth_answer client cfg n prompt ctx).
Proof.
  unfold flow_step. autorewrite with pyrw. rewrite stderr_agent_events.
  cbn [event_stderr]. rewrite emit_line. unfold BASIC_FORMAT.
  rewrite <- !app_assoc, !app_nil_r. reflexivity.
Qed.

(** C12: what the flow writes on [sys.stderr] through the handler of
    [logging.basicConfig]: for each of the three agents, in order, the
    line ["INFO:__main__:Starting <agent> Agent..."], then the [INFO]
    records azure-core's HTTP logging policy logs during its call, then,
    when the call fails, ["ERROR:__main__:Agent failed: <error>"]; the
    module logs nothing else for a call that succeeds. *)
Theorem run_agentic_flow_stderr client cfg ctx w :
  let n := calls_made w in
  stderr (trace (snd (run_agentic_flow client cfg ctx w)))
  = stderr (trace w)
    ++ ‹"INFO:__main__:Starting Store Listing Agent..."› ++ nl
    ++ http_stderr (nth_http client cfg n STORE_LISTING_PROMPT ctx)
    ++ agent_stderr (nth_answer client cfg n STORE_LISTING_PROMPT ctx)
    ++ ‹"INFO:__main__:Starting Privacy Practices Agent..."› ++ nl
    ++ http_stderr (nth_http client cfg (S n) PRIVACY_PRACTICES_PROMPT ctx)
    ++ agent_stderr (nth_answer client cfg (S n) PRIVACY_PRACTICES_PROMPT ctx)
    ++ ‹"INFO:__main__:Starting Distribution Agent..."› ++ nl
    ++ http_stderr (nth_http client cfg (S (S n)) DISTRIBUTION_PROMPT ctx)
    ++ agent_stderr (nth_answer client cfg (S (S n)) DISTRIBUTION_PROMPT ctx).
Proof.
  cbn zeta. rewrite run_agentic_flow_trace. unfold flow_events.
  rewrite !stderr_app, !stderr_flow_step. rewrite <- !app_assoc. reflexivity.
Qed.

(** Events that are not completion calls. *)
Ltac no_calls := repeat (apply Forall_cons; split; [intros []|]); apply Forall_nil_2.

Lemma flow_step_answered client cfg n prompt ctx announce header :
  leads_to is_call is_print (flow_step client cfg n prompt ctx announce header).
Proof.
  unfold flow_step. cbn [app]. apply leads_to_cons. split; [intros []|].
  apply leads_to_cons. split.
  - intros _. do 2 apply eventually_app_r. by apply eventually_now.
  - apply leads_to_app; [apply leads_to_none; apply Forall_map, Forall_forall; by intros ? ? []|].
    apply leads_to_app; apply leads_to_none; [unfold agent_log_events; case_match | ]; no_calls.
Qed.

(** Each step of the program keeps every call answered. *)
Lemma answered_write_out s w :
  leads_to is_call is_print (trace w) -> leads_to is_call is_print (trace (write_out s w)).
Proof. intros H. cbn [write_out trace]. apply leads_to_app; [done | apply leads_to_none; no_calls]. Qed.

Lemma answered_spec_world `{!PyCodecs} gh url w :
  leads_to is_call is_print (trace w) -> leads_to is_call is_print (trace (spec_world gh url w)).
Proof.
  destruct (spec_world_trace gh url w) as (ev & -> & Hev). intros Hw.
  apply leads_to_app; [done | by apply leads_to_none].
Qed.

Lemma answered_flow client cfg ctx w :
  leads_to is_call is_print (trace w) ->
  leads_to is_call is_print (trace (snd (run_agentic_flow client cfg ctx w))).
Proof.
  rewrite run_agentic_flow_trace. intros H. apply leads_to_app; [done|]. unfold flow_events.
  apply leads_to_app; [apply flow_step_answered|]. apply leads_to_app; apply flow_step_answered.
Qed.

(** ** The entry point *)

Definition analyzing_line : pystr := nl ++ ‹"Analyzing repository..."›.
Definition complete_line : pystr := nl ++ ‹"Repository analysis complete. Running agent flow..."›.
Definition failed_prefix : pystr := ‹"Failed to analyze repository: "›.

(** The world once the prompt and the first message are written. *)
Definition started (w : world) : world :=
  write_out (analyzing_line ++ nl) (write_out INPUT_PROMPT w).

Section Main.
Context `{!PyCodecs} (gh : github) (client : chat_client) (cfg : config).

Lemma error_marker_eq : error_marker = ‹"Error"›.
Proof. reflexivity. Qed.

(** C32: a blank URL (empty or only whitespace): the assertion fails
    before anything is requested or analyzed. *)
Theorem main_blank_url line w :
  strip line = [] ->
  main gh client cfg line w = (Raise empty_url_error, write_out INPUT_PROMPT w).
Proof.
  intros Hs. unfold main, input. cbv [mbind pyM_bind].
  rewrite (bool_decide_eq_true_2 _ Hs). reflexivity.
Qed.

(** C3: when the analysis fails, the flow is not started: no
    completion call is made, and the last line printed is
    ["Failed to analyze repository: " + ctx] with [ctx] the analysis's
    error text. *)
Theorem main_failure_skips_flow line w :
  strip line <> [] -> ~ analysis_succeeds gh line ->
  exists ctx w1,
    analyze_github_repo gh line (started w) = (Ok ctx, w1) /\
    startswith ctx ‹"Error"› = true /\
    main gh client cfg line w = (Ok tt, write_out (failed_prefix ++ ctx ++ nl) w1) /\
    calls_made w1 = calls_made w.
Proof.
  intros Hs Hf. pose proof (analyze_refines gh line (started w)) as Ha.
  pose proof (spec_result_marked gh line) as Hiff.
  exists (spec_result gh line), (spec_world gh line (started w)). rewrite <- error_marker_eq. split_and!; [done | by apply Hiff | |].
  - unfold main, input. cbv [mbind pyM_bind].
    rewrite (bool_decide_eq_false_2 _ Hs). unfold print at 1. cbv [modify].
    change (write_out ((nl ++ ‹"Analyzing repository..."›) ++ nl) (write_out INPUT_PROMPT w))
      with (started w).
    rewrite Ha, <- error_marker_eq, (proj2 Hiff Hf). cbv [print modify].
    unfold failed_prefix. by rewrite <- app_assoc.
  - pose proof (keeps_analyze gh line (started w)) as Hk. rewrite Ha in Hk. simpl in Hk.
    rewrite Hk. reflexivity.
Qed.

(** C19: when the analysis succeeds, its result is handed to the flow
    unchanged, after the ["Repository analysis complete"] line; together
    with [run_agentic_flow_spec] this gives the three calls and six lines. *)
Theorem main_success_runs_flow line w :
  strip line <> [] -> analysis_succeeds gh line ->
  exists ctx w1,
    analyze_github_repo gh line (started w) = (Ok ctx, w1) /\
    startswith ctx ‹"Error"› = false /\
    calls_made w1 = calls_made w /\
    main gh client cfg line w = run_agentic_flow client cfg ctx (write_out (complete_line ++ nl) w1).
Proof.
  intros Hs Hf. pose proof (analyze_refines gh line (started w)) as Ha.
  pose proof (spec_result_marked gh line) as Hiff.
  set (ctx := spec_result gh line) in *. set (w1 := spec_world gh line (started w)) in *.
  assert (Hctx : startswith ctx ‹"Error"› = false).
  { rewrite <- error_marker_eq. destruct (startswith ctx error_marker) eqn:E; [|done].
    exfalso. by apply Hiff. }
  exists ctx, w1. split_and!; [done | done | |].
  - pose proof (keeps_analyze gh line (started w)) as Hk. rewrite Ha in Hk. simpl in Hk.
    rewrite Hk. reflexivity.
  - unfold main, input. cbv [mbind pyM_bind].
    rewrite (bool_decide_eq_false_2 _ Hs). unfold print at 1. cbv [modify].
    change (write_out ((nl ++ ‹"Analyzing repository..."›) ++ nl) (write_out INPUT_PROMPT w))
      with (started w).
    rewrite Ha, Hctx. reflexivity.
Qed.

(** The run of [main], by the abstract reading of the analysis. *)
Lemma main_run line w :
  main gh client cfg line w =
  if bool_decide (strip line = []) then (Raise empty_url_error, write_out INPUT_PROMPT w)
  else if startswith (spec_result gh line) ‹"Error"›
  then (Ok tt, write_out (failed_prefix ++ spec_result gh line ++ nl) (spec_world gh line (started w)))
  else run_agentic_flow client cfg (spec_result gh line)
         (write_out (complete_line ++ nl) (spec_world gh line (started w))).
Proof.
  unfold main, input. cbv [mbind pyM_bind]. case_bool_decide; [reflexivity|].
  unfold print at 1. cbv [modify].
  change (write_out ((nl ++ ‹"Analyzing repository..."›) ++ nl) (write_out INPUT_PROMPT w))
    with (started w).
  rewrite analyze_refines. destruct (startswith (spec_result gh line) ‹"Error"›); [|reflexivity].
  cbv [print modify]. unfold failed_prefix. by rewrite <- app_assoc.
Qed.

(** C16: the order of a successful run.  The prompt and the
    ["Analyzing repository..."] line, then the analysis, which calls only
    GitHub, then the ["analysis complete"] line, then the three agents one
    after the other, each as its [INFO] record, its call, its failure
    record if it fails, its header and its result: each result is
    printed before the next call starts. *)
Theorem main_success_trace line w :
  strip line <> [] -> analysis_succeeds gh line ->
  exists ev,
    Forall (fun e => ~ is_call e) ev /\
    trace (snd (main gh client cfg line w)) =
      trace w ++ [EvOut INPUT_PROMPT; EvOut (analyzing_line ++ nl)] ++ ev
      ++ [EvOut (complete_line ++ nl)] ++ flow_events client cfg (calls_made w) (spec_result gh line).
Proof.
  intros Hs Hf. rewrite main_run, (bool_decide_eq_false_2 _ Hs).
  pose proof (spec_result_marked gh line) as Hiff. rewrite <- error_marker_eq.
  destruct (startswith (spec_result gh line) error_marker) eqn:E; [exfalso; by apply Hiff|].
  destruct (spec_world_trace gh line (started w)) as (ev & Hev & Hno).
  exists ev. split; [done|]. rewrite run_agentic_flow_trace. cbn [write_out trace]. rewrite Hev.
  pose proof (keeps_analyze gh line (started w)) as Hk. rewrite analyze_refines in Hk. simpl in Hk.
  rewrite calls_made_write_out, Hk. cbn [started write_out trace]. by rewrite <- !app_assoc.
Qed.

End Main.

(** C15: the liveness of the whole program: in every run, whatever the
    environment, the repository, the services and the line typed, every
    call to the completion service is eventually followed by a line on
    standard output; no call is left without its output. *)
Theorem program_calls_answered `{!PyCodecs} dotenv environ gh azure line w :
  leads_to is_call is_print (trace w) ->
  leads_to is_call is_print (trace (snd (program dotenv environ gh azure line w))).
Proof.
  intros Hw. unfold program. cbv [mbind pyM_bind lift].
  destruct (load_config (load_dotenv dotenv environ)) as [cfg|e]; [|done].
  rewrite main_run. case_bool_decide; [by apply answered_write_out|].
  assert (Hs : leads_to is_call is_print (trace (spec_world gh line (started w)))).
  { by apply answered_spec_world, answered_write_out, answered_write_out. }
  destruct (startswith _ _); [by apply answered_write_out|].
  by apply answered_flow, answered_write_out.
Qed.


(** ** The entry point at concrete inputs *)

#[local] Existing Instance cpython_codecs.

Definition echo_client : chat_client :=
  ChatClient (fun _ _ _ _ => Ok (Response [Choice (Some ‹"{}"›)]))
    (fun _ _ _ _ => [‹"Request URL: 'https://example.openai.azure.com/chat/completions'"›;
                     ‹"Response status: 200"›]).

Lemma main_blank_url_witness :
  main (demo_github full_repo) echo_client demo_config ‹"   "› w0
  = (Raise empty_url_error, write_out INPUT_PROMPT w0).
Proof. apply main_blank_url. vm_compute. reflexivity. Defined.

Lemma main_failure_skips_flow_witness :
  exists ctx w1,
    analyze_github_repo (GitHub (fun _ => Raise not_found)) demo_url (started w0) = (Ok ctx, w1) /\
    startswith ctx ‹"Error"› = true /\
    main (GitHub (fun _ => Raise not_found)) echo_client demo_config demo_url w0
    = (Ok tt, write_out (failed_prefix ++ ctx ++ nl) w1) /\
    calls_made w1 = calls_made w0.
Proof.
  apply main_failure_skips_flow; [vm_compute; discriminate |].
  intros (o & n & r & m & kvs & Hp & Hr & _). vm_compute in Hp. injection Hp as <- <-.
  vm_compute in Hr. discriminate.
Defined.

Lemma main_success_trace_witness :
  exists ev : list event,
    Forall (fun e => ~ is_call e) ev /\
    trace (snd (main (demo_github full_repo) echo_client demo_config demo_url w0)) =
      trace w0 ++ [EvOut INPUT_PROMPT; EvOut (analyzing_line ++ nl)] ++ ev
      ++ [EvOut (complete_line ++ nl)]
      ++ flow_events echo_client demo_config (calls_made w0) (spec_result (demo_github full_repo) demo_url).
Proof.
  apply main_success_trace; [vm_compute; discriminate |].
  exists ‹"owner"›, ‹"tab-organizer"›, full_repo, demo_manifest, demo_kvs.
  split_and!; [vm_compute; reflexivity .. | discriminate | vm_compute; reflexivity].
Defined.

(** An environment where every variable is set, and no [.env] file. *)
Definition demo_env (v : pystr) : option pystr := Some ‹"set"›.

Lemma program_calls_answered_witness :
  leads_to is_call is_print (trace w0) /\
  leads_to is_call is_print (trace (snd (program (fun _ => None) demo_env (demo_github full_repo) (fun _ => echo_client) demo_url w0))).
Proof. split; [apply leads_to_nil | apply program_calls_answered; apply leads_to_nil]. Defined.

(** The same property, decided on the trace of that run. *)
Example scenario_program_trace :
  bool_decide (leads_to is_call is_print
    (trace (snd (program (fun _ => None) demo_env (demo_github full_repo) (fun _ => echo_client) demo_url w0)))) = true.
Proof. vm_compute. reflexivity. Qed.

Lemma main_success_runs_flow_witness :
  exists ctx w1,
    analyze_github_repo (demo_github full_repo) demo_url (started w0) = (Ok ctx, w1) /\
    startswith ctx ‹"Error"› = false /\
    calls_made w1 = calls_made w0 /\
    main (demo_github full_repo) echo_client demo_config demo_url w0
    = run_agentic_flow echo_client demo_config ctx (write_out (complete_line ++ nl) w1).
Proof.
  apply main_success_runs_flow; [vm_compute; discriminate |].
  exists ‹"owner"›, ‹"tab-organizer"›, full_repo, demo_manifest, demo_kvs.
  split_and!; [vm_compute; reflexivity .. | discriminate | vm_compute; reflexivity].
Defined.

(** Scenario 4 of the spec ([test_analyze_github_repo_no_manifest]): every
    file lookup fails; the analysis reports the missing manifest and the
    flow makes no completion call. *)
Example scenario_fetch_fails :
  let '(r, w) := main (demo_github (demo_repo [])) echo_client demo_config demo_url w0 in
  r = Ok tt /\ calls_made w = 0%nat /\
  last (stdout w) = Some (failed_prefix ++ manifest_error ++ nl).
Proof. vm_compute. split_and!; reflexivity. Qed.

(** Scenario 5 ([test_run_agentic_flow_prints_outputs]): a service that
    answers ["mocked output"] to every call; the three headers are printed
    in order, each followed by the answer. *)
Definition mocked_client : chat_client :=
  ChatClient (fun _ _ _ _ => Ok (Response [Choice (Some ‹"mocked output"›)])) (fun _ _ _ _ => []).

Example scenario_flow_output :
  stdout (snd (run_agentic_flow mocked_client demo_config ‹"Test extension context"› w0))
  = [STORE_HEADER ++ nl; ‹"mocked output"› ++ nl; PRIVACY_HEADER ++ nl; ‹"mocked output"› ++ nl;
     DISTRIBUTION_HEADER ++ nl; ‹"mocked output"› ++ nl].
Proof. vm_compute. reflexivity. Qed.

End Flow.
